(** * discord_webhook: a shallow embedding of [webhook.py] and [async_webhook.py]

    The development follows the two source files of the package:

    - Python values, dictionaries and the few builtins the code relies on
      ([str.split], negative indexing, [int(s, 16)], [float], truthiness,
      [json.dumps] / [json.loads]);
    - [DiscordEmbed] (the message builder);
    - [DiscordWebhook] (the blocking client) over a scripted transport;
    - [AsyncDiscordWebhook] (the awaiting client), which overrides
      [api_post_request], [handle_rate_limit], [execute], [edit], [delete];
    - the properties of the package, one theorem per property. *)

From Stdlib Require Import ZArith QArith String Ascii List Lia.
From stdpp Require Import base option list gmap strings.

Set Warnings "-register-all".

Local Open Scope string_scope.
Local Open Scope list_scope.

(** ** Python values *)

(** The values that travel through keyword arguments, payloads, file slots
    and JSON bodies.  A tuple and a list are both [VList]: the code only
    iterates over them, tests their truth value or serialises them, and
    these three agree on tuples and lists.  Floats are rationals.
    [VJson v] is the [str] that [json.dumps v] returns and [VJsonBytes v]
    its [encode("utf-8")]: they are produced for the [payload_json] file
    slot only, and their text is never inspected by the code. *)
Inductive PyVal : Type :=
| VNone
| VBool (b : bool)
| VInt (n : Z)
| VFloat (q : Q)
| VStr (s : string)
| VBytes (b : string)
| VList (l : list PyVal)
| VDict (d : list (string * PyVal))
| VJson (v : PyVal)
| VJsonBytes (v : PyVal).

(** A [dict] with [str] keys: insertion ordered, keys unique. *)
Abbreviation dict := (list (string * PyVal)).

Module Dict.

Fixpoint get {A} (k : string) (d : list (string * A)) : option A :=
  match d with
  | [] => None
  | (k', v) :: d' => if String.eqb k k' then Some v else get k d'
  end.

(** [d[k] = v]: overwrite in place when the key exists, append otherwise. *)
Fixpoint set {A} (k : string) (v : A) (d : list (string * A))
  : list (string * A) :=
  match d with
  | [] => [(k, v)]
  | (k', v') :: d' =>
      if String.eqb k k' then (k, v) :: d' else (k', v') :: set k v d'
  end.

Definition mem {A} (k : string) (d : list (string * A)) : bool :=
  match get k d with Some _ => true | None => false end.

Definition keys {A} (d : list (string * A)) : list string := map fst d.

(** [d.pop(k, None)] as far as the mapping goes: the entry of [k], if
    there is one, is dropped. *)
Fixpoint remove {A} (k : string) (d : list (string * A))
  : list (string * A) :=
  match d with
  | [] => []
  | (k', v) :: d' =>
      if String.eqb k k' then remove k d' else (k', v) :: remove k d'
  end.

End Dict.

(** [dict.get(k)] of Python returns [None] for a missing key. *)
Definition py_get (k : string) (d : dict) : PyVal :=
  match Dict.get k d with Some v => v | None => VNone end.

(** [dict.get(k, default)]. *)
Definition py_get_default (k : string) (default : PyVal) (d : dict) : PyVal :=
  match Dict.get k d with Some v => v | None => default end.

(** [bool(v)]. *)
Definition truthy (v : PyVal) : bool :=
  match v with
  | VNone => false
  | VBool b => b
  | VInt n => negb (n =? 0)%Z
  | VFloat q => negb (Qeq_bool q 0)
  | VStr s => negb (String.eqb s "")
  | VBytes b => negb (String.eqb b "")
  | VList l => match l with [] => false | _ => true end
  | VDict d => match d with [] => false | _ => true end
  | VJson _ => true
  | VJsonBytes _ => true
  end.

(** Whether [json.dumps] accepts the value: it raises [TypeError] on
    [bytes], wherever they sit. *)
Fixpoint serializable (v : PyVal) : bool :=
  match v with
  | VNone | VBool _ | VInt _ | VFloat _ | VStr _ | VJson _ => true
  | VBytes _ | VJsonBytes _ => false
  | VList l => forallb serializable l
  | VDict d => forallb (fun kv => serializable (snd kv)) d
  end.

(** ** Exceptions and results *)

(** Modelled from the spec: [ColorNotInRangeException] is declared in
    [webhook_exceptions.py], which is not among the sources; it is the
    "value out of range" error that [set_color] raises.  The other
    constructors are exceptions of Python and of its [json] and [http]
    libraries, and [ConnectionError] is what the transport raises when
    the remote end gives no answer.  Exceptions are told apart by their
    class; their messages are not modelled. *)
Inductive Exn : Type :=
| ValueError | TypeError | KeyError | IndexError | AttributeError
| AssertionError | JSONDecodeError | HTTPException
| ColorNotInRangeException
| ConnectionError
| UnicodeDecodeError | OverflowError.

(** The outcome of a call: a value, a raised exception, or a call that
    has not returned: a retry loop that was still running when its fuel
    ran out, or a wait that never ends. *)
Inductive Result (A : Type) : Type :=
| Ok (a : A)
| Raise (e : Exn)
| OutOfFuel.
Arguments Ok {A} a.
Arguments Raise {A} e.
Arguments OutOfFuel {A}.

Definition res_bind {A B} (r : Result A) (k : A -> Result B) : Result B :=
  match r with
  | Ok a => k a
  | Raise e => Raise e
  | OutOfFuel => OutOfFuel
  end.

(** [json.dumps(v)]. *)
Definition json_dumps (v : PyVal) : Result PyVal :=
  if serializable v then Ok (VJson v) else Raise TypeError.

(** ** String builtins *)

(** [s.split(sep)] for a one-character separator: the pieces between the
    separators, empty pieces included; never an empty list. *)
Fixpoint split_aux (sep : ascii) (s : string) (cur : string)
  : list string :=
  match s with
  | EmptyString => [cur]
  | String c s' =>
      if Ascii.eqb c sep
      then cur :: split_aux sep s' ""
      else split_aux sep s' (cur ++ String c "")
  end.

Definition split (sep : ascii) (s : string) : list string :=
  split_aux sep s "".

(** [l[-k]] for [k >= 1]: [IndexError] when the list is shorter than [k]. *)
Definition index_from_end {A} (l : list A) (k : nat) : Result A :=
  if (length l <? k)%nat then Raise IndexError
  else match l !! (length l - k)%nat with
       | Some x => Ok x
       | None => Raise IndexError
       end.

(** ** Number builtins *)

Definition hex_digit (c : ascii) : option Z :=
  let n := Z.of_nat (nat_of_ascii c) in
  if ((48 <=? n) && (n <=? 57))%Z then Some (n - 48)%Z
  else if ((97 <=? n) && (n <=? 102))%Z then Some (n - 87)%Z
  else if ((65 <=? n) && (n <=? 70))%Z then Some (n - 55)%Z
  else None.

Definition is_space (c : ascii) : bool :=
  let n := nat_of_ascii c in
  ((9 <=? n) && (n <=? 13))%nat || (n =? 32)%nat.

Fixpoint lstrip (s : string) : string :=
  match s with
  | String c s' => if is_space c then lstrip s' else s
  | EmptyString => EmptyString
  end.

Definition string_rev (s : string) : string :=
  string_of_list_ascii (rev (list_ascii_of_string s)).

Definition strip (s : string) : string :=
  string_rev (lstrip (string_rev (lstrip s))).

(** Digits of a base-16 literal after sign and prefix.  [after_digit]
    says that the previous character was a digit, which is where a single
    underscore may stand; the literal must end in a digit. *)
Fixpoint hex_digits (s : string) (acc : Z) (after_digit : bool)
  : option Z :=
  match s with
  | EmptyString => if after_digit then Some acc else None
  | String c s' =>
      if Ascii.eqb c "_"
      then if after_digit then hex_digits s' acc false else None
      else match hex_digit c with
           | Some d => hex_digits s' (16 * acc + d)%Z true
           | None => None
           end
  end.

(** After the [0x] prefix one underscore may come first. *)
Definition hex_body (s : string) : option Z :=
  match s with
  | String "0" (String x s') =>
      if (Ascii.eqb x "x" || Ascii.eqb x "X")%bool
      then match s' with
           | String "_" s'' => hex_digits s'' 0 false
           | _ => hex_digits s' 0 false
           end
      else hex_digits s 0 false
  | _ => hex_digits s 0 false
  end.

(** [int(s, 16)]: surrounding white space, an optional sign, an optional
    [0x] prefix, hexadecimal digits with single underscores between them;
    [ValueError] for anything else. *)
Definition int16 (s : string) : Result Z :=
  let body :=
    match strip s with
    | String "-" s' => option_map Z.opp (hex_body s')
    | String "+" s' => hex_body s'
    | s' => hex_body s'
    end in
  match body with
  | Some n => Ok n
  | None => Raise ValueError
  end.

(** [s.lower()] on ASCII text. *)
Definition lower_ascii (c : ascii) : ascii :=
  let n := nat_of_ascii c in
  if ((65 <=? n) && (n <=? 90))%nat then ascii_of_nat (n + 32) else c.

Fixpoint lower (s : string) : string :=
  match s with
  | EmptyString => EmptyString
  | String c s' => String (lower_ascii c) (lower s')
  end.

(** A Python [float]: a rational, an infinity or NaN.  The finite
    floats are idealised as rationals: no rounding, no overflow. *)
Inductive PyFloat : Type :=
| Finite (q : Q)
| Infinite (negative : bool)
| NaN.

(** [x + y] for a finite [y]. *)
Definition float_add (x : PyFloat) (y : Q) : PyFloat :=
  match x with
  | Finite q => Finite (q + y)%Q
  | other => other
  end.

Definition float_neg (x : PyFloat) : PyFloat :=
  match x with
  | Finite q => Finite (- q)%Q
  | Infinite negative => Infinite (negb negative)
  | NaN => NaN
  end.

Definition is_digit (c : ascii) : bool :=
  let n := nat_of_ascii c in ((48 <=? n) && (n <=? 57))%nat.

(** In a float literal an underscore may only stand between two
    digits. *)
Fixpoint underscores_ok (s : string) (after_digit : bool) : bool :=
  match s with
  | EmptyString => true
  | String c s' =>
      if Ascii.eqb c "_"
      then after_digit
           && match s' with
              | String d _ => is_digit d
              | EmptyString => false
              end
           && underscores_ok s' false
      else underscores_ok s' (is_digit c)
  end.

Fixpoint without_underscores (s : string) : string :=
  match s with
  | EmptyString => EmptyString
  | String c s' =>
      if Ascii.eqb c "_" then without_underscores s'
      else String c (without_underscores s')
  end.

(** The digits of an exponent: at least one. *)
Fixpoint exp_digits (s : string) (acc : Z) (seen : bool) : option Z :=
  match s with
  | EmptyString => if seen then Some acc else None
  | String c s' =>
      if is_digit c
      then exp_digits s' (10 * acc + (Z.of_nat (nat_of_ascii c) - 48))%Z true
      else None
  end.

(** What follows [e] or [E]: an optional sign and the digits. *)
Definition exponent (s : string) : option Z :=
  match s with
  | String "-" s' => option_map Z.opp (exp_digits s' 0 false)
  | String "+" s' => exp_digits s' 0 false
  | s' => exp_digits s' 0 false
  end.

(** Decimal digits of a float literal: the value read so far and the
    power of ten to divide it by once the point has been passed; an
    exponent may follow a mantissa that has a digit. *)
Fixpoint dec_digits (s : string) (num : Z) (den : positive)
  (frac seen : bool) : option Q :=
  match s with
  | EmptyString => if seen then Some (num # den) else None
  | String c s' =>
      if Ascii.eqb c "."
      then if frac then None else dec_digits s' num den true seen
      else if (Ascii.eqb c "e" || Ascii.eqb c "E")%bool
      then if seen
           then option_map (fun e => ((num # den) * Qpower (10 # 1) e)%Q)
                  (exponent s')
           else None
      else
        let n := Z.of_nat (nat_of_ascii c) in
        if ((48 <=? n) && (n <=? 57))%Z
        then dec_digits s' (10 * num + (n - 48))%Z
               (if frac then (10 * den)%positive else den) frac true
        else None
  end.

(** An unsigned float literal: [inf], [infinity] and [nan] in any case,
    or a decimal number. *)
Definition abs_float (s : string) : option PyFloat :=
  let l := lower s in
  if (String.eqb l "inf" || String.eqb l "infinity")%bool
  then Some (Infinite false)
  else if String.eqb l "nan" then Some NaN
  else if underscores_ok s false
  then option_map Finite (dec_digits (without_underscores s) 0 1 false false)
  else None.

(** [float(s)] for a string: surrounding white space, an optional sign,
    an unsigned literal; [ValueError] for anything else. *)
Definition float_of_string (s : string) : Result PyFloat :=
  let r :=
    match strip s with
    | String "-" s' => option_map float_neg (abs_float s')
    | String "+" s' => abs_float s'
    | s' => abs_float s'
    end in
  match r with Some x => Ok x | None => Raise ValueError end.

(** [float(v)] on the values a parsed body can hold: numbers and
    booleans convert, a [str] is read as a float literal (and so is
    [bytes]), the rest raises [TypeError]. *)
Definition py_float (v : PyVal) : Result PyFloat :=
  match v with
  | VInt n => Ok (Finite (inject_Z n))
  | VFloat q => Ok (Finite q)
  | VBool b => Ok (Finite (if b then 1%Q else 0%Q))
  | VStr s | VBytes s => float_of_string s
  | _ => Raise TypeError
  end.

(** ** List builtins *)

(** [l.pop(i)]: the element at index [i] and the list without it.  A
    negative index counts from the end; an index outside
    [-len(l), len(l) - 1] raises [IndexError], as does any index on an
    empty list. *)
Definition py_pop {A} (l : list A) (i : Z) : Result (A * list A) :=
  let n := Z.of_nat (length l) in
  let j := if (i <? 0)%Z then (i + n)%Z else i in
  if ((0 <=? j) && (j <? n))%Z
  then match l !! Z.to_nat j with
       | Some x => Ok (x, delete (Z.to_nat j) l)
       | None => Raise IndexError
       end
  else Raise IndexError.

(** ** [DiscordEmbed] *)

(** The argument of [set_color]: [None], a decimal [int] or a [str] of
    hexadecimal digits. *)
Inductive ColorArg : Type :=
| CNone
| CInt (n : Z)
| CStr (s : string).

Module DiscordEmbed.

(** The attributes of a [DiscordEmbed], typed as the class annotates
    them.  [timestamp] is the one attribute [__init__] may leave
    unassigned: [None] here means that the object has no such attribute
    yet (reading it raises [AttributeError]), [Some s] that
    [set_timestamp] stored the ISO-8601 text [s]. *)
Record t : Type := mk {
  author : option dict;
  color : option Z;
  description : option string;
  fields : list dict;
  footer : option dict;
  image : option dict;
  provider : option dict;
  thumbnail : option dict;
  timestamp : option string;
  title : option string;
  url : option string;
  video : option dict
}.

Definition with_color (c : option Z) (e : t) : t :=
  mk (author e) c (description e) (fields e) (footer e) (image e)
     (provider e) (thumbnail e) (timestamp e) (title e) (url e) (video e).

Definition with_timestamp (ts : option string) (e : t) : t :=
  mk (author e) (color e) (description e) (fields e) (footer e) (image e)
     (provider e) (thumbnail e) ts (title e) (url e) (video e).

Definition with_fields (fs : list dict) (e : t) : t :=
  mk (author e) (color e) (description e) fs (footer e) (image e)
     (provider e) (thumbnail e) (timestamp e) (title e) (url e) (video e).

Definition with_footer (d : option dict) (e : t) : t :=
  mk (author e) (color e) (description e) (fields e) d (image e)
     (provider e) (thumbnail e) (timestamp e) (title e) (url e) (video e).

Definition with_author (d : option dict) (e : t) : t :=
  mk d (color e) (description e) (fields e) (footer e) (image e)
     (provider e) (thumbnail e) (timestamp e) (title e) (url e) (video e).

(** [self.timestamp = timestamp.isoformat()]; [iso] is the text the
    [datetime] library produces for the normalised argument. *)
Definition set_timestamp (iso : string) (e : t) : t :=
  with_timestamp (Some iso) e.

(** [self.color = int(color, 16) if isinstance(color, str) else color],
    then the range test.  The attribute is assigned before the test, so
    a rejected colour stays stored; when [int] itself raises, nothing is
    assigned. *)
Definition set_color (c : ColorArg) (e : t) : Result unit * t :=
  let check (n : Z) :=
    let e' := with_color (Some n) e in
    if ((0 <=? n) && (n <? 16777216))%Z
    then (Ok tt, e')
    else (Raise ColorNotInRangeException, e') in
  match c with
  | CNone => (Ok tt, with_color None e)
  | CInt n => check n
  | CStr s =>
      match int16 s with
      | Ok n => check n
      | Raise x => (Raise x, e)
      | OutOfFuel => (OutOfFuel, e)
      end
  end.

(** The keyword arguments of [__init__]: [None] is a key that was not
    passed.  [kw_timestamp] holds the ISO text of a truthy [timestamp]
    argument. *)
Record kwargs : Type := mk_kwargs {
  kw_url : option string;
  kw_footer : option dict;
  kw_image : option dict;
  kw_thumbnail : option dict;
  kw_video : option dict;
  kw_provider : option dict;
  kw_author : option dict;
  kw_fields : option (list dict);
  kw_color : ColorArg;
  kw_timestamp : option string
}.

Definition no_kwargs : kwargs :=
  mk_kwargs None None None None None None None None CNone None.

(** [DiscordEmbed.__init__].  No attribute [timestamp] is created unless
    a truthy one was passed. *)
Definition init (title description : option string) (kw : kwargs)
  : Result t :=
  let e0 :=
    mk (kw_author kw) None description
       (match kw_fields kw with Some fs => fs | None => [] end)
       (kw_footer kw) (kw_image kw) (kw_provider kw) (kw_thumbnail kw)
       None title (kw_url kw) (kw_video kw) in
  match set_color (kw_color kw) e0 with
  | (Ok _, e1) =>
      match kw_timestamp kw with
      | Some iso => Ok (set_timestamp iso e1)
      | None => Ok e1
      end
  | (Raise x, _) => Raise x
  | (OutOfFuel, _) => OutOfFuel
  end.

(** [for field, value in self.fields]: every element is unpacked into
    exactly two names.  Iterating a [dict] yields its keys, so an
    element with two keys binds the two key strings and any other
    number of keys raises [ValueError]. *)
Fixpoint fields_length (fs : list dict) (total : nat) : Result nat :=
  match fs with
  | [] => Ok total
  | d :: fs' =>
      match Dict.keys d with
      | [field; value] =>
          fields_length fs'
            (total + (String.length field + String.length value))
      | _ => Raise ValueError
      end
  end.

Definition str_len (s : option string) : nat :=
  match s with Some x => String.length x | None => 0 end.

(** [len(d or "")] for a mapping: the number of its keys. *)
Definition dict_len (d : option dict) : nat :=
  match d with Some x => length x | None => 0 end.

(** [DiscordEmbed.__len__]. *)
Definition len (e : t) : Result nat :=
  res_bind (fields_length (fields e) 0) (fun total =>
  Ok (total + str_len (title e) + str_len (description e)
      + dict_len (footer e) + dict_len (author e))).

Definition put_str (k : string) (s : option string) (data : dict) : dict :=
  match s with
  | Some x => if negb (String.eqb x "") then Dict.set k (VStr x) data else data
  | None => data
  end.

Definition put_dict (k : string) (d : option dict) (data : dict) : dict :=
  match d with
  | Some (kv :: d') => Dict.set k (VDict (kv :: d')) data
  | _ => data
  end.

(** [DiscordEmbed.as_dict]: the tests of the source in their order.
    Reading [self.timestamp] raises when the attribute was never
    assigned. *)
Definition as_dict (e : t) : Result dict :=
  let data : dict := [] in
  let data := put_str "title" (title e) data in
  let data := put_str "description" (description e) data in
  let data := put_str "url" (url e) data in
  match timestamp e with
  | None => Raise AttributeError
  | Some ts =>
      let data := put_str "timestamp" (Some ts) data in
      let data :=
        match color e with
        | Some c => if negb (c =? 0)%Z then Dict.set "color" (VInt c) data
                    else data
        | None => data
        end in
      let data := put_dict "footer" (footer e) data in
      let data := put_dict "image" (image e) data in
      let data := put_dict "thumbnail" (thumbnail e) data in
      let data := put_str "description" (description e) data in
      let data := put_dict "video" (video e) data in
      let data := put_dict "provider" (provider e) data in
      let data := put_dict "author" (author e) data in
      let data :=
        match fields e with
        | [] => data
        | fs => Dict.set "fields" (VList (map VDict fs)) data
        end in
      Ok data
  end.

Definition opt_entry (k : string) (s : option string) : dict :=
  match s with
  | Some x => if negb (String.eqb x "") then [(k, VStr x)] else []
  | None => []
  end.

(** [set_footer(text, icon_url=None, proxy_icon_url=None)]. *)
Definition set_footer (text : string) (icon_url proxy_icon_url : option string)
  (e : t) : t :=
  with_footer
    (Some ([("text", VStr text)] ++ opt_entry "icon_url" icon_url
           ++ opt_entry "proxy_icon_url" proxy_icon_url)) e.

(** [set_author(name, url=None, icon_url=None, proxy_icon_url=None)]. *)
Definition set_author (name : string)
  (url icon_url proxy_icon_url : option string) (e : t) : t :=
  with_author
    (Some ([("name", VStr name)] ++ opt_entry "url" url
           ++ opt_entry "icon_url" icon_url
           ++ opt_entry "proxy_icon_url" proxy_icon_url)) e.

(** [add_embed_field(name, value, inline=True)]. *)
Definition add_embed_field (name value : string) (inline : bool) (e : t) : t :=
  with_fields
    (fields e ++ [[("name", VStr name); ("value", VStr value);
                   ("inline", VBool inline)]]) e.

Definition with_title (v : option string) (e : t) : t :=
  mk (author e) (color e) (description e) (fields e) (footer e) (image e)
     (provider e) (thumbnail e) (timestamp e) v (url e) (video e).

Definition with_description (v : option string) (e : t) : t :=
  mk (author e) (color e) v (fields e) (footer e) (image e)
     (provider e) (thumbnail e) (timestamp e) (title e) (url e) (video e).

Definition with_url (v : option string) (e : t) : t :=
  mk (author e) (color e) (description e) (fields e) (footer e) (image e)
     (provider e) (thumbnail e) (timestamp e) (title e) v (video e).

Definition with_image (d : option dict) (e : t) : t :=
  mk (author e) (color e) (description e) (fields e) (footer e) d
     (provider e) (thumbnail e) (timestamp e) (title e) (url e) (video e).

Definition with_thumbnail (d : option dict) (e : t) : t :=
  mk (author e) (color e) (description e) (fields e) (footer e) (image e)
     (provider e) d (timestamp e) (title e) (url e) (video e).

Definition with_video (d : option dict) (e : t) : t :=
  mk (author e) (color e) (description e) (fields e) (footer e) (image e)
     (provider e) (thumbnail e) (timestamp e) (title e) (url e) d.

Definition with_provider (d : option dict) (e : t) : t :=
  mk (author e) (color e) (description e) (fields e) (footer e) (image e)
     d (thumbnail e) (timestamp e) (title e) (url e) (video e).

(** [set_title], [set_description], [set_url]. *)
Definition set_title (title : string) (e : t) : t :=
  with_title (Some title) e.

Definition set_description (description : string) (e : t) : t :=
  with_description (Some description) e.

Definition set_url (url : string) (e : t) : t :=
  with_url (Some url) e.

(** An entry for an [int] parameter tested with [is not None]. *)
Definition int_entry (k : string) (n : option Z) : dict :=
  match n with
  | Some x => [(k, VInt x)]
  | None => []
  end.

(** [set_image(url, proxy_url=None, height=None, width=None)]. *)
Definition set_image (url : string) (proxy_url : option string)
  (height width : option Z) (e : t) : t :=
  with_image
    (Some ([("url", VStr url)] ++ opt_entry "proxy_url" proxy_url
           ++ int_entry "height" height ++ int_entry "width" width)) e.

(** [set_thumbnail(url, proxy_url=None, height=None, width=None)]. *)
Definition set_thumbnail (url : string) (proxy_url : option string)
  (height width : option Z) (e : t) : t :=
  with_thumbnail
    (Some ([("url", VStr url)] ++ opt_entry "proxy_url" proxy_url
           ++ int_entry "height" height ++ int_entry "width" width)) e.

(** [set_video(url=None, height=None, width=None)]. *)
Definition set_video (url : option string) (height width : option Z)
  (e : t) : t :=
  with_video
    (Some (opt_entry "url" url ++ int_entry "height" height
           ++ int_entry "width" width)) e.

(** [set_provider(name=None, url=None)]. *)
Definition set_provider (name url : option string) (e : t) : t :=
  with_provider (Some (opt_entry "name" name ++ opt_entry "url" url)) e.

(** [delete_embed_field(index)]: [self.fields.pop(index)]. *)
Definition delete_embed_field (index : Z) (e : t) : Result unit * t :=
  match py_pop (fields e) index with
  | Ok (_, fs) => (Ok tt, with_fields fs e)
  | Raise x => (Raise x, e)
  | OutOfFuel => (OutOfFuel, e)
  end.

(** [get_embed_fields]. *)
Definition get_embed_fields (e : t) : list dict := fields e.

End DiscordEmbed.

(** ** A state and exception monad

    Python keeps every mutation made before an exception is raised, so the
    state is returned on all three outcomes. *)

Definition M (S A : Type) : Type := S -> Result A * S.

Definition ret {S A} (a : A) : M S A := fun s => (Ok a, s).

Definition raise {S A} (e : Exn) : M S A := fun s => (Raise e, s).

Definition lift {S A} (r : Result A) : M S A := fun s => (r, s).

Definition bind {S A B} (m : M S A) (k : A -> M S B) : M S B :=
  fun s =>
    match m s with
    | (Ok a, s') => k a s'
    | (Raise e, s') => (Raise e, s')
    | (OutOfFuel, s') => (OutOfFuel, s')
    end.

Definition gets {S A} (f : S -> A) : M S A := fun s => (Ok (f s), s).

Definition modify {S} (f : S -> S) : M S unit := fun s => (Ok tt, f s).

Declare Scope py_scope.
Delimit Scope py_scope with py.
Notation "x <- m ;; k" := (bind m (fun x => k))
  (at level 100, m at next level, right associativity) : py_scope.
Notation "m ;;; k" := (bind m (fun _ => k))
  (at level 100, right associativity) : py_scope.

(** ** The transport and the store *)

(** A response body, by what reading it gives: bytes that are not valid
    UTF-8, on which [decode("utf-8")] raises [UnicodeDecodeError]; text
    that is not JSON (an empty body, HTML), on which [json.loads] raises
    [JSONDecodeError]; or the JSON text of a value. *)
Inductive Body : Type :=
| BNotJson (raw : string)
| BJson (v : PyVal)
| BNotUtf8 (raw : string).

Module Response.
Record t : Type := mk {
  status_code : Z;
  headers : list (string * string);
  content : Body
}.
End Response.
Abbreviation Response := Response.t.
Abbreviation status_code := Response.status_code.
Abbreviation headers := Response.headers.

Inductive Method : Type := POST | PATCH | DELETE.

Inductive ReqBody : Type :=
| NoBody
| JsonBody (payload : dict)
| FilesBody (files : PyVal).

(** What a call of [requests.post], [requests.patch], [requests.delete]
    (or of the [httpx] client) is given.  An omitted [params] argument is
    the empty mapping. *)
Record Request : Type := mk_request {
  method : Method;
  req_url : option string;
  body : ReqBody;
  params : dict;
  req_proxies : PyVal;
  req_timeout : PyVal
}.

Inductive Event : Type :=
| EvRequest (r : Request)
| EvSleep (seconds : Q).

Abbreviation loc := nat.

(** The world a client runs in: the store of embed lists (a client holds
    a reference to its list, and two clients may hold the same one), the
    responses the remote end will give, in order, and the requests and
    waits performed so far. *)
Record World : Type := mk_world {
  heap : gmap loc (list DiscordEmbed.t);
  server : list Response;
  trace : list Event
}.

Definition with_heap (h : gmap loc (list DiscordEmbed.t)) (w : World) : World :=
  mk_world h (server w) (trace w).

(** A new list object. *)
Definition alloc (es : list DiscordEmbed.t) (w : World) : loc * World :=
  let l := fresh (dom (heap w)) in
  (l, with_heap (<[l := es]> (heap w)) w).

Definition deref (w : World) (l : loc) : list DiscordEmbed.t :=
  default [] (heap w !! l).

(** One round trip: the request is recorded and the next scripted
    response returned.  With no response left the transport raises. *)
Definition transport (req : Request) (w : World) : Result Response * World :=
  match server w with
  | [] => (Raise ConnectionError,
           mk_world (heap w) [] (trace w ++ [EvRequest req]))
  | r :: rest => (Ok r, mk_world (heap w) rest (trace w ++ [EvRequest req]))
  end.

(** A wait of [seconds] that has ended. *)
Definition sleep (seconds : Q) (w : World) : World :=
  mk_world (heap w) (server w) (trace w ++ [EvSleep seconds]).

(** [response.content.decode("utf-8")]: the text itself is only ever
    logged or parsed, so the body stands for it. *)
Definition decode (b : Body) : Result Body :=
  match b with
  | BNotUtf8 _ => Raise UnicodeDecodeError
  | text => Ok text
  end.

(** [json.loads(text)]. *)
Definition loads (text : Body) : Result PyVal :=
  match text with
  | BJson v => Ok v
  | _ => Raise JSONDecodeError
  end.

(** [json.loads(response.content.decode("utf-8"))] / [response.json()]. *)
Definition json_loads (b : Body) : Result PyVal :=
  res_bind (decode b) loads.

(** [response.headers.get(name)]: header names compare without case. *)
Fixpoint header_get (name : string) (hs : list (string * string))
  : option string :=
  match hs with
  | [] => None
  | (k, v) :: hs' =>
      if String.eqb (lower k) (lower name) then Some v
      else header_get name hs'
  end.

(** [not response.headers.get("Via")]. *)
Definition lacks_via (r : Response) : bool :=
  match header_get "Via" (headers r) with
  | Some v => String.eqb v ""
  | None => true
  end.

(** [value.get(k)] on a parsed body: only a mapping has [get]. *)
Definition body_get (k : string) (v : PyVal) : Result PyVal :=
  match v with
  | VDict d => Ok (py_get k d)
  | _ => Raise AttributeError
  end.

(** [errors[k]]: [KeyError] for a missing key, [TypeError] for a value
    that cannot be indexed by a string. *)
Definition subscript (k : string) (v : PyVal) : Result PyVal :=
  match v with
  | VDict d => match Dict.get k d with
               | Some x => Ok x
               | None => Raise KeyError
               end
  | _ => Raise TypeError
  end.

Definition success (r : Response) : bool :=
  ((status_code r =? 200) || (status_code r =? 204))%Z.

(** ** [DiscordWebhook] *)

(** The keyword arguments of the constructor.  Python holds them in one
    mapping; here the [embeds] entry, whose value is a reference to a list
    of embed objects, is kept apart from the entries that hold plain
    values. *)
Record Kwargs : Type := mk_kwargs {
  opts : dict;
  kw_embeds : option loc
}.

Module DiscordWebhook.

(** The attributes of a client.  [id = None] is an object on which the
    attribute [id] was never assigned; [url = None] is the value [None]
    passed for the URL. *)
Record t : Type := mk {
  id : option PyVal;
  url : option string;
  allowed_mentions : PyVal;
  attachments : PyVal;
  avatar_url : PyVal;
  components : PyVal;
  content : PyVal;
  embeds : loc;
  files : PyVal;
  proxies : PyVal;
  rate_limit_retry : PyVal;
  thread_id : PyVal;
  thread_name : PyVal;
  timeout : PyVal;
  tts : PyVal;
  username : PyVal;
  wait : PyVal
}.

Definition with_id (v : option PyVal) (s : t) : t :=
  mk v (url s) (allowed_mentions s) (attachments s) (avatar_url s)
     (components s) (content s) (embeds s) (files s) (proxies s)
     (rate_limit_retry s) (thread_id s) (thread_name s) (timeout s)
     (tts s) (username s) (wait s).

Definition with_attachments (v : PyVal) (s : t) : t :=
  mk (id s) (url s) (allowed_mentions s) v (avatar_url s)
     (components s) (content s) (embeds s) (files s) (proxies s)
     (rate_limit_retry s) (thread_id s) (thread_name s) (timeout s)
     (tts s) (username s) (wait s).

Definition with_embeds (l : loc) (s : t) : t :=
  mk (id s) (url s) (allowed_mentions s) (attachments s) (avatar_url s)
     (components s) (content s) l (files s) (proxies s)
     (rate_limit_retry s) (thread_id s) (thread_name s) (timeout s)
     (tts s) (username s) (wait s).

Definition with_files (v : PyVal) (s : t) : t :=
  mk (id s) (url s) (allowed_mentions s) (attachments s) (avatar_url s)
     (components s) (content s) (embeds s) v (proxies s)
     (rate_limit_retry s) (thread_id s) (thread_name s) (timeout s)
     (tts s) (username s) (wait s).

Definition with_content (v : PyVal) (s : t) : t :=
  mk (id s) (url s) (allowed_mentions s) (attachments s) (avatar_url s)
     (components s) v (embeds s) (files s) (proxies s)
     (rate_limit_retry s) (thread_id s) (thread_name s) (timeout s)
     (tts s) (username s) (wait s).

(** The state of a method call: the object and the world around it. *)
Record St : Type := mk_st { self : t; world : World }.

Definition on_self (f : t -> t) (st : St) : St :=
  mk_st (f (self st)) (world st).

Definition on_world (f : World -> World) (st : St) : St :=
  mk_st (self st) (f (world st)).

(** The identifier read from the URL: [self.url.split("/")[-2]], with
    [IndexError] and [AttributeError] turned into [ValueError]. *)
Definition parse_id (url : option string) : Result string :=
  match url with
  | None => Raise ValueError
  | Some u =>
      match index_from_end (split "/" u) 2 with
      | Ok chunk => Ok chunk
      | Raise IndexError => Raise ValueError
      | Raise AttributeError => Raise ValueError
      | Raise e => Raise e
      | OutOfFuel => OutOfFuel
      end
  end.

(** [DiscordWebhook.__init__].  A list is built for [embeds] when none
    was passed.  [id] is assigned in one place only: under the test
    that no [id] was passed. *)
Definition init (url : option string) (kw : Kwargs)
  : M World t :=
  fun w =>
    let k := opts kw in
    let '(l, w1) :=
      match kw_embeds kw with
      | Some l => (l, w)
      | None => alloc [] w
      end in
    let obj :=
      mk None url
         (py_get_default "allowed_mentions" (VDict []) k)
         (py_get_default "attachments" (VList []) k)
         (py_get "avatar_url" k)
         (py_get "components" k)
         (py_get "content" k)
         l
         (py_get_default "files" (VDict []) k)
         (py_get "proxies" k)
         (py_get_default "rate_limit_retry" (VBool false) k)
         (py_get "thread_id" k)
         (py_get "thread_name" k)
         (py_get "timeout" k)
         (py_get_default "tts" (VBool false) k)
         (py_get_default "username" (VBool false) k)
         (py_get_default "wait" (VBool true) k) in
    match py_get "id" k with
    | VNone =>
        match parse_id url with
        | Ok chunk => (Ok (with_id (Some (VStr chunk)) obj), w1)
        | Raise e => (Raise e, w1)
        | OutOfFuel => (OutOfFuel, w1)
        end
    | _ => (Ok obj, w1)
    end.

(** [[embed.as_dict() for embed in self.embeds]]. *)
Fixpoint embeds_as_dicts (es : list DiscordEmbed.t) : Result (list PyVal) :=
  match es with
  | [] => Ok []
  | e :: es' =>
      res_bind (DiscordEmbed.as_dict e) (fun d =>
      res_bind (embeds_as_dicts es') (fun ds => Ok (VDict d :: ds)))
  end.

Definition put (k : string) (v : PyVal) (data : dict) : dict :=
  if truthy v then Dict.set k v data else data.

Definition url_value (u : option string) : PyVal :=
  match u with Some s => VStr s | None => VNone end.

(** [DiscordWebhook.as_dict].  The mapping starts with [self.id], which
    raises [AttributeError] while the attribute is missing; the files
    mapping itself is put under ["files"]. *)
Definition as_dict : M St dict :=
  fun st =>
    let s := self st in
    match id s with
    | None => (Raise AttributeError, st)
    | Some i =>
        let data : dict :=
          [("url", url_value (url s)); ("id", i);
           ("rate_limit_retry", rate_limit_retry s)] in
        let data := put "allowed_mentions" (allowed_mentions s) data in
        let data := put "attachments" (attachments s) data in
        let data := put "avatar_url" (avatar_url s) data in
        let data := put "content" (content s) data in
        match deref (world st) (embeds s) with
        | [] =>
            let data := put "thread_id" (thread_id s) data in
            let data := put "thread_name" (thread_name s) data in
            let data := put "tts" (tts s) data in
            let data := put "username" (username s) data in
            let data := put "components" (components s) data in
            let data := put "files" (files s) data in
            (Ok data, st)
        | es =>
            match embeds_as_dicts es with
            | Ok ds =>
                let data := Dict.set "embeds" (VList ds) data in
                let data := put "thread_id" (thread_id s) data in
                let data := put "thread_name" (thread_name s) data in
                let data := put "tts" (tts s) data in
                let data := put "username" (username s) data in
                let data := put "components" (components s) data in
                let data := put "files" (files s) data in
                (Ok data, st)
            | Raise e => (Raise e, st)
            | OutOfFuel => (OutOfFuel, st)
            end
        end
    end.

(** The [json] property builds the same mapping as [as_dict]; the
    diagnostic it may log changes neither the object nor the result. *)
Definition json : M St dict := as_dict.

(** [add_embed]: [self.embeds.append(embed)], in place. *)
Definition add_embed (e : DiscordEmbed.t) : M St unit :=
  modify (fun st =>
    let l := embeds (self st) in
    on_world (fun w => with_heap (<[l := deref w l ++ [e]]> (heap w)) w) st).

(** [get_embeds]. *)
Definition get_embeds (st : St) : list DiscordEmbed.t :=
  deref (world st) (embeds (self st)).

(** [remove_embeds]: [self.embeds = []], a new list. *)
Definition remove_embeds : M St unit :=
  modify (fun st =>
    let '(l, w') := alloc [] (world st) in
    mk_st (with_embeds l (self st)) w').

(** [self.files[k] = v]. *)
Definition files_set (k : string) (v : PyVal) : M St unit :=
  fun st =>
    match files (self st) with
    | VDict d => (Ok tt, on_self (with_files (VDict (Dict.set k v d))) st)
    | _ => (Raise TypeError, st)
    end.

(** [add_file(file, filename)]. *)
Definition add_file (file : PyVal) (filename : string) : M St unit :=
  files_set ("_" ++ filename)%string (VList [VStr filename; file]).

(** [clear_attachments]. *)
Definition clear_attachments : M St unit :=
  modify (on_self (with_attachments (VList []))).

(** [remove_files(clear_attachments=True)]. *)
Definition remove_files (clear : bool) : M St unit :=
  (modify (on_self (with_files (VDict []))) ;;;
   if clear then clear_attachments else ret tt)%py.

(** [set_content]. *)
Definition set_content (c : PyVal) : M St unit :=
  modify (on_self (with_content c)).

(** The [_query_params] property. *)
Definition _query_params (s : t) : dict :=
  let params : dict := [] in
  let params := put "thread_id" (thread_id s) params in
  put "wait" (wait s) params.

Definition send (req : Request) : M St Response :=
  fun st =>
    let '(r, w') := transport req (world st) in (r, mk_st (self st) w').

(** [api_post_request]. *)
Definition api_post_request : M St Response :=
  (s <- gets self ;;
   if negb (truthy (files s))
   then
     payload <- json ;;
     send (mk_request POST (url s) (JsonBody payload) (_query_params s)
             (proxies s) (timeout s))
   else
     payload <- json ;;
     text <- lift (json_dumps (VDict payload)) ;;
     files_set "payload_json" (VList [VNone; text]) ;;;
     s' <- gets self ;;
     send (mk_request POST (url s') (FilesBody (files s'))
             (_query_params s') (proxies s') (timeout s')))%py.

(** [time.sleep(seconds)]: [ValueError] for a negative wait and for NaN,
    [OverflowError] for an infinite one. *)
Definition time_sleep (seconds : PyFloat) : M St unit :=
  match seconds with
  | Finite q =>
      if Qle_bool 0 q then modify (on_world (sleep q)) else raise ValueError
  | Infinite _ => raise OverflowError
  | NaN => raise ValueError
  end.

(** The argument of the [logger.error] call on a failing response:
    [response.content.decode("utf-8")] is evaluated for the message. *)
Definition log_failure (response : Response) : M St unit :=
  (_ <- lift (decode (Response.content response)) ;; ret tt)%py.

(** [handle_rate_limit(response, request)].  The source loops for as
    long as the remote end answers 429; [fuel] bounds the number of
    passes here. *)
Fixpoint handle_rate_limit (fuel : nat) (response : Response)
  (request : M St Response) : M St Response :=
  if (status_code response =? 429)%Z
  then
    match fuel with
    | O => lift OutOfFuel
    | S fuel' =>
        (errors <- lift (json_loads (Response.content response)) ;;
         if lacks_via response then raise HTTPException
         else
           ra <- lift (subscript "retry_after" errors) ;;
           seconds <- lift (py_float ra) ;;
           let wh_sleep := float_add seconds (15 # 100) in
           time_sleep wh_sleep ;;;
           response' <- request ;;
           if success response' then ret response'
           else handle_rate_limit fuel' response' request)%py
    end
  else ret response.

(** Fuel that the loop cannot use up: every pass takes one scripted
    response. *)
Definition enough_fuel (st : St) : nat := S (length (server (world st))).

(** The three branches of [execute] and [edit] on the status of the
    first response; the last one logs the failure. *)
Definition settle (fuel : nat) (response : Response)
  (request : M St Response) : M St Response :=
  (s <- gets self ;;
   if success response then ret response
   else if ((status_code response =? 429)%Z && truthy (rate_limit_retry s))%bool
   then handle_rate_limit fuel response request
   else log_failure response ;;; ret response)%py.

(** [execute(remove_embeds=False)]. *)
Definition execute_with (fuel : nat) (rm_embeds : bool) : M St Response :=
  (response <- api_post_request ;;
   response <- settle fuel response api_post_request ;;
   (if rm_embeds then remove_embeds else ret tt) ;;;
   remove_files false ;;;
   response_content <- lift (json_loads (Response.content response)) ;;
   webhook_id <- lift (body_get "id" response_content) ;;
   (if truthy webhook_id
    then modify (on_self (with_id (Some webhook_id))) else ret tt) ;;;
   atts <- lift (body_get "attachments" response_content) ;;
   (if truthy atts
    then modify (on_self (with_attachments atts)) else ret tt) ;;;
   ret response)%py.

Definition execute (rm_embeds : bool) : M St Response :=
  fun st => execute_with (enough_fuel st) rm_embeds st.

(** The two assertions of [edit] and [delete], and the message URL
    [f"{self.url}/messages/{self.id}"]. *)
Definition message_url : M St string :=
  fun st =>
    match id (self st) with
    | None => (Raise AttributeError, st)
    | Some (VStr i) =>
        match url (self st) with
        | Some u => (Ok (u ++ "/messages/" ++ i)%string, st)
        | None => (Raise AssertionError, st)
        end
    | Some _ => (Raise AssertionError, st)
    end.

(** The request [edit] prepares with [partial]: built once, it is the
    same at every resubmission. *)
Definition edit_request : M St Request :=
  (target <- message_url ;;
   s <- gets self ;;
   if negb (truthy (files s))
   then
     payload <- json ;;
     ret (mk_request PATCH (Some target) (JsonBody payload)
            [("wait", VBool true)] (proxies s) (timeout s))
   else
     payload <- json ;;
     text <- lift (json_dumps (VDict payload)) ;;
     files_set "payload_json" (VList [VNone; text]) ;;;
     s' <- gets self ;;
     ret (mk_request PATCH (Some target) (FilesBody (files s')) []
            (proxies s') (timeout s')))%py.

(** [edit()]. *)
Definition edit_with (fuel : nat) : M St Response :=
  (req <- edit_request ;;
   response <- send req ;;
   settle fuel response (send req))%py.

Definition edit : M St Response :=
  fun st => edit_with (enough_fuel st) st.

(** [delete()]: two branches only, a failure is returned without being
    logged. *)
Definition delete_with (fuel : nat) : M St Response :=
  (target <- message_url ;;
   s <- gets self ;;
   let req := mk_request DELETE (Some target) NoBody [] (proxies s)
                (timeout s) in
   response <- send req ;;
   s' <- gets self ;;
   if success response then ret response
   else if ((status_code response =? 429)%Z && truthy (rate_limit_retry s'))%bool
   then handle_rate_limit fuel response (send req)
   else ret response)%py.

Definition delete : M St Response :=
  fun st => delete_with (enough_fuel st) st.

(** [create_batch(urls, **kwargs)]: the list comprehension
    [[cls(url, **kwargs) for url in urls]], left to right. *)
Fixpoint init_all (urls : list (option string)) (kw : Kwargs)
  : M World (list t) :=
  match urls with
  | [] => ret []
  | u :: urls' =>
      (c <- init u kw ;;
       cs <- init_all urls' kw ;;
       ret (c :: cs))%py
  end.

Definition create_batch (urls : list (option string)) (kw : Kwargs)
  : M World (list t) :=
  if Dict.mem "url" (opts kw) then raise TypeError
  else init_all urls kw.

Definition with_proxies (v : PyVal) (s : t) : t :=
  mk (id s) (url s) (allowed_mentions s) (attachments s) (avatar_url s)
     (components s) (content s) (embeds s) (files s) v
     (rate_limit_retry s) (thread_id s) (thread_name s) (timeout s)
     (tts s) (username s) (wait s).

(** [set_proxies]. *)
Definition set_proxies (p : PyVal) : M St unit :=
  modify (on_self (with_proxies p)).

(** [remove_embed(index)]: [self.embeds.pop(index)], in place. *)
Definition remove_embed (index : Z) : M St unit :=
  fun st =>
    let l := embeds (self st) in
    match py_pop (deref (world st) l) index with
    | Ok (_, es) =>
        (Ok tt, on_world (fun w => with_heap (<[l := es]> (heap w)) w) st)
    | Raise x => (Raise x, st)
    | OutOfFuel => (OutOfFuel, st)
    end.

(** [self.files.pop(key, None)]: only a mapping takes a default; a list
    has a one-argument [pop], the other values have none. *)
Definition files_pop (key : string) : M St unit :=
  fun st =>
    match files (self st) with
    | VDict d => (Ok tt, on_self (with_files (VDict (Dict.remove key d))) st)
    | VList _ => (Raise TypeError, st)
    | _ => (Raise AttributeError, st)
    end.

(** [item.get("filename") == filename] for an item that is a mapping.
    A [bytes] value never equals a [str]. *)
Definition filename_is (filename : string) (d : dict) : bool :=
  match py_get "filename" d with
  | VStr s => String.eqb s filename
  | _ => false
  end.

(** [next((i for i, item in enumerate(items) if
    item.get("filename") == filename), None)]: the items are visited in
    order up to the first match, and one that is not a mapping has no
    [get]. *)
Fixpoint attachment_index (filename : string) (items : list PyVal)
  (i : nat) : Result (option nat) :=
  match items with
  | [] => Ok None
  | VDict d :: items' =>
      if filename_is filename d then Ok (Some i)
      else attachment_index filename items' (S i)
  | _ :: _ => Raise AttributeError
  end.

(** [remove_file(filename)]. *)
Definition remove_file (filename : string) : M St unit :=
  (files_pop ("_" ++ filename)%string ;;;
   s <- gets self ;;
   if truthy (attachments s)
   then
     match attachments s with
     | VList items =>
         index <- lift (attachment_index filename items 0) ;;
         match index with
         | Some i =>
             modify (on_self (with_attachments (VList (base.delete i items))))
         | None => ret tt
         end
     | VInt _ | VBool _ | VFloat _ => raise TypeError
     | _ => raise AttributeError
     end
   else ret tt)%py.

End DiscordWebhook.

(** ** [AsyncDiscordWebhook]

    The subclass inherits the attributes and every method it does not
    override.  Awaiting a coroutine is sequencing; the [httpx] client is
    the transport, and carries the proxies itself. *)

Module AsyncDiscordWebhook.

Import DiscordWebhook.

(** [str.encode("utf-8")] on the text [json.dumps] returned. *)
Definition encode (v : PyVal) : PyVal :=
  match v with
  | VJson x => VJsonBytes x
  | VStr s => VBytes s
  | other => other
  end.

(** [api_post_request]. *)
Definition api_post_request : M St Response :=
  (s <- gets self ;;
   if negb (truthy (files s))
   then
     payload <- json ;;
     send (mk_request POST (url s) (JsonBody payload) (_query_params s)
             VNone (timeout s))
   else
     payload <- json ;;
     text <- lift (json_dumps (VDict payload)) ;;
     files_set "payload_json" (VList [VNone; encode text]) ;;;
     s' <- gets self ;;
     send (mk_request POST (url s') (FilesBody (files s'))
             (_query_params s') VNone (timeout s')))%py.

(** [await asyncio.sleep(seconds)]: any finite wait is accepted (one
    that is not positive ends at once), and so is [-inf], which leaves no
    wait to record; a wait of [inf] never ends; NaN raises [ValueError]
    (since Python 3.13; earlier versions return at once). *)
Definition asyncio_sleep (seconds : PyFloat) : M St unit :=
  match seconds with
  | Finite q => modify (on_world (sleep q))
  | Infinite true => ret tt
  | Infinite false => lift OutOfFuel
  | NaN => raise ValueError
  end.

(** [handle_rate_limit(response, request)]. *)
Fixpoint handle_rate_limit (fuel : nat) (response : Response)
  (request : M St Response) : M St Response :=
  if (status_code response =? 429)%Z
  then
    match fuel with
    | O => lift OutOfFuel
    | S fuel' =>
        (errors <- lift (json_loads (Response.content response)) ;;
         if lacks_via response then raise HTTPException
         else
           ra <- lift (subscript "retry_after" errors) ;;
           seconds <- lift (py_float ra) ;;
           let wh_sleep := float_add seconds (15 # 100) in
           asyncio_sleep wh_sleep ;;;
           response' <- request ;;
           if success response' then ret response'
           else handle_rate_limit fuel' response' request)%py
    end
  else ret response.

Definition settle (fuel : nat) (response : Response)
  (request : M St Response) : M St Response :=
  (s <- gets self ;;
   if success response then ret response
   else if ((status_code response =? 429)%Z && truthy (rate_limit_retry s))%bool
   then handle_rate_limit fuel response request
   else log_failure response ;;; ret response)%py.

(** [execute(remove_embeds=False)]: of the body only [id] is read. *)
Definition execute_with (fuel : nat) (rm_embeds : bool) : M St Response :=
  (response <- api_post_request ;;
   response <- settle fuel response api_post_request ;;
   (if rm_embeds then remove_embeds else ret tt) ;;;
   remove_files false ;;;
   response_content <- lift (json_loads (Response.content response)) ;;
   webhook_id <- lift (body_get "id" response_content) ;;
   (if truthy webhook_id
    then modify (on_self (with_id (Some webhook_id))) else ret tt) ;;;
   ret response)%py.

Definition execute (rm_embeds : bool) : M St Response :=
  fun st => execute_with (enough_fuel st) rm_embeds st.

(** The request of [edit]: [patch_kwargs] applied to [client.patch]. *)
Definition edit_request : M St Request :=
  (target <- message_url ;;
   s <- gets self ;;
   if negb (truthy (files s))
   then
     payload <- json ;;
     ret (mk_request PATCH (Some target) (JsonBody payload)
            [("wait", VBool true)] VNone (timeout s))
   else
     payload <- json ;;
     text <- lift (json_dumps (VDict payload)) ;;
     files_set "payload_json" (VList [VNone; text]) ;;;
     s' <- gets self ;;
     ret (mk_request PATCH (Some target) (FilesBody (files s')) []
            VNone (timeout s')))%py.

(** [edit()]. *)
Definition edit_with (fuel : nat) : M St Response :=
  (req <- edit_request ;;
   response <- send req ;;
   settle fuel response (send req))%py.

Definition edit : M St Response :=
  fun st => edit_with (enough_fuel st) st.

(** [delete()]: one request and no retry; a failure is logged. *)
Definition delete : M St Response :=
  (target <- message_url ;;
   s <- gets self ;;
   response <- send (mk_request DELETE (Some target) NoBody [] VNone
                       (timeout s)) ;;
   if success response then ret response
   else log_failure response ;;; ret response)%py.

End AsyncDiscordWebhook.

(** * Definitions used to state the properties *)

(** ** Concrete objects used by the examples and witnesses *)

Module Sample.

Import DiscordWebhook.

Definition webhook_url : option string :=
  Some "https://discord.com/api/webhooks/123456789/abcDEF".

(** An empty store and a remote end that will give [rs]. *)
Definition world_of (rs : list Response) : World := mk_world ∅ rs [].

Definition hi : Kwargs := mk_kwargs [("content", VStr "hi")] None.

Definition hi_retry : Kwargs :=
  mk_kwargs [("content", VStr "hi"); ("rate_limit_retry", VBool true)] None.

(** A text file passed through the [files] keyword. *)
Definition hi_text_file : Kwargs :=
  mk_kwargs [("content", VStr "hi");
             ("files", VDict [("_a.txt", VList [VStr "a.txt"; VStr "hello"])])]
            None.

Definition hi_text_file_retry : Kwargs :=
  mk_kwargs [("content", VStr "hi");
             ("rate_limit_retry", VBool true);
             ("files", VDict [("_a.txt", VList [VStr "a.txt"; VStr "hello"])])]
            None.

(** [DiscordWebhook(webhook_url, **kw)] in [world_of rs]; the dummy
    object of the last branch is never reached for the keyword
    arguments above. *)
Definition client (kw : Kwargs) (rs : list Response) : St :=
  match init webhook_url kw (world_of rs) with
  | (Ok s, w) => mk_st s w
  | (_, w) =>
      mk_st (mk None None VNone VNone VNone VNone VNone 0 VNone VNone
                VNone VNone VNone VNone VNone VNone VNone) w
  end.

Definition ok_200 : Response :=
  Response.mk 200 []
    (BJson (VDict [("id", VStr "1001");
                   ("attachments",
                    VList [VDict [("id", VInt 0);
                                  ("filename", VStr "a.txt")]])])).

(** A success whose body is JSON but not a mapping. *)
Definition list_200 : Response := Response.mk 200 [] (BJson (VList [])).

Definition plain_200 : Response :=
  Response.mk 200 [] (BJson (VDict [("id", VStr "1001")])).

(** What the remote end answers when [wait] is off: no content. *)
Definition no_content_204 : Response := Response.mk 204 [] (BNotJson "").

(** A server error whose body is not valid UTF-8. *)
Definition garbled_500 : Response :=
  Response.mk 500 [] (BNotUtf8 (String (ascii_of_nat 255) "")).

Definition limited_429 : Response :=
  Response.mk 429 [("Via", "1.1 google")]
    (BJson (VDict [("retry_after", VFloat (1 # 2))])).

Definition unmarked_429 : Response :=
  Response.mk 429 []
    (BJson (VDict [("retry_after", VFloat (1 # 2))])).

(** A rate-limit answer that asks for a negative wait. *)
Definition negative_429 : Response :=
  Response.mk 429 [("Via", "1.1 google")]
    (BJson (VDict [("retry_after", VFloat (-1 # 1))])).

(** The client of [hi] in front of each of these answers. *)
Definition hi_204 : St := client hi [no_content_204].
Definition hi_list : St := client hi [list_200].
Definition hi_200 : St := client hi [ok_200].

(** [webhook.add_file(b"hello", "a.txt")] on the client of [hi]. *)
Definition hi_bytes_file (rs : list Response) : St :=
  snd (add_file (VBytes "hello") "a.txt" (client hi rs)).

Definition a_txt_bytes : dict :=
  [("_a.txt", VList [VStr "a.txt"; VBytes "hello"])].

Definition a_txt_text : dict :=
  [("_a.txt", VList [VStr "a.txt"; VStr "hello"])].

(** The payload a client would send now. *)
Definition payload_of (st : St) : dict :=
  match json st with
  | (Ok payload, _) => payload
  | _ => []
  end.

(** A rate-limited first answer, then success. *)
Definition hi_retry_limited : St :=
  client hi_retry [limited_429; no_content_204].

Definition delete_request : Request :=
  mk_request DELETE
    (Some "https://discord.com/api/webhooks/123456789/abcDEF/messages/123456789")
    NoBody [] VNone VNone.


(** Two URLs of the expected shape. *)
Definition two_urls : list (option string) :=
  [Some "https://discord.com/api/webhooks/111/tokenA";
   Some "https://discord.com/api/webhooks/222/tokenB"].

Definition some_request : Request :=
  mk_request POST webhook_url (JsonBody [("content", VStr "hi")])
    [("wait", VBool true)] VNone VNone.

End Sample.

(** The part of [execute] that talks to the remote end. *)
Definition request_phase (fuel : nat) : M DiscordWebhook.St Response :=
  (response <- DiscordWebhook.api_post_request ;;
   DiscordWebhook.settle fuel response DiscordWebhook.api_post_request)%py.

Definition async_request_phase (fuel : nat) : M DiscordWebhook.St Response :=
  (response <- AsyncDiscordWebhook.api_post_request ;;
   AsyncDiscordWebhook.settle fuel response AsyncDiscordWebhook.api_post_request)%py.

(** The state [execute] reaches before it reads the body. *)
Definition cleaned (rm_embeds : bool) (st : DiscordWebhook.St) : DiscordWebhook.St :=
  snd (DiscordWebhook.remove_files false
         (snd ((if rm_embeds then DiscordWebhook.remove_embeds else ret tt) st))).

(** What [execute] does with the final response. *)
Definition reconcile (response : Response) : M DiscordWebhook.St Response :=
  (response_content <- lift (json_loads (Response.content response)) ;;
   webhook_id <- lift (body_get "id" response_content) ;;
   (if truthy webhook_id
    then modify (DiscordWebhook.on_self (DiscordWebhook.with_id (Some webhook_id)))
    else ret tt) ;;;
   atts <- lift (body_get "attachments" response_content) ;;
   (if truthy atts
    then modify (DiscordWebhook.on_self (DiscordWebhook.with_attachments atts))
    else ret tt) ;;;
   ret response)%py.

Definition async_reconcile (response : Response) : M DiscordWebhook.St Response :=
  (response_content <- lift (json_loads (Response.content response)) ;;
   webhook_id <- lift (body_get "id" response_content) ;;
   (if truthy webhook_id
    then modify (DiscordWebhook.on_self (DiscordWebhook.with_id (Some webhook_id)))
    else ret tt) ;;;
   ret response)%py.

(** The mapping [files] holds once the serialised payload has been put
    under ["payload_json"]. *)
Definition with_payload_json (payload : dict) (d : dict) : PyVal :=
  VDict (Dict.set "payload_json" (VList [VNone; VJson (VDict payload)]) d).

(** Everything a call can observe of a client apart from its [files]
    mapping, the answers still to come and the trace: the other
    attributes and the store of embed lists. *)
Definition frame (st : DiscordWebhook.St) : DiscordWebhook.t * gmap loc (list DiscordEmbed.t) :=
  (DiscordWebhook.with_files VNone (DiscordWebhook.self st), heap (DiscordWebhook.world st)).

Definition keeps_frame {A} (m : M DiscordWebhook.St A) : Prop :=
  forall st, frame (snd (m st)) = frame st.

Module EmbedSample.

(** [DiscordEmbed(title="Status", description="All good")]. *)
Definition base : DiscordEmbed.t :=
  match DiscordEmbed.init (Some "Status") (Some "All good") DiscordEmbed.no_kwargs with
  | Ok e => e
  | _ => DiscordEmbed.mk None None None [] None None None None None None None None
  end.

(** The same embed once [set_timestamp] has been called. *)
Definition stamped : DiscordEmbed.t :=
  DiscordEmbed.set_timestamp "2024-01-01T00:00:00" base.

End EmbedSample.

(** Whether the constructor accepts the URL under the configuration: an
    [id] was passed, or one can be read from the URL. *)
Definition constructible (kw : Kwargs) (u : option string) : bool :=
  match py_get "id" (opts kw) with
  | VNone => match DiscordWebhook.parse_id u with Ok _ => true | _ => false end
  | _ => true
  end.

(** The list the new client refers to, and the world after construction. *)
Definition embeds_cell (kw : Kwargs) (w : World) : loc * World :=
  match kw_embeds kw with
  | Some l => (l, w)
  | None => alloc [] w
  end.

(** The world once [c.add_embed(e)] has run in [w]. *)
Definition after_add_embed (e : DiscordEmbed.t) (c : DiscordWebhook.t) (w : World) : World :=
  DiscordWebhook.world (snd (DiscordWebhook.add_embed e (DiscordWebhook.mk_st c w))).

Definition pending (st : DiscordWebhook.St) : nat := length (server (DiscordWebhook.world st)).

(** A request that takes one scripted response whenever it returns. *)
Definition consumes (m : M DiscordWebhook.St Response) : Prop :=
  forall st r st', m st = (Ok r, st') -> (pending st' < pending st)%nat.

Definition terminates {A} (m : M DiscordWebhook.St A) : Prop :=
  forall st, fst (m st) <> OutOfFuel.

(** ** Definitions for the further properties *)

(** The string has no occurrence of the character. *)
Fixpoint free_of (c : ascii) (s : string) : bool :=
  match s with
  | EmptyString => true
  | String x s' => negb (Ascii.eqb x c) && free_of c s'
  end.

(** The calls that change an embed, apart from [set_timestamp]. *)
Inductive EmbedOp : Type :=
| OpTitle (title : string)
| OpDescription (description : string)
| OpUrl (url : string)
| OpColor (color : ColorArg)
| OpFooter (text : string) (icon_url proxy_icon_url : option string)
| OpImage (url : string) (proxy_url : option string) (height width : option Z)
| OpThumbnail (url : string) (proxy_url : option string)
    (height width : option Z)
| OpVideo (url : option string) (height width : option Z)
| OpProvider (name url : option string)
| OpAuthor (name : string) (url icon_url proxy_icon_url : option string)
| OpAddField (name value : string) (inline : bool)
| OpDeleteField (index : Z).

(** The embed after the call, whether the call returned or raised. *)
Definition apply_op (e : DiscordEmbed.t) (op : EmbedOp) : DiscordEmbed.t :=
  match op with
  | OpTitle x => DiscordEmbed.set_title x e
  | OpDescription x => DiscordEmbed.set_description x e
  | OpUrl x => DiscordEmbed.set_url x e
  | OpColor c => snd (DiscordEmbed.set_color c e)
  | OpFooter t i p => DiscordEmbed.set_footer t i p e
  | OpImage u p h w => DiscordEmbed.set_image u p h w e
  | OpThumbnail u p h w => DiscordEmbed.set_thumbnail u p h w e
  | OpVideo u h w => DiscordEmbed.set_video u h w e
  | OpProvider n u => DiscordEmbed.set_provider n u e
  | OpAuthor n u i p => DiscordEmbed.set_author n u i p e
  | OpAddField n v i => DiscordEmbed.add_embed_field n v i e
  | OpDeleteField i => snd (DiscordEmbed.delete_embed_field i e)
  end.

(** The keys [DiscordEmbed.as_dict] may write. *)
Definition embed_keys : list string :=
  ["title"; "description"; "url"; "timestamp"; "color"; "footer"; "image";
   "thumbnail"; "video"; "provider"; "author"; "fields"].

(** An entry of a serialised embed: a known key with a truthy value. *)
Definition embed_entry_ok (kv : string * PyVal) : Prop :=
  fst kv ∈ embed_keys /\ truthy (snd kv) = true.

(** A serialised mapping under construction: no key twice, and only
    entries a serialised embed may hold. *)
Definition embed_data_ok (data : dict) : Prop :=
  NoDup (Dict.keys data) /\ Forall embed_entry_ok data.

(** What [as_dict] writes for a sub-object: the mapping itself when it
    is not empty, nothing otherwise. *)
Definition sub_entry (d : option dict) : option PyVal :=
  match d with
  | Some (kv :: d') => Some (VDict (kv :: d'))
  | _ => None
  end.

(** Between two traces, nothing was added or one request was: no wait,
    no second request. *)
Definition at_most_one_request (before after : list Event) : Prop :=
  after = before \/ exists req, after = before ++ [EvRequest req].

(** The wait a 429 response asks for, when the loop accepts the
    response: it carries the [Via] header and a JSON mapping whose
    [retry_after] converts to a finite number; the wait is
    [retry_after + 0.15]. *)
Definition retry_delay (r : Response) : option Q :=
  if negb (status_code r =? 429)%Z then None
  else if lacks_via r then None
  else match json_loads (Response.content r) with
       | Ok errors =>
           match subscript "retry_after" errors with
           | Ok ra =>
               match py_float ra with
               | Ok (Finite seconds) => Some (seconds + (15 # 100))%Q
               | _ => None
               end
           | _ => None
           end
       | _ => None
       end.




(** A response whose body is valid UTF-8. *)
Definition readable (r : Response) : bool :=
  match decode (Response.content r) with
  | Ok _ => true
  | _ => false
  end.


(** * Properties *)

(** ** Builtins *)

Lemma dict_get_set_eq {A} k (v : A) d : Dict.get k (Dict.set k v d) = Some v.
Proof.
  induction d as [|[k' v'] d IH]; simpl.
  - now rewrite String.eqb_refl.
  - destruct (String.eqb k k') eqn:E; simpl.
    + now rewrite String.eqb_refl.
    + now rewrite E.
Qed.

Lemma dict_get_set_ne {A} k k' (v : A) d :
  k <> k' -> Dict.get k' (Dict.set k v d) = Dict.get k' d.
Proof.
  intros Hne. induction d as [|[k0 v0] d IH]; simpl.
  - destruct (String.eqb k' k) eqn:E; [|reflexivity].
    apply String.eqb_eq in E. congruence.
  - destruct (String.eqb k k0) eqn:E; simpl.
    + apply String.eqb_eq in E. subst k0.
      destruct (String.eqb k' k) eqn:E'; [|reflexivity].
      apply String.eqb_eq in E'. congruence.
    + now rewrite IH.
Qed.

Example split_webhook_url :
  split "/" "https://discord.com/api/webhooks/123456789/abcDEF"
  = ["https:"; ""; "discord.com"; "api"; "webhooks"; "123456789"; "abcDEF"].
Proof. reflexivity. Qed.

Example split_no_separator : split "/" "url1" = ["url1"].
Proof. reflexivity. Qed.

Example split_trailing : split "/" "a/" = ["a"; ""].
Proof. reflexivity. Qed.

Example int16_ff : int16 "ff" = Ok 255%Z.
Proof. reflexivity. Qed.
Example int16_prefix : int16 "+0Xff" = Ok 255%Z.
Proof. reflexivity. Qed.
Example int16_spaces : int16 " ff " = Ok 255%Z.
Proof. reflexivity. Qed.
Example int16_underscore : int16 "f_f" = Ok 255%Z.
Proof. reflexivity. Qed.
Example int16_prefix_underscore : int16 "0x_f" = Ok 15%Z.
Proof. reflexivity. Qed.
Example int16_neg : int16 "-1" = Ok (-1)%Z.
Proof. reflexivity. Qed.
Example int16_white : int16 "1000000" = Ok 16777216%Z.
Proof. reflexivity. Qed.
Example int16_empty : int16 "" = Raise ValueError.
Proof. reflexivity. Qed.
Example int16_bare_prefix : int16 "0x" = Raise ValueError.
Proof. reflexivity. Qed.
Example int16_lead_underscore : int16 "_f" = Raise ValueError.
Proof. reflexivity. Qed.
Example int16_double_underscore : int16 "f__f" = Raise ValueError.
Proof. reflexivity. Qed.

Example py_float_half : py_float (VStr "0.5") = Ok (Finite (5 # 10)).
Proof. reflexivity. Qed.
Example py_float_exponent : py_float (VStr "1e3") = Ok (Finite (1000 # 1)).
Proof. reflexivity. Qed.
Example py_float_full :
  py_float (VStr " +1_0.2_5E-1 ") = Ok (Finite ((1025 # 100) * (1 # 10))).
Proof. reflexivity. Qed.
Example py_float_underscore : py_float (VStr "1_0") = Ok (Finite (10 # 1)).
Proof. reflexivity. Qed.
Example py_float_inf : py_float (VStr "-Infinity") = Ok (Infinite true).
Proof. reflexivity. Qed.
Example py_float_nan : py_float (VStr "nan") = Ok NaN.
Proof. reflexivity. Qed.
Example py_float_point : py_float (VStr ".") = Raise ValueError.
Proof. reflexivity. Qed.
Example py_float_bad_underscore : py_float (VStr "1e_5") = Raise ValueError.
Proof. reflexivity. Qed.
Example py_float_none : py_float VNone = Raise TypeError.
Proof. reflexivity. Qed.

Ltac run_monad :=
  unfold bind, ret, raise, lift, gets, modify; simpl.

(** ** The rate-limit retry loop *)


(** C3. In [handle_rate_limit], a 429 response that carries the [Via]
    header and a JSON body whose [retry_after] is 0.5, followed by a 200
    response to the resubmission, makes the loop wait exactly once, for
    [retry_after + 0.15 >= 0.65] seconds, resubmit the same request once
    and return the 200 response; a 429 response without the [Via] header
    makes the call raise at once, with no wait and no resubmission (the
    state is left as it was). *)
Theorem C3_rate_limit_retry_loop :
  forall (fuel : nat) (r1 : Response) (st : DiscordWebhook.St),
    status_code r1 = 429%Z ->
    (forall (req : Request) (r2 : Response) (d : dict) (q : Q)
            (rest : list Response),
        lacks_via r1 = false ->
        Response.content r1 = BJson (VDict d) ->
        Dict.get "retry_after" d = Some (VFloat q) ->
        (q == 1 # 2)%Q ->
        server (DiscordWebhook.world st) = r2 :: rest ->
        status_code r2 = 200%Z ->
        exists wait : Q,
          DiscordWebhook.handle_rate_limit (S fuel) r1 (DiscordWebhook.send req) st
          = (Ok r2,
             DiscordWebhook.mk_st (DiscordWebhook.self st)
               (mk_world (heap (DiscordWebhook.world st)) rest
                  (trace (DiscordWebhook.world st) ++ [EvSleep wait; EvRequest req])))
          /\ (wait == q + (15 # 100))%Q
          /\ (65 # 100 <= wait)%Q)
    /\
    (forall request : M DiscordWebhook.St Response,
        lacks_via r1 = true ->
        exists e : Exn,
          DiscordWebhook.handle_rate_limit (S fuel) r1 request st = (Raise e, st)).
Proof.
  intros fuel r1 st H429. split.
  - intros req r2 d q rest Hvia Hbody Hget Hq Hsrv H200.
    exists (q + (15 # 100))%Q. split; [|split].
    + simpl. rewrite H429. simpl. run_monad.
      rewrite Hbody. simpl. rewrite Hvia, Hget. simpl.
      assert (Qle_bool 0 (q + (15 # 100)) = true) as Hwait
          by (apply Qle_bool_iff; rewrite Hq; unfold Qle; simpl; lia).
      rewrite Hwait. unfold modify.
      unfold DiscordWebhook.send, transport. simpl. rewrite Hsrv.
      unfold success. rewrite H200. simpl.
      rewrite <- app_assoc. reflexivity.
    + reflexivity.
    + rewrite Hq. unfold Qle. simpl. lia.
  - intros request Hvia. simpl. rewrite H429. simpl. run_monad.
    destruct (json_loads (Response.content r1)) as [v|e|] eqn:E.
    + rewrite Hvia. exists HTTPException. reflexivity.
    + exists e. reflexivity.
    + destruct (Response.content r1); discriminate.
Qed.

Lemma C3_rate_limit_retry_loop_witness :
  (exists wait : Q,
      DiscordWebhook.handle_rate_limit 1 Sample.limited_429
        (DiscordWebhook.send Sample.some_request)
        (Sample.client Sample.hi_retry [Sample.plain_200])
      = (Ok Sample.plain_200,
         DiscordWebhook.mk_st
           (DiscordWebhook.self (Sample.client Sample.hi_retry [Sample.plain_200]))
           (mk_world
              (heap (DiscordWebhook.world
                       (Sample.client Sample.hi_retry [Sample.plain_200])))
              []
              ([] ++ [EvSleep wait; EvRequest Sample.some_request])))
      /\ (wait == (1 # 2) + (15 # 100))%Q
      /\ (65 # 100 <= wait)%Q)
  /\
  (exists e : Exn,
      DiscordWebhook.handle_rate_limit 1 Sample.unmarked_429
        (DiscordWebhook.send Sample.some_request)
        (Sample.client Sample.hi_retry [Sample.plain_200])
      = (Raise e, Sample.client Sample.hi_retry [Sample.plain_200])).
Proof.
  split.
  - apply (proj1 (C3_rate_limit_retry_loop 0 Sample.limited_429
                    (Sample.client Sample.hi_retry [Sample.plain_200])
                    eq_refl)
             Sample.some_request Sample.plain_200
             [("retry_after", VFloat (1 # 2))] (1 # 2)%Q []);
      reflexivity.
  - apply (proj2 (C3_rate_limit_retry_loop 0 Sample.unmarked_429
                    (Sample.client Sample.hi_retry [Sample.plain_200])
                    eq_refl)
             (DiscordWebhook.send Sample.some_request)).
    reflexivity.
Defined.

(** ** Construction *)

Example init_parses_sample_url :
  forall w, exists obj w',
    DiscordWebhook.init Sample.webhook_url Sample.hi w = (Ok obj, w')
    /\ DiscordWebhook.id obj = Some (VStr "123456789").
Proof. intros w. eexists _, _. split; reflexivity. Qed.

Lemma split_aux_length sep s cur : (1 <= length (split_aux sep s cur))%nat.
Proof.
  revert cur. induction s as [|c s IH]; intros cur; simpl.
  - lia.
  - destruct (Ascii.eqb c sep); simpl; [lia | apply IH].
Qed.

Lemma index_from_end_short {A} (l : list A) k :
  (length l < k)%nat -> index_from_end l k = Raise IndexError.
Proof.
  intros H. unfold index_from_end.
  destruct (length l <? k)%nat eqn:E; [reflexivity|].
  apply Nat.ltb_ge in E. lia.
Qed.

(** C2. What [__init__] does about the identifier.  When an [id] is
    passed, the attribute [id] is left unassigned: the supplied value is
    not stored (the property asks for it to be the identifier).  When no
    [id] is passed, the identifier is the piece of the URL before the
    last ["/"]-separated piece, and construction raises [ValueError] when
    the URL is [None] or has fewer than two pieces. *)
Theorem C2_constructor_identifier :
  forall (url : option string) (kw : Kwargs) (w : World),
    (py_get "id" (opts kw) <> VNone ->
     exists obj w',
       DiscordWebhook.init url kw w = (Ok obj, w') /\ DiscordWebhook.id obj = None)
    /\
    (forall u chunk,
        py_get "id" (opts kw) = VNone ->
        url = Some u ->
        index_from_end (split "/" u) 2 = Ok chunk ->
        exists obj w',
          DiscordWebhook.init url kw w = (Ok obj, w')
          /\ DiscordWebhook.id obj = Some (VStr chunk))
    /\
    (py_get "id" (opts kw) = VNone ->
     (url = None \/
      exists u, url = Some u /\ (length (split "/" u) < 2)%nat) ->
     exists w', DiscordWebhook.init url kw w = (Raise ValueError, w')).
Proof.
  intros url kw w. split; [|split].
  - intros Hid. unfold DiscordWebhook.init.
    destruct (match kw_embeds kw with Some l => (l, w) | None => alloc [] w end)
      as [l w1].
    destruct (py_get "id" (opts kw)); try contradiction;
      eexists _, _; split; reflexivity.
  - intros u chunk Hid -> Hchunk. unfold DiscordWebhook.init.
    destruct (match kw_embeds kw with Some l => (l, w) | None => alloc [] w end)
      as [l w1].
    rewrite Hid. unfold DiscordWebhook.parse_id. rewrite Hchunk.
    eexists _, _. split; reflexivity.
  - intros Hid Hshort. unfold DiscordWebhook.init.
    destruct (match kw_embeds kw with Some l => (l, w) | None => alloc [] w end)
      as [l w1].
    rewrite Hid. exists w1.
    destruct Hshort as [-> | [u [-> Hlen]]]; simpl.
    + reflexivity.
    + rewrite (index_from_end_short _ _ Hlen). reflexivity.
Qed.

Lemma C2_constructor_identifier_witness :
  (exists obj w',
      DiscordWebhook.init Sample.webhook_url (mk_kwargs [("id", VStr "42")] None)
        (Sample.world_of [])
      = (Ok obj, w') /\ DiscordWebhook.id obj = None)
  /\
  (exists obj w',
      DiscordWebhook.init Sample.webhook_url Sample.hi (Sample.world_of [])
      = (Ok obj, w') /\ DiscordWebhook.id obj = Some (VStr "123456789"))
  /\
  (exists w',
      DiscordWebhook.init (Some "url1") Sample.hi (Sample.world_of [])
      = (Raise ValueError, w')).
Proof.
  split; [|split].
  - apply (proj1 (C2_constructor_identifier Sample.webhook_url
                    (mk_kwargs [("id", VStr "42")] None) (Sample.world_of []))).
    discriminate.
  - apply (proj1 (proj2 (C2_constructor_identifier Sample.webhook_url
                           Sample.hi (Sample.world_of [])))
             "https://discord.com/api/webhooks/123456789/abcDEF" "123456789");
      reflexivity.
  - apply (proj2 (proj2 (C2_constructor_identifier (Some "url1")
                           Sample.hi (Sample.world_of [])))).
    + reflexivity.
    + right. exists "url1". split; [reflexivity | simpl; lia].
Defined.

(** A missing [id] attribute makes every later use of the client fail:
    the payload cannot be built. *)
Lemma json_needs_id st :
  DiscordWebhook.id (DiscordWebhook.self st) = None ->
  DiscordWebhook.json st = (Raise AttributeError, st).
Proof. intros H. unfold DiscordWebhook.json, DiscordWebhook.as_dict. now rewrite H. Qed.

(** ** Reconciliation of the response *)

Lemma bind_bind {S A B C} (m : M S A) (f : A -> M S B) (g : B -> M S C) s :
  bind (bind m f) g s = bind m (fun a => bind (f a) g) s.
Proof. unfold bind. destruct (m s) as [[a| |] s']; reflexivity. Qed.

Lemma execute_with_phases fuel rm st :
  DiscordWebhook.execute_with fuel rm st
  = match request_phase fuel st with
    | (Ok r, st1) => reconcile r (cleaned rm st1)
    | (Raise e, st1) => (Raise e, st1)
    | (OutOfFuel, st1) => (OutOfFuel, st1)
    end.
Proof.
  transitivity
    (bind (request_phase fuel)
       (fun r =>
          ((if rm then DiscordWebhook.remove_embeds else ret tt) ;;;
           DiscordWebhook.remove_files false ;;;
           reconcile r)%py) st).
  - symmetry. apply bind_bind.
  - unfold bind at 1.
    destruct (request_phase fuel st) as [[r| |] st1]; try reflexivity.
    destruct rm; reflexivity.
Qed.

Lemma async_execute_with_phases fuel rm st :
  AsyncDiscordWebhook.execute_with fuel rm st
  = match async_request_phase fuel st with
    | (Ok r, st1) => async_reconcile r (cleaned rm st1)
    | (Raise e, st1) => (Raise e, st1)
    | (OutOfFuel, st1) => (OutOfFuel, st1)
    end.
Proof.
  transitivity
    (bind (async_request_phase fuel)
       (fun r =>
          ((if rm then DiscordWebhook.remove_embeds else ret tt) ;;;
           DiscordWebhook.remove_files false ;;;
           async_reconcile r)%py) st).
  - symmetry. apply bind_bind.
  - unfold bind at 1.
    destruct (async_request_phase fuel st) as [[r| |] st1]; try reflexivity.
    destruct rm; reflexivity.
Qed.

Lemma cleaned_id rm st :
  DiscordWebhook.id (DiscordWebhook.self (cleaned rm st)) = DiscordWebhook.id (DiscordWebhook.self st).
Proof.
  unfold cleaned. destruct rm; run_monad; unfold DiscordWebhook.remove_embeds;
    run_monad; try destruct (alloc [] (DiscordWebhook.world st)); reflexivity.
Qed.

Lemma cleaned_attachments rm st :
  DiscordWebhook.attachments (DiscordWebhook.self (cleaned rm st))
  = DiscordWebhook.attachments (DiscordWebhook.self st).
Proof.
  unfold cleaned. destruct rm; run_monad; unfold DiscordWebhook.remove_embeds;
    run_monad; try destruct (alloc [] (DiscordWebhook.world st)); reflexivity.
Qed.


(** C1. The reconciliation step of [execute], for a response [r] that
    the request phase hands over.  A body that is not JSON makes
    [execute] raise [JSONDecodeError], and a JSON body that is not a
    mapping makes it raise [AttributeError]: the response is not returned
    (the property asks for a normal return), while files and embeds have
    been cleared already and [id] and [attachments] keep their values.
    Only for a body that is a JSON mapping does [execute] return [r],
    having stored a truthy [id] and truthy [attachments].  The awaiting
    client raises in the same way. *)
Theorem C1_reconciliation_of_execute :
  forall (fuel : nat) (rm : bool) (st st1 : DiscordWebhook.St) (r : Response),
    (request_phase fuel st = (Ok r, st1) ->
     (forall raw,
         Response.content r = BNotJson raw ->
         DiscordWebhook.execute_with fuel rm st
         = (Raise JSONDecodeError, cleaned rm st1))
     /\
     (forall v,
         Response.content r = BJson v ->
         (forall d, v <> VDict d) ->
         DiscordWebhook.execute_with fuel rm st
         = (Raise AttributeError, cleaned rm st1))
     /\
     (forall d,
         Response.content r = BJson (VDict d) ->
         exists st2,
           DiscordWebhook.execute_with fuel rm st = (Ok r, st2)
           /\ DiscordWebhook.id (DiscordWebhook.self st2)
              = (if truthy (py_get "id" d) then Some (py_get "id" d)
                 else DiscordWebhook.id (DiscordWebhook.self st1))
           /\ DiscordWebhook.attachments (DiscordWebhook.self st2)
              = (if truthy (py_get "attachments" d)
                 then py_get "attachments" d
                 else DiscordWebhook.attachments (DiscordWebhook.self st1))))
    /\
    (async_request_phase fuel st = (Ok r, st1) ->
     forall raw,
       Response.content r = BNotJson raw ->
       AsyncDiscordWebhook.execute_with fuel rm st
       = (Raise JSONDecodeError, cleaned rm st1)).
Proof.
  intros fuel rm st st1 r. split.
  - intros Hphase. rewrite execute_with_phases, Hphase.
    split; [|split].
    + intros raw Hbody. unfold reconcile. run_monad. now rewrite Hbody.
    + intros v Hbody Hnot. unfold reconcile. run_monad. rewrite Hbody.
      simpl. destruct v; try reflexivity. now destruct (Hnot d).
    + intros d Hbody. unfold reconcile. run_monad. rewrite Hbody. simpl.
      pose proof (cleaned_id rm st1) as Hid.
      pose proof (cleaned_attachments rm st1) as Hatt.
      destruct (truthy (py_get "id" d)), (truthy (py_get "attachments" d));
        simpl; eexists; (split; [reflexivity|]); simpl; auto.
  - intros Hphase raw Hbody. rewrite async_execute_with_phases, Hphase.
    unfold async_reconcile. run_monad. now rewrite Hbody.
Qed.

Lemma C1_reconciliation_of_execute_witness :
  DiscordWebhook.execute_with 1 false Sample.hi_204
  = (Raise JSONDecodeError,
     cleaned false (snd (request_phase 1 Sample.hi_204)))
  /\
  DiscordWebhook.execute_with 1 false Sample.hi_list
  = (Raise AttributeError,
     cleaned false (snd (request_phase 1 Sample.hi_list)))
  /\
  (exists st2,
      DiscordWebhook.execute_with 1 false Sample.hi_200 = (Ok Sample.ok_200, st2)
      /\ DiscordWebhook.id (DiscordWebhook.self st2) = Some (VStr "1001")
      /\ DiscordWebhook.attachments (DiscordWebhook.self st2)
         = VList [VDict [("id", VInt 0); ("filename", VStr "a.txt")]])
  /\
  AsyncDiscordWebhook.execute_with 1 false Sample.hi_204
  = (Raise JSONDecodeError,
     cleaned false (snd (async_request_phase 1 Sample.hi_204))).
Proof.
  pose (st := Sample.hi_204). pose (st' := Sample.hi_list).
  pose (st'' := Sample.hi_200).
  split; [|split; [|split]].
  - apply (proj1 (proj1 (C1_reconciliation_of_execute 1 false st
                           (snd (request_phase 1 st))
                           Sample.no_content_204)
                    eq_refl) "").
    reflexivity.
  - apply (proj1 (proj2 (proj1 (C1_reconciliation_of_execute 1 false st'
                                  (snd (request_phase 1 st'))
                                  Sample.list_200)
                           eq_refl))
             (VList [])).
    + reflexivity.
    + discriminate.
  - apply (proj2 (proj2 (proj1 (C1_reconciliation_of_execute 1 false st''
                                  (snd (request_phase 1 st''))
                                  Sample.ok_200)
                           eq_refl))
             [("id", VStr "1001");
              ("attachments",
               VList [VDict [("id", VInt 0); ("filename", VStr "a.txt")]])]).
    reflexivity.
  - apply (proj2 (C1_reconciliation_of_execute 1 false st
                    (snd (async_request_phase 1 st))
                    Sample.no_content_204)
             eq_refl "").
    reflexivity.
Defined.

(** The same call through [execute] itself, with the response the remote
    end gives when [wait] is off. *)
Example execute_no_content :
  fst (DiscordWebhook.execute false (Sample.client Sample.hi [Sample.no_content_204]))
  = Raise JSONDecodeError
  /\ fst (AsyncDiscordWebhook.execute false
            (Sample.client Sample.hi [Sample.no_content_204]))
     = Raise JSONDecodeError.
Proof. split; reflexivity. Qed.

(** ** Frame lemmas for the request machinery *)

Lemma json_state st : snd (DiscordWebhook.json st) = st.
Proof.
  unfold DiscordWebhook.json, DiscordWebhook.as_dict.
  destruct (DiscordWebhook.id (DiscordWebhook.self st)); [|reflexivity].
  destruct (deref (DiscordWebhook.world st) (DiscordWebhook.embeds (DiscordWebhook.self st)));
    [reflexivity|].
  destruct (DiscordWebhook.embeds_as_dicts (t :: l)); reflexivity.
Qed.

Lemma json_ok st payload st' :
  DiscordWebhook.json st = (Ok payload, st') -> st' = st.
Proof. intros H. pose proof (json_state st) as E. rewrite H in E. exact E. Qed.

Lemma send_self req st :
  DiscordWebhook.self (snd (DiscordWebhook.send req st)) = DiscordWebhook.self st.
Proof.
  unfold DiscordWebhook.send, transport.
  destruct (server (DiscordWebhook.world st)); reflexivity.
Qed.

Lemma send_heap req st :
  heap (DiscordWebhook.world (snd (DiscordWebhook.send req st))) = heap (DiscordWebhook.world st).
Proof.
  unfold DiscordWebhook.send, transport.
  destruct (server (DiscordWebhook.world st)); reflexivity.
Qed.

(** A wait changes nothing but the trace, whether it ends or raises. *)
Lemma time_sleep_state x st :
  DiscordWebhook.self (snd (DiscordWebhook.time_sleep x st)) = DiscordWebhook.self st
  /\ heap (DiscordWebhook.world (snd (DiscordWebhook.time_sleep x st)))
     = heap (DiscordWebhook.world st)
  /\ server (DiscordWebhook.world (snd (DiscordWebhook.time_sleep x st)))
     = server (DiscordWebhook.world st)
  /\ fst (DiscordWebhook.time_sleep x st) <> OutOfFuel.
Proof.
  destruct x as [q|b|]; simpl; try (repeat split; discriminate).
  destruct (Qle_bool 0 q); repeat split; discriminate.
Qed.

Lemma asyncio_sleep_state x st :
  DiscordWebhook.self (snd (AsyncDiscordWebhook.asyncio_sleep x st))
  = DiscordWebhook.self st
  /\ heap (DiscordWebhook.world (snd (AsyncDiscordWebhook.asyncio_sleep x st)))
     = heap (DiscordWebhook.world st)
  /\ server (DiscordWebhook.world (snd (AsyncDiscordWebhook.asyncio_sleep x st)))
     = server (DiscordWebhook.world st).
Proof. destruct x as [q|[|]|]; repeat split. Qed.

Lemma time_sleep_trace x st :
  exists evs,
    trace (DiscordWebhook.world (snd (DiscordWebhook.time_sleep x st)))
    = trace (DiscordWebhook.world st) ++ evs.
Proof.
  destruct x as [q|b|]; simpl;
    try (exists []; simpl; now rewrite app_nil_r).
  destruct (Qle_bool 0 q); simpl;
    [eexists; reflexivity | exists []; simpl; now rewrite app_nil_r].
Qed.

(** Resubmitting a prepared request never touches the object. *)
Lemma handle_rate_limit_send_self fuel :
  forall r req st,
    DiscordWebhook.self (snd (DiscordWebhook.handle_rate_limit fuel r (DiscordWebhook.send req) st))
    = DiscordWebhook.self st.
Proof.
  induction fuel as [|fuel IH]; intros r req st; simpl.
  - destruct (status_code r =? 429)%Z; reflexivity.
  - destruct (status_code r =? 429)%Z; [|reflexivity].
    run_monad.
    destruct (json_loads (Response.content r)) as [v| |]; try reflexivity.
    destruct (lacks_via r); [reflexivity|].
    destruct (subscript "retry_after" v) as [ra| |]; try reflexivity.
    destruct (py_float ra) as [x| |]; try reflexivity.
    simpl.
    destruct (time_sleep_state (float_add x (15 # 100)) st) as [Hw _].
    destruct (DiscordWebhook.time_sleep (float_add x (15 # 100)) st)
      as [[[]| |] s1]; simpl in *; try exact Hw.
    match goal with
    | |- context [DiscordWebhook.send req ?s] =>
        pose proof (send_self req s) as Hs;
        destruct (DiscordWebhook.send req s) as [[r'| |] st'] eqn:E
    end; simpl in *; try congruence.
    destruct (success r'); [simpl; congruence|].
    rewrite IH. congruence.
Qed.

(** The log line of a failure either passes or raises; it changes
    nothing. *)
Lemma log_failure_cases r st :
  DiscordWebhook.log_failure r st = (Ok tt, st)
  \/ DiscordWebhook.log_failure r st = (Raise UnicodeDecodeError, st).
Proof.
  unfold DiscordWebhook.log_failure. run_monad.
  destruct (Response.content r); simpl; auto.
Qed.

Lemma settle_send_self fuel r req st :
  DiscordWebhook.self (snd (DiscordWebhook.settle fuel r (DiscordWebhook.send req) st))
  = DiscordWebhook.self st.
Proof.
  unfold DiscordWebhook.settle. run_monad.
  destruct (success r); [reflexivity|].
  destruct ((status_code r =? 429)%Z
            && truthy (DiscordWebhook.rate_limit_retry (DiscordWebhook.self st)))%bool;
    [|destruct (log_failure_cases r st) as [-> | ->]; reflexivity].
  apply handle_rate_limit_send_self.
Qed.

(** ** [edit] and the [wait] parameter *)

Ltac case_on_matches H :=
  repeat match type of H with
         | context [match ?x with _ => _ end] =>
             destruct x eqn:?; simpl in H; try discriminate H
         end.

(** C4. The request [edit] prepares and submits, by the two branches of
    the source.  Without files the body is JSON and the query parameters
    are [wait=True]; with files the body is multipart and the request
    carries no query parameter at all, so [wait=true] is not forced (the
    property asks for it on both).  Same for the awaiting client. *)
Theorem C4_edit_query_parameters :
  forall (st st' : DiscordWebhook.St) (req : Request),
    (DiscordWebhook.edit_request st = (Ok req, st') ->
     (truthy (DiscordWebhook.files (DiscordWebhook.self st)) = false ->
      params req = [("wait", VBool true)])
     /\
     (truthy (DiscordWebhook.files (DiscordWebhook.self st)) = true ->
      params req = [] /\ Dict.get "wait" (params req) = None))
    /\
    (AsyncDiscordWebhook.edit_request st = (Ok req, st') ->
     (truthy (DiscordWebhook.files (DiscordWebhook.self st)) = false ->
      params req = [("wait", VBool true)])
     /\
     (truthy (DiscordWebhook.files (DiscordWebhook.self st)) = true ->
      params req = [] /\ Dict.get "wait" (params req) = None)).
Proof.
  intros st st' req. split.
  - intros H. unfold DiscordWebhook.edit_request in H.
    unfold bind, gets, ret, lift in H.
    destruct (DiscordWebhook.message_url st) as [[target| |] st0] eqn:Hurl;
      try discriminate H.
    assert (st0 = st) as ->.
    { unfold DiscordWebhook.message_url in Hurl. case_on_matches Hurl.
      now inversion Hurl. }
    split; intros Hf; rewrite Hf in H; simpl in H.
    + case_on_matches H. inversion H. reflexivity.
    + case_on_matches H. inversion H. split; reflexivity.
  - intros H. unfold AsyncDiscordWebhook.edit_request in H.
    unfold bind, gets, ret, lift in H.
    destruct (DiscordWebhook.message_url st) as [[target| |] st0] eqn:Hurl;
      try discriminate H.
    assert (st0 = st) as ->.
    { unfold DiscordWebhook.message_url in Hurl. case_on_matches Hurl.
      now inversion Hurl. }
    split; intros Hf; rewrite Hf in H; simpl in H.
    + case_on_matches H. inversion H. reflexivity.
    + case_on_matches H. inversion H. split; reflexivity.
Qed.

Lemma C4_edit_query_parameters_witness :
  (exists req st',
      DiscordWebhook.edit_request (Sample.client Sample.hi []) = (Ok req, st')
      /\ params req = [("wait", VBool true)])
  /\
  (exists req st',
      DiscordWebhook.edit_request (Sample.client Sample.hi_text_file [])
      = (Ok req, st')
      /\ params req = [] /\ Dict.get "wait" (params req) = None)
  /\
  (exists req st',
      AsyncDiscordWebhook.edit_request (Sample.client Sample.hi []) = (Ok req, st')
      /\ params req = [("wait", VBool true)])
  /\
  (exists req st',
      AsyncDiscordWebhook.edit_request (Sample.client Sample.hi_text_file [])
      = (Ok req, st')
      /\ params req = [] /\ Dict.get "wait" (params req) = None).
Proof.
  split; [|split; [|split]].
  - eexists _, _. split; [reflexivity|].
    apply (proj1 (proj1 (C4_edit_query_parameters
                           (Sample.client Sample.hi []) _ _) eq_refl)).
    reflexivity.
  - eexists _, _. split; [reflexivity|].
    apply (proj2 (proj1 (C4_edit_query_parameters
                           (Sample.client Sample.hi_text_file []) _ _)
                    eq_refl)).
    reflexivity.
  - eexists _, _. split; [reflexivity|].
    apply (proj1 (proj2 (C4_edit_query_parameters
                           (Sample.client Sample.hi []) _ _) eq_refl)).
    reflexivity.
  - eexists _, _. split; [reflexivity|].
    apply (proj2 (proj2 (C4_edit_query_parameters
                           (Sample.client Sample.hi_text_file []) _ _)
                    eq_refl)).
    reflexivity.
Defined.

(** What [edit] puts on the wire for a client that holds a text file:
    one [PATCH] to the message URL, a multipart body, no parameters. *)
Example edit_with_file_trace :
  exists files',
    trace (DiscordWebhook.world
             (snd (DiscordWebhook.edit
                     (Sample.client Sample.hi_text_file [Sample.plain_200]))))
    = [EvRequest
         (mk_request PATCH
            (Some "https://discord.com/api/webhooks/123456789/abcDEF/messages/123456789")
            (FilesBody files') [] VNone VNone)].
Proof. eexists. reflexivity. Qed.

(** ** The [payload_json] slot *)

Lemma json_carries_files st payload st' :
  DiscordWebhook.json st = (Ok payload, st') ->
  truthy (DiscordWebhook.files (DiscordWebhook.self st)) = true ->
  Dict.get "files" payload = Some (DiscordWebhook.files (DiscordWebhook.self st)).
Proof.
  unfold DiscordWebhook.json, DiscordWebhook.as_dict. intros H Hf.
  destruct (DiscordWebhook.id (DiscordWebhook.self st)); [|discriminate H].
  destruct (deref (DiscordWebhook.world st) (DiscordWebhook.embeds (DiscordWebhook.self st))).
  - inversion H. subst payload st'. unfold DiscordWebhook.put at 1. rewrite Hf.
    apply dict_get_set_eq.
  - destruct (DiscordWebhook.embeds_as_dicts (t :: l)); try discriminate H.
    inversion H. subst payload st'. unfold DiscordWebhook.put at 1. rewrite Hf.
    apply dict_get_set_eq.
Qed.

Lemma unserializable_entry k v (d : dict) :
  Dict.get k d = Some v ->
  serializable v = false ->
  forallb (fun kv => serializable (snd kv)) d = false.
Proof.
  induction d as [|[k' v'] d IH]; simpl; [discriminate|].
  intros Hget Hv. destruct (String.eqb k k').
  - inversion Hget. subst. now rewrite Hv.
  - rewrite (IH Hget Hv). apply andb_false_r.
Qed.

(** With a file whose content [json.dumps] rejects, the payload cannot
    be serialised: it holds the files mapping itself. *)
Lemma dumps_of_json_fails st payload st' :
  DiscordWebhook.json st = (Ok payload, st') ->
  truthy (DiscordWebhook.files (DiscordWebhook.self st)) = true ->
  serializable (DiscordWebhook.files (DiscordWebhook.self st)) = false ->
  json_dumps (VDict payload) = Raise TypeError.
Proof.
  intros Hj Hf Hs. unfold json_dumps. simpl.
  now rewrite (unserializable_entry _ _ _ (json_carries_files _ _ _ Hj Hf) Hs).
Qed.

Lemma message_url_state st r st' :
  DiscordWebhook.message_url st = (r, st') -> st' = st.
Proof.
  unfold DiscordWebhook.message_url. intros H.
  repeat match type of H with
         | context [match ?x with _ => _ end] => destruct x
         end; now inversion H.
Qed.

Lemma embeds_as_dicts_terminates es :
  DiscordWebhook.embeds_as_dicts es <> OutOfFuel.
Proof.
  induction es as [|e es IH]; simpl; [discriminate|].
  unfold DiscordEmbed.as_dict. destruct (DiscordEmbed.timestamp e); simpl; [|discriminate].
  destruct (DiscordWebhook.embeds_as_dicts es); simpl; congruence.
Qed.

Lemma json_terminates st : fst (DiscordWebhook.json st) <> OutOfFuel.
Proof.
  unfold DiscordWebhook.json, DiscordWebhook.as_dict.
  destruct (DiscordWebhook.id (DiscordWebhook.self st)); [|discriminate].
  destruct (deref (DiscordWebhook.world st) (DiscordWebhook.embeds (DiscordWebhook.self st)));
    [discriminate|].
  pose proof (embeds_as_dicts_terminates (t :: l)).
  destruct (DiscordWebhook.embeds_as_dicts (t :: l)); simpl; congruence.
Qed.

Lemma api_post_request_unserializable st :
  truthy (DiscordWebhook.files (DiscordWebhook.self st)) = true ->
  serializable (DiscordWebhook.files (DiscordWebhook.self st)) = false ->
  exists e, DiscordWebhook.api_post_request st = (Raise e, st)
            /\ AsyncDiscordWebhook.api_post_request st = (Raise e, st).
Proof.
  intros Hf Hs.
  unfold DiscordWebhook.api_post_request, AsyncDiscordWebhook.api_post_request.
  unfold bind, gets, lift. cbv beta iota. rewrite Hf.
  change (negb true) with false. cbv beta iota.
  pose proof (json_terminates st) as Hterm.
  destruct (DiscordWebhook.json st) as [[payload|e|] st0] eqn:Hj.
  - cbv beta iota. rewrite (dumps_of_json_fails _ _ _ Hj Hf Hs).
    rewrite (json_ok _ _ _ Hj). eauto.
  - pose proof (json_state st) as E. rewrite Hj in E. simpl in E. subst st0.
    eauto.
  - now destruct Hterm.
Qed.

Lemma edit_unserializable fuel st :
  truthy (DiscordWebhook.files (DiscordWebhook.self st)) = true ->
  serializable (DiscordWebhook.files (DiscordWebhook.self st)) = false ->
  exists e, DiscordWebhook.edit_with fuel st = (Raise e, st)
            /\ AsyncDiscordWebhook.edit_with fuel st = (Raise e, st).
Proof.
  intros Hf Hs.
  unfold DiscordWebhook.edit_with, AsyncDiscordWebhook.edit_with.
  unfold DiscordWebhook.edit_request, AsyncDiscordWebhook.edit_request.
  unfold bind, gets, lift. cbv beta iota.
  destruct (DiscordWebhook.message_url st) as [[target|e|] st0] eqn:Hurl;
    pose proof (message_url_state _ _ _ Hurl); subst st0.
  - rewrite Hf. change (negb true) with false. cbv beta iota.
    pose proof (json_terminates st) as Hterm.
    destruct (DiscordWebhook.json st) as [[payload|e|] st0] eqn:Hj.
    + cbv beta iota. rewrite (dumps_of_json_fails _ _ _ Hj Hf Hs).
      rewrite (json_ok _ _ _ Hj). eauto.
    + pose proof (json_state st) as E. rewrite Hj in E. simpl in E.
      subst st0. eauto.
    + now destruct Hterm.
  - eauto.
  - exfalso. unfold DiscordWebhook.message_url in Hurl.
    repeat match type of Hurl with
           | context [match ?x with _ => _ end] => destruct x
           end; discriminate Hurl.
Qed.

Lemma truthy_dict (d : dict) : d <> [] -> truthy (VDict d) = true.
Proof. destruct d; [congruence | reflexivity]. Qed.

Lemma api_post_request_inserts st d payload :
  DiscordWebhook.files (DiscordWebhook.self st) = VDict d ->
  d <> [] ->
  DiscordWebhook.json st = (Ok payload, st) ->
  serializable (VDict payload) = true ->
  DiscordWebhook.api_post_request st
  = DiscordWebhook.send
      (mk_request POST (DiscordWebhook.url (DiscordWebhook.self st))
         (FilesBody (with_payload_json payload d))
         (DiscordWebhook._query_params (DiscordWebhook.self st))
         (DiscordWebhook.proxies (DiscordWebhook.self st))
         (DiscordWebhook.timeout (DiscordWebhook.self st)))
      (DiscordWebhook.on_self (DiscordWebhook.with_files (with_payload_json payload d)) st).
Proof.
  intros Hd Hne Hj Hs. unfold DiscordWebhook.api_post_request.
  unfold bind, gets, lift. cbv beta iota.
  rewrite Hd, (truthy_dict d Hne). change (negb true) with false.
  cbv beta iota. rewrite Hj. cbv beta iota.
  unfold json_dumps. rewrite Hs. cbv beta iota.
  unfold DiscordWebhook.files_set. rewrite Hd. reflexivity.
Qed.

Lemma edit_request_inserts st d payload target :
  DiscordWebhook.files (DiscordWebhook.self st) = VDict d ->
  d <> [] ->
  DiscordWebhook.json st = (Ok payload, st) ->
  serializable (VDict payload) = true ->
  DiscordWebhook.message_url st = (Ok target, st) ->
  DiscordWebhook.edit_request st
  = (Ok (mk_request PATCH (Some target)
           (FilesBody (with_payload_json payload d)) []
           (DiscordWebhook.proxies (DiscordWebhook.self st))
           (DiscordWebhook.timeout (DiscordWebhook.self st))),
     DiscordWebhook.on_self (DiscordWebhook.with_files (with_payload_json payload d)) st).
Proof.
  intros Hd Hne Hj Hs Hurl. unfold DiscordWebhook.edit_request.
  unfold bind, gets, lift, ret. cbv beta iota. rewrite Hurl. cbv beta iota.
  rewrite Hd, (truthy_dict d Hne). change (negb true) with false.
  cbv beta iota. rewrite Hj. cbv beta iota.
  unfold json_dumps. rewrite Hs. cbv beta iota.
  unfold DiscordWebhook.files_set. rewrite Hd. reflexivity.
Qed.

Lemma edit_keeps_files fuel st d payload target :
  DiscordWebhook.files (DiscordWebhook.self st) = VDict d ->
  d <> [] ->
  DiscordWebhook.json st = (Ok payload, st) ->
  serializable (VDict payload) = true ->
  DiscordWebhook.message_url st = (Ok target, st) ->
  DiscordWebhook.files (DiscordWebhook.self (snd (DiscordWebhook.edit_with fuel st)))
  = with_payload_json payload d.
Proof.
  intros Hd Hne Hj Hs Hurl. unfold DiscordWebhook.edit_with.
  unfold bind at 1.
  rewrite (edit_request_inserts st d payload target Hd Hne Hj Hs Hurl).
  unfold bind.
  match goal with
  | |- context [DiscordWebhook.send ?req ?s] =>
      pose proof (send_self req s) as Hsend;
      destruct (DiscordWebhook.send req s) as [[r| |] st1] eqn:E
  end; simpl in Hsend; simpl; try (rewrite Hsend; reflexivity).
  rewrite settle_send_self, Hsend. reflexivity.
Qed.

(** C10. The [payload_json] slot, for a client whose [files] mapping [d]
    is not empty.  When [json.dumps] rejects a file content (the [bytes]
    that [add_file] is documented to take), [api_post_request] and [edit]
    raise before anything is stored or sent: the object and the world are
    left as they were, so no ["payload_json"] entry is inserted and no
    request is issued (the property asks for both whenever files are
    present).  When the payload serialises, [api_post_request] stores the
    serialised payload under ["payload_json"] in the client's own mapping
    before it sends, and after [edit] the mapping still holds that entry
    and every file slot. *)
Theorem C10_payload_json_slot :
  forall (st : DiscordWebhook.St) (d : dict),
    DiscordWebhook.files (DiscordWebhook.self st) = VDict d ->
    d <> [] ->
    (serializable (VDict d) = false ->
     forall fuel, exists e1 e2,
       DiscordWebhook.api_post_request st = (Raise e1, st)
       /\ AsyncDiscordWebhook.api_post_request st = (Raise e1, st)
       /\ DiscordWebhook.edit_with fuel st = (Raise e2, st)
       /\ AsyncDiscordWebhook.edit_with fuel st = (Raise e2, st))
    /\
    (forall payload,
        DiscordWebhook.json st = (Ok payload, st) ->
        serializable (VDict payload) = true ->
        DiscordWebhook.api_post_request st
        = DiscordWebhook.send
            (mk_request POST (DiscordWebhook.url (DiscordWebhook.self st))
               (FilesBody (with_payload_json payload d))
               (DiscordWebhook._query_params (DiscordWebhook.self st))
               (DiscordWebhook.proxies (DiscordWebhook.self st))
               (DiscordWebhook.timeout (DiscordWebhook.self st)))
            (DiscordWebhook.on_self
               (DiscordWebhook.with_files (with_payload_json payload d)) st)
        /\
        (forall fuel target,
            DiscordWebhook.message_url st = (Ok target, st) ->
            DiscordWebhook.files (DiscordWebhook.self (snd (DiscordWebhook.edit_with fuel st)))
            = with_payload_json payload d)
        /\
        (exists d',
            with_payload_json payload d = VDict d'
            /\ Dict.get "payload_json" d'
               = Some (VList [VNone; VJson (VDict payload)])
            /\ forall k, k <> "payload_json" ->
                         Dict.get k d' = Dict.get k d)).
Proof.
  intros st d Hd Hne. split.
  - intros Hs fuel.
    assert (truthy (DiscordWebhook.files (DiscordWebhook.self st)) = true) as Hf
        by (rewrite Hd; now apply truthy_dict).
    rewrite <- Hd in Hs.
    destruct (api_post_request_unserializable st Hf Hs) as [e1 [H1 H2]].
    destruct (edit_unserializable fuel st Hf Hs) as [e2 [H3 H4]].
    exists e1, e2. auto.
  - intros payload Hj Hs. split; [|split].
    + now apply api_post_request_inserts.
    + intros fuel target Hurl. now apply (edit_keeps_files fuel st d payload target).
    + eexists. split; [reflexivity|]. split.
      * apply dict_get_set_eq.
      * intros k Hk. apply dict_get_set_ne. congruence.
Qed.

Lemma C10_payload_json_slot_witness :
  (exists e1 e2,
      DiscordWebhook.api_post_request (Sample.hi_bytes_file [Sample.plain_200])
      = (Raise e1, Sample.hi_bytes_file [Sample.plain_200])
      /\ AsyncDiscordWebhook.api_post_request (Sample.hi_bytes_file [Sample.plain_200])
         = (Raise e1, Sample.hi_bytes_file [Sample.plain_200])
      /\ DiscordWebhook.edit_with 1 (Sample.hi_bytes_file [Sample.plain_200])
         = (Raise e2, Sample.hi_bytes_file [Sample.plain_200])
      /\ AsyncDiscordWebhook.edit_with 1 (Sample.hi_bytes_file [Sample.plain_200])
         = (Raise e2, Sample.hi_bytes_file [Sample.plain_200]))
  /\
  DiscordWebhook.files
    (DiscordWebhook.self
       (snd (DiscordWebhook.edit_with 1
               (Sample.client Sample.hi_text_file [Sample.plain_200]))))
  = with_payload_json
      (Sample.payload_of (Sample.client Sample.hi_text_file [Sample.plain_200]))
      Sample.a_txt_text.
Proof.
  split.
  - apply (proj1 (C10_payload_json_slot
                    (Sample.hi_bytes_file [Sample.plain_200])
                    Sample.a_txt_bytes eq_refl ltac:(discriminate))
             eq_refl 1%nat).
  - apply (proj1 (proj2 (proj2 (C10_payload_json_slot
                                  (Sample.client Sample.hi_text_file
                                     [Sample.plain_200])
                                  Sample.a_txt_text eq_refl
                                  ltac:(discriminate))
                           (Sample.payload_of
                              (Sample.client Sample.hi_text_file
                                 [Sample.plain_200]))
                           eq_refl eq_refl))
             1%nat
             "https://discord.com/api/webhooks/123456789/abcDEF/messages/123456789").
    reflexivity.
Defined.

(** The documented way of attaching a file, then sending. *)
Example execute_with_bytes_file :
  DiscordWebhook.execute false (Sample.hi_bytes_file [Sample.plain_200])
  = (Raise TypeError, Sample.hi_bytes_file [Sample.plain_200]).
Proof. reflexivity. Qed.

(** ** What the request phase leaves alone *)

Lemma keeps_ret {A} (a : A) : keeps_frame (ret a).
Proof. intros st. reflexivity. Qed.

Lemma keeps_lift {A} (r : Result A) : keeps_frame (lift r).
Proof. intros st. reflexivity. Qed.

Lemma keeps_raise {A} e : keeps_frame (@raise _ A e).
Proof. intros st. reflexivity. Qed.

Lemma keeps_gets {A} (f : DiscordWebhook.St -> A) : keeps_frame (gets f).
Proof. intros st. reflexivity. Qed.

Lemma keeps_bind {A B} (m : M DiscordWebhook.St A) (k : A -> M DiscordWebhook.St B) :
  keeps_frame m -> (forall a, keeps_frame (k a)) ->
  keeps_frame (bind m k).
Proof.
  intros Hm Hk st. unfold bind. specialize (Hm st).
  destruct (m st) as [[a| |] st']; simpl in *; try exact Hm.
  rewrite (Hk a st'). exact Hm.
Qed.

Lemma keeps_sleep q : keeps_frame (modify (DiscordWebhook.on_world (sleep q))).
Proof. intros st. reflexivity. Qed.

Lemma keeps_send req : keeps_frame (DiscordWebhook.send req).
Proof.
  intros st. unfold frame. now rewrite send_self, send_heap.
Qed.

Lemma keeps_json : keeps_frame DiscordWebhook.json.
Proof. intros st. now rewrite json_state. Qed.

Lemma keeps_files_set k v : keeps_frame (DiscordWebhook.files_set k v).
Proof.
  intros st. unfold DiscordWebhook.files_set.
  destruct (DiscordWebhook.files (DiscordWebhook.self st)); reflexivity.
Qed.

Lemma keeps_message_url : keeps_frame DiscordWebhook.message_url.
Proof.
  intros st. destruct (DiscordWebhook.message_url st) as [r st'] eqn:E.
  now rewrite (message_url_state _ _ _ E).
Qed.

Lemma keeps_time_sleep x : keeps_frame (DiscordWebhook.time_sleep x).
Proof.
  intros st. destruct (time_sleep_state x st) as (Hs & Hh & _).
  unfold frame. now rewrite Hs, Hh.
Qed.

Lemma keeps_asyncio_sleep x : keeps_frame (AsyncDiscordWebhook.asyncio_sleep x).
Proof.
  intros st. destruct (asyncio_sleep_state x st) as (Hs & Hh & _).
  unfold frame. now rewrite Hs, Hh.
Qed.

Lemma keeps_log_failure r : keeps_frame (DiscordWebhook.log_failure r).
Proof.
  intros st. destruct (log_failure_cases r st) as [-> | ->]; reflexivity.
Qed.

Create HintDb keeps.
#[local] Hint Resolve keeps_ret keeps_lift keeps_raise keeps_gets keeps_send
  keeps_json keeps_files_set keeps_sleep keeps_message_url
  keeps_time_sleep keeps_asyncio_sleep keeps_log_failure : keeps.

Ltac keeps :=
  repeat first
    [ apply keeps_bind; [|intros ?]
    | match goal with
      | |- keeps_frame (if ?b then _ else _) => destruct b
      end
    | solve [auto with keeps] ].

Lemma keeps_api_post_request : keeps_frame DiscordWebhook.api_post_request.
Proof. unfold DiscordWebhook.api_post_request. keeps. Qed.

Lemma keeps_async_api_post_request :
  keeps_frame AsyncDiscordWebhook.api_post_request.
Proof. unfold AsyncDiscordWebhook.api_post_request. keeps. Qed.

Lemma keeps_handle_rate_limit fuel :
  forall r (request : M DiscordWebhook.St Response),
    keeps_frame request ->
    keeps_frame (DiscordWebhook.handle_rate_limit fuel r request).
Proof.
  induction fuel as [|fuel IH]; intros r request Hreq; simpl.
  - destruct (status_code r =? 429)%Z; keeps.
  - destruct (status_code r =? 429)%Z; keeps.
Qed.

Lemma keeps_settle fuel r (request : M DiscordWebhook.St Response) :
  keeps_frame request -> keeps_frame (DiscordWebhook.settle fuel r request).
Proof.
  intros Hreq. unfold DiscordWebhook.settle. keeps.
  now apply keeps_handle_rate_limit.
Qed.

Lemma keeps_async_handle_rate_limit fuel :
  forall r (request : M DiscordWebhook.St Response),
    keeps_frame request ->
    keeps_frame (AsyncDiscordWebhook.handle_rate_limit fuel r request).
Proof.
  induction fuel as [|fuel IH]; intros r request Hreq; simpl.
  - destruct (status_code r =? 429)%Z; keeps.
  - destruct (status_code r =? 429)%Z; keeps.
Qed.

Lemma keeps_async_settle fuel r (request : M DiscordWebhook.St Response) :
  keeps_frame request -> keeps_frame (AsyncDiscordWebhook.settle fuel r request).
Proof.
  intros Hreq. unfold AsyncDiscordWebhook.settle. keeps.
  now apply keeps_async_handle_rate_limit.
Qed.

Lemma keeps_request_phase fuel : keeps_frame (request_phase fuel).
Proof.
  unfold request_phase. apply keeps_bind.
  - apply keeps_api_post_request.
  - intros r. apply keeps_settle, keeps_api_post_request.
Qed.

Lemma keeps_async_request_phase fuel :
  keeps_frame (async_request_phase fuel).
Proof.
  unfold async_request_phase. apply keeps_bind.
  - apply keeps_async_api_post_request.
  - intros r. apply keeps_async_settle, keeps_async_api_post_request.
Qed.

Lemma frame_attachments st st' :
  frame st' = frame st ->
  DiscordWebhook.attachments (DiscordWebhook.self st') = DiscordWebhook.attachments (DiscordWebhook.self st).
Proof.
  unfold frame. intros H.
  apply (f_equal (fun p => DiscordWebhook.attachments (fst p))) in H. exact H.
Qed.

Lemma frame_get_embeds st st' :
  frame st' = frame st -> DiscordWebhook.get_embeds st' = DiscordWebhook.get_embeds st.
Proof.
  unfold frame, DiscordWebhook.get_embeds, deref. intros H.
  pose proof (f_equal (fun p => DiscordWebhook.embeds (fst p)) H) as He.
  pose proof (f_equal snd H) as Hh. simpl in He, Hh.
  now rewrite He, Hh.
Qed.

(** ** The two clients side by side *)

(** The awaiting [execute] never assigns [attachments]. *)
Lemma async_execute_keeps_attachments fuel rm st :
  DiscordWebhook.attachments
    (DiscordWebhook.self (snd (AsyncDiscordWebhook.execute_with fuel rm st)))
  = DiscordWebhook.attachments (DiscordWebhook.self st).
Proof.
  rewrite async_execute_with_phases.
  pose proof (frame_attachments _ _ (keeps_async_request_phase fuel st)) as Hp.
  destruct (async_request_phase fuel st) as [[r| |] st1]; simpl in *;
    try exact Hp.
  rewrite <- Hp, <- (cleaned_attachments rm st1).
  unfold async_reconcile. run_monad.
  destruct (json_loads (Response.content r)) as [v| |]; try reflexivity.
  simpl. destruct (body_get "id" v) as [i| |]; try reflexivity.
  simpl. destruct (truthy i); reflexivity.
Qed.

(** C5. The blocking and the awaiting client on the same answers.  The
    awaiting [execute] never changes [attachments], whatever the remote
    end sends, while the blocking [execute] stores the echoed list: on a
    200 response that carries [id] and [attachments] both return the
    response and both store the [id], and only the blocking one stores
    the attachments.  The awaiting [delete] returns a 429 response as it
    is, without waiting or resubmitting, where the blocking [delete] with
    [rate_limit_retry] waits and resubmits.  (The property asks for the
    same behaviour from both.) *)
Theorem C5_blocking_and_awaiting_clients :
  (forall fuel rm st,
      DiscordWebhook.attachments
        (DiscordWebhook.self (snd (AsyncDiscordWebhook.execute_with fuel rm st)))
      = DiscordWebhook.attachments (DiscordWebhook.self st))
  /\
  (DiscordWebhook.attachments (DiscordWebhook.self Sample.hi_200) = VList []
   /\ fst (DiscordWebhook.execute false Sample.hi_200) = Ok Sample.ok_200
   /\ fst (AsyncDiscordWebhook.execute false Sample.hi_200) = Ok Sample.ok_200
   /\ DiscordWebhook.id (DiscordWebhook.self (snd (DiscordWebhook.execute false Sample.hi_200)))
      = Some (VStr "1001")
   /\ DiscordWebhook.id (DiscordWebhook.self (snd (AsyncDiscordWebhook.execute false Sample.hi_200)))
      = Some (VStr "1001")
   /\ DiscordWebhook.attachments
        (DiscordWebhook.self (snd (DiscordWebhook.execute false Sample.hi_200)))
      = VList [VDict [("id", VInt 0); ("filename", VStr "a.txt")]]
   /\ DiscordWebhook.attachments
        (DiscordWebhook.self (snd (AsyncDiscordWebhook.execute false Sample.hi_200)))
      = VList [])
  /\
  (fst (DiscordWebhook.delete Sample.hi_retry_limited) = Ok Sample.no_content_204
   /\ trace (DiscordWebhook.world (snd (DiscordWebhook.delete Sample.hi_retry_limited)))
      = [EvRequest Sample.delete_request;
         EvSleep ((1 # 2) + (15 # 100));
         EvRequest Sample.delete_request]
   /\ fst (AsyncDiscordWebhook.delete Sample.hi_retry_limited) = Ok Sample.limited_429
   /\ trace (DiscordWebhook.world (snd (AsyncDiscordWebhook.delete Sample.hi_retry_limited)))
      = [EvRequest Sample.delete_request]).
Proof.
  split; [|split].
  - intros fuel rm st. apply async_execute_keeps_attachments.
  - repeat split; reflexivity.
  - repeat split; reflexivity.
Qed.

(** ** State after [execute] *)







(** The same happens without any retry when a failing response has a body
    that is not UTF-8: the log line of [execute] raises before the
    clean-up. *)
Example execute_unreadable_failure :
  fst (DiscordWebhook.execute true
         (Sample.client Sample.hi_text_file [Sample.garbled_500]))
  = Raise UnicodeDecodeError
  /\ exists d,
      DiscordWebhook.files
        (DiscordWebhook.self
           (snd (DiscordWebhook.execute true
                   (Sample.client Sample.hi_text_file [Sample.garbled_500]))))
      = VDict d
      /\ Dict.keys d = ["_a.txt"; "payload_json"].
Proof. split; [reflexivity|]. eexists. split; reflexivity. Qed.

(** ** The length of an embed *)

Lemma fields_length_three_keys fs (d : dict) k1 k2 k3 v1 v2 v3 :
  d = [(k1, v1); (k2, v2); (k3, v3)] ->
  forall total, DiscordEmbed.fields_length (fs ++ [d]) total = Raise ValueError.
Proof.
  intros ->. induction fs as [|f fs IH]; intros total; simpl.
  - reflexivity.
  - destruct (Dict.keys f) as [|a [|b [|c ks]]]; try reflexivity.
    apply IH.
Qed.

(** C7. [__len__] on embeds built with the package's own setters.  After
    [add_embed_field], whatever the embed, it raises [ValueError]: the
    loop unpacks each field mapping, which has three keys, into two
    names.  With no fields, a footer set by [set_footer(text)] counts 1
    (the number of keys of the footer mapping) and not the length of
    [text], and an author set by [set_author(name)] counts 1 as well.
    (The property asks for the sum of the character lengths, without
    raising.) *)
Theorem C7_length_of_embed :
  (forall (e : DiscordEmbed.t) (name value : string) (inline : bool),
      DiscordEmbed.len (DiscordEmbed.add_embed_field name value inline e)
      = Raise ValueError)
  /\
  (forall (title description : option string) (text name : string),
      DiscordEmbed.len
        (DiscordEmbed.set_author name None None None
           (DiscordEmbed.set_footer text None None
              (DiscordEmbed.mk None None description [] None None None None None
                 title None None)))
      = Ok (DiscordEmbed.str_len title + DiscordEmbed.str_len description + 1 + 1)%nat)
  /\
  DiscordEmbed.len (DiscordEmbed.set_footer "hello" None None EmbedSample.base)
  = Ok (String.length "Status" + String.length "All good" + 1)%nat.
Proof.
  split; [|split].
  - intros e name value inline. unfold DiscordEmbed.len, DiscordEmbed.add_embed_field.
    simpl. now rewrite (fields_length_three_keys _ _ _ _ _ _ _ _ eq_refl).
  - intros title description text name. reflexivity.
  - reflexivity.
Qed.

(** A field mapping with two keys is counted by the lengths of its key
    names, 4 for ["name"] and 5 for ["value"], whatever it holds. *)
Example len_counts_key_names :
  forall name value : string,
    DiscordEmbed.len
      (DiscordEmbed.mk None None None [[("name", VStr name); ("value", VStr value)]]
         None None None None None None None None)
    = Ok 9%nat.
Proof. reflexivity. Qed.

(** ** Colours *)

Lemma get_put_str_ne k k' s data :
  k <> k' -> Dict.get k' (DiscordEmbed.put_str k s data) = Dict.get k' data.
Proof.
  intros Hne. unfold DiscordEmbed.put_str.
  destruct s as [x|]; [|reflexivity].
  destruct (negb (String.eqb x "")); [|reflexivity].
  now apply dict_get_set_ne.
Qed.

Lemma get_put_dict_ne k k' d data :
  k <> k' -> Dict.get k' (DiscordEmbed.put_dict k d data) = Dict.get k' data.
Proof.
  intros Hne. unfold DiscordEmbed.put_dict.
  destruct d as [[|kv d]|]; try reflexivity.
  now apply dict_get_set_ne.
Qed.

(** The ["color"] entry of a serialised embed. *)
Lemma as_dict_color e ts :
  DiscordEmbed.timestamp e = Some ts ->
  exists data,
    DiscordEmbed.as_dict e = Ok data
    /\ Dict.get "color" data
       = match DiscordEmbed.color e with
         | Some c => if (c =? 0)%Z then None else Some (VInt c)
         | None => None
         end.
Proof.
  intros Hts. unfold DiscordEmbed.as_dict. rewrite Hts.
  eexists. split; [reflexivity|].
  match goal with
  | |- _ = ?rhs =>
      destruct (DiscordEmbed.fields e) as [|f fs];
      [|rewrite dict_get_set_ne by discriminate]
  end.
  all: repeat (rewrite get_put_dict_ne by discriminate).
  all: rewrite get_put_str_ne by discriminate.
  all: repeat (rewrite get_put_dict_ne by discriminate).
  all: destruct (DiscordEmbed.color e) as [c|];
    [destruct (c =? 0)%Z; cbn [negb];
     [repeat (rewrite get_put_str_ne by discriminate); reflexivity
     |apply dict_get_set_eq]
    |repeat (rewrite get_put_str_ne by discriminate); reflexivity].
Qed.

(** C8, as the code has it.  For every integer [c] in [1, 16777215],
    [set_color(c)] succeeds and, on an embed whose timestamp has been
    set, the mapping [as_dict] returns afterwards has [color] equal to
    [c]; [set_color(0)] succeeds as well, but the mapping then has no
    [color] entry, 0 being falsy; for every integer outside
    [0, 16777215] [set_color] raises [ColorNotInRangeException]; for a
    string [h] that [int(h, 16)] reads as [v], [set_color(h)] is
    [set_color(v)]; and [set_color(None)] does not raise and leaves the
    embed with no colour. *)
Theorem C8_set_color :
  forall e : DiscordEmbed.t,
    (forall c : Z,
        (1 <= c <= 16777215)%Z ->
        DiscordEmbed.set_color (CInt c) e = (Ok tt, DiscordEmbed.with_color (Some c) e)
        /\ forall ts,
            DiscordEmbed.timestamp e = Some ts ->
            exists data,
              DiscordEmbed.as_dict (DiscordEmbed.with_color (Some c) e) = Ok data
              /\ Dict.get "color" data = Some (VInt c))
    /\
    (DiscordEmbed.set_color (CInt 0) e = (Ok tt, DiscordEmbed.with_color (Some 0%Z) e)
     /\ forall ts,
         DiscordEmbed.timestamp e = Some ts ->
         exists data,
           DiscordEmbed.as_dict (DiscordEmbed.with_color (Some 0%Z) e) = Ok data
           /\ Dict.get "color" data = None)
    /\
    (forall c : Z,
        (c < 0 \/ 16777215 < c)%Z ->
        fst (DiscordEmbed.set_color (CInt c) e) = Raise ColorNotInRangeException)
    /\
    (forall (h : string) (v : Z),
        int16 h = Ok v ->
        DiscordEmbed.set_color (CStr h) e = DiscordEmbed.set_color (CInt v) e)
    /\
    (DiscordEmbed.set_color CNone e = (Ok tt, DiscordEmbed.with_color None e)
     /\ DiscordEmbed.color (DiscordEmbed.with_color None e) = None
     /\ forall ts,
         DiscordEmbed.timestamp e = Some ts ->
         exists data,
           DiscordEmbed.as_dict (DiscordEmbed.with_color None e) = Ok data
           /\ Dict.get "color" data = None).
Proof.
  intros e. repeat split.
  - unfold DiscordEmbed.set_color.
    destruct ((0 <=? c) && (c <? 16777216))%Z eqn:E; [reflexivity|].
    apply andb_false_iff in E. destruct E as [E|E];
      [apply Z.leb_gt in E | apply Z.ltb_ge in E]; lia.
  - intros ts Hts.
    destruct (as_dict_color (DiscordEmbed.with_color (Some c) e) ts Hts)
      as [data [Hd Hc]].
    exists data. split; [exact Hd|]. rewrite Hc. simpl.
    destruct (c =? 0)%Z eqn:E; [apply Z.eqb_eq in E; lia | reflexivity].
  - intros ts Hts.
    destruct (as_dict_color (DiscordEmbed.with_color (Some 0%Z) e) ts Hts)
      as [data [Hd Hc]].
    exists data. split; [exact Hd | exact Hc].
  - intros c Hc. unfold DiscordEmbed.set_color.
    destruct ((0 <=? c) && (c <? 16777216))%Z eqn:E; [|reflexivity].
    apply andb_true_iff in E. destruct E as [E1 E2].
    apply Z.leb_le in E1. apply Z.ltb_lt in E2. lia.
  - intros h v Hh. unfold DiscordEmbed.set_color. now rewrite Hh.
  - intros ts Hts.
    destruct (as_dict_color (DiscordEmbed.with_color None e) ts Hts)
      as [data [Hd Hc]].
    exists data. split; [exact Hd | exact Hc].
Qed.

Lemma C8_set_color_witness :
  (DiscordEmbed.set_color (CInt 16711680) EmbedSample.stamped
   = (Ok tt, DiscordEmbed.with_color (Some 16711680%Z) EmbedSample.stamped)
   /\ exists data,
       DiscordEmbed.as_dict (DiscordEmbed.with_color (Some 16711680%Z) EmbedSample.stamped)
       = Ok data
       /\ Dict.get "color" data = Some (VInt 16711680))
  /\
  (exists data,
      DiscordEmbed.as_dict (DiscordEmbed.with_color (Some 0%Z) EmbedSample.stamped) = Ok data
      /\ Dict.get "color" data = None)
  /\
  fst (DiscordEmbed.set_color (CInt 16777216) EmbedSample.stamped)
  = Raise ColorNotInRangeException
  /\
  DiscordEmbed.set_color (CStr "ff0000") EmbedSample.stamped
  = DiscordEmbed.set_color (CInt 16711680) EmbedSample.stamped
  /\
  (exists data,
      DiscordEmbed.as_dict (DiscordEmbed.with_color None EmbedSample.stamped) = Ok data
      /\ Dict.get "color" data = None).
Proof.
  pose proof (C8_set_color EmbedSample.stamped)
    as [Hin [[_ Hzero] [Hout [Hhex [_ [_ Hnone]]]]]].
  split; [|split; [|split; [|split]]].
  - destruct (Hin 16711680%Z ltac:(lia)) as [H1 H2]. split; [exact H1|].
    apply (H2 "2024-01-01T00:00:00"). reflexivity.
  - apply (Hzero "2024-01-01T00:00:00"). reflexivity.
  - apply Hout. lia.
  - apply Hhex. reflexivity.
  - apply (Hnone "2024-01-01T00:00:00"). reflexivity.
Defined.

(** C8 as stated does not hold at [c = 0]: [set_color(0)] succeeds, and
    [as_dict] then returns a mapping without a [color] entry. *)
Lemma C8_black_is_not_serialised :
  DiscordEmbed.set_color (CInt 0) EmbedSample.stamped
  = (Ok tt, DiscordEmbed.with_color (Some 0%Z) EmbedSample.stamped)
  /\ DiscordEmbed.as_dict (DiscordEmbed.with_color (Some 0%Z) EmbedSample.stamped)
     = Ok [("title", VStr "Status"); ("description", VStr "All good");
           ("timestamp", VStr "2024-01-01T00:00:00")]
  /\ Dict.get "color"
       [("title", VStr "Status"); ("description", VStr "All good");
        ("timestamp", VStr "2024-01-01T00:00:00")]
     = None.
Proof. repeat split. Qed.

(** An embed on which [set_timestamp] was never called cannot be
    serialised at all: [as_dict] reads an attribute that does not exist. *)
Example as_dict_without_timestamp :
  DiscordEmbed.as_dict EmbedSample.base = Raise AttributeError.
Proof. reflexivity. Qed.

(** ** Batch construction *)

Lemma parse_id_cases u :
  (exists chunk, DiscordWebhook.parse_id u = Ok chunk)
  \/ DiscordWebhook.parse_id u = Raise ValueError.
Proof.
  unfold DiscordWebhook.parse_id. destruct u as [u|]; [|now right].
  unfold index_from_end.
  destruct (length (split "/" u) <? 2)%nat; [now right|].
  destruct (split "/" u !! (length (split "/" u) - 2)%nat); eauto.
Qed.

Lemma init_cases u kw w :
  if constructible kw u
  then exists c,
      DiscordWebhook.init u kw w = (Ok c, snd (embeds_cell kw w))
      /\ DiscordWebhook.embeds c = fst (embeds_cell kw w)
      /\ DiscordWebhook.url c = u
  else DiscordWebhook.init u kw w = (Raise ValueError, snd (embeds_cell kw w)).
Proof.
  unfold constructible, DiscordWebhook.init, embeds_cell.
  destruct (match kw_embeds kw with Some l => (l, w) | None => alloc [] w end)
    as [l w1]. simpl.
  destruct (py_get "id" (opts kw));
    try (eexists; split; [reflexivity | split; reflexivity]).
  destruct (parse_id_cases u) as [[chunk H]|H]; rewrite H.
  - eexists. split; [reflexivity | split; reflexivity].
  - reflexivity.
Qed.

Lemma init_all_ok kw urls :
  forall w,
    forallb (constructible kw) urls = true ->
    exists cs w',
      DiscordWebhook.init_all urls kw w = (Ok cs, w')
      /\ Forall2 (fun u c => exists wi wi', DiscordWebhook.init u kw wi = (Ok c, wi'))
           urls cs.
Proof.
  induction urls as [|u urls IH]; intros w Hall; simpl.
  - exists [], w. split; [reflexivity | constructor].
  - simpl in Hall. apply andb_true_iff in Hall. destruct Hall as [Hu Hrest].
    pose proof (init_cases u kw w) as Hi. rewrite Hu in Hi.
    destruct Hi as [c [Hc _]].
    destruct (IH (snd (embeds_cell kw w)) Hrest) as [cs [w' [Hcs Hf]]].
    exists (c :: cs), w'. unfold bind. rewrite Hc, Hcs. split; [reflexivity|].
    constructor; [eauto | exact Hf].
Qed.

Lemma init_all_fail kw urls :
  forall w,
    forallb (constructible kw) urls = false ->
    exists w', DiscordWebhook.init_all urls kw w = (Raise ValueError, w').
Proof.
  induction urls as [|u urls IH]; intros w Hall; simpl in *.
  - discriminate.
  - pose proof (init_cases u kw w) as Hi. unfold bind.
    destruct (constructible kw u).
    + destruct Hi as [c [Hc _]]. rewrite Hc.
      destruct (IH (snd (embeds_cell kw w)) Hall) as [w' Hw].
      rewrite Hw. eauto.
    + rewrite Hi. eauto.
Qed.

(** Without an [embeds] entry in the configuration every client gets a
    list of its own: the lists are new, empty and pairwise distinct. *)
Lemma init_all_fresh kw urls :
  kw_embeds kw = None ->
  forall w cs w',
    DiscordWebhook.init_all urls kw w = (Ok cs, w') ->
    (forall l, l ∈ dom (heap w) -> (heap w' !! l) = (heap w !! l))
    /\ (forall c, c ∈ cs ->
                  (DiscordWebhook.embeds c ∉ dom (heap w))
                  /\ heap w' !! DiscordWebhook.embeds c = Some [])
    /\ NoDup (DiscordWebhook.embeds <$> cs).
Proof.
  intros Hkw. induction urls as [|u urls IH]; intros w cs w' H; simpl in H.
  - inversion H. subst. split; [auto|]. split.
    + intros c Hc. inversion Hc.
    + constructor.
  - unfold bind in H.
    pose proof (init_cases u kw w) as Hi.
    destruct (constructible kw u).
    + destruct Hi as [c [Hc [Hl _]]]. rewrite Hc in H.
      destruct (DiscordWebhook.init_all urls kw (snd (embeds_cell kw w)))
        as [[cs'| |] w1] eqn:Hrest; try discriminate H.
      inversion H. subst cs w1. clear H.
      destruct (IH _ _ _ Hrest) as [Hold [Hnew Hnd]].
      unfold embeds_cell in *. rewrite Hkw in *. simpl in *.
      set (l := fresh (dom (heap w))) in *.
      assert (l ∉ dom (heap w)) as Hfresh by apply is_fresh.
      assert (forall l0, l0 ∈ dom (heap w) -> l0 ∈ dom (<[l:=[]]> (heap w)))
        as Hsub
          by (intros l0 Hl0; rewrite dom_insert_L;
              now apply elem_of_union_r).
      assert (l ∈ dom (<[l:=([] : list DiscordEmbed.t)]> (heap w))) as Hin
          by (rewrite dom_insert_L;
              now apply elem_of_union_l, elem_of_singleton).
      split; [|split].
      * intros l0 Hl0. rewrite (Hold l0 (Hsub l0 Hl0)).
        apply lookup_insert_ne. intros ->. contradiction.
      * intros c0 Hc0. apply elem_of_cons in Hc0. destruct Hc0 as [->|Hc0].
        -- rewrite Hl. split; [exact Hfresh|].
           rewrite (Hold l Hin). apply lookup_insert_eq.
        -- destruct (Hnew c0 Hc0) as [Hn1 Hn2]. split; [|exact Hn2].
           intros Hold0. apply Hn1. now apply Hsub.
      * constructor; [|exact Hnd].
        rewrite Hl. intros Hmem. apply list_elem_of_fmap in Hmem.
        destruct Hmem as [c0 [Heq Hc0]].
        destruct (Hnew c0 Hc0) as [Hn1 _]. apply Hn1. now rewrite <- Heq.
    + rewrite Hi in H. discriminate H.
Qed.

Lemma add_embed_own e c w :
  DiscordWebhook.get_embeds (DiscordWebhook.mk_st c (after_add_embed e c w))
  = DiscordWebhook.get_embeds (DiscordWebhook.mk_st c w) ++ [e].
Proof.
  unfold after_add_embed, DiscordWebhook.get_embeds, DiscordWebhook.add_embed, modify,
    deref. simpl.
  now rewrite lookup_insert_eq.
Qed.

Lemma add_embed_other e c c' w :
  DiscordWebhook.embeds c <> DiscordWebhook.embeds c' ->
  DiscordWebhook.get_embeds (DiscordWebhook.mk_st c' (after_add_embed e c w))
  = DiscordWebhook.get_embeds (DiscordWebhook.mk_st c' w).
Proof.
  intros Hne.
  unfold after_add_embed, DiscordWebhook.get_embeds, DiscordWebhook.add_embed, modify,
    deref. simpl.
  now rewrite lookup_insert_ne.
Qed.

(** C9, as the code has it.  [create_batch(urls, **kwargs)] raises
    [TypeError] when the configuration has a [url] entry.  Otherwise,
    when the constructor accepts every URL (an [id] is in the
    configuration, or every URL has a piece before its last ["/"]), it
    returns as many clients as there are URLs, the i-th being what the
    constructor makes of the i-th URL and the configuration; and when the
    configuration has no [embeds] entry (as with [content="hi"] alone),
    appending an embed to one client's list extends that list and leaves
    the list of every other client as it was.  When the constructor
    rejects one of the URLs, the whole call raises its [ValueError]. *)
Theorem C9_create_batch :
  forall (urls : list (option string)) (kw : Kwargs) (w : World),
    (Dict.mem "url" (opts kw) = true ->
     DiscordWebhook.create_batch urls kw w = (Raise TypeError, w))
    /\
    (Dict.mem "url" (opts kw) = false ->
     forallb (constructible kw) urls = true ->
     exists cs w',
       DiscordWebhook.create_batch urls kw w = (Ok cs, w')
       /\ length cs = length urls
       /\ (forall i u c,
              urls !! i = Some u -> cs !! i = Some c ->
              DiscordWebhook.url c = u
              /\ exists wi wi', DiscordWebhook.init u kw wi = (Ok c, wi'))
       /\ (kw_embeds kw = None ->
           forall i j ci cj e,
             i <> j -> cs !! i = Some ci -> cs !! j = Some cj ->
             DiscordWebhook.get_embeds (DiscordWebhook.mk_st ci (after_add_embed e ci w'))
             = DiscordWebhook.get_embeds (DiscordWebhook.mk_st ci w') ++ [e]
             /\ DiscordWebhook.get_embeds (DiscordWebhook.mk_st cj (after_add_embed e ci w'))
                = DiscordWebhook.get_embeds (DiscordWebhook.mk_st cj w')))
    /\
    (Dict.mem "url" (opts kw) = false ->
     forallb (constructible kw) urls = false ->
     exists w', DiscordWebhook.create_batch urls kw w = (Raise ValueError, w')).
Proof.
  intros urls kw w. unfold DiscordWebhook.create_batch. split; [|split].
  - intros Hurl. now rewrite Hurl.
  - intros Hurl Hall. rewrite Hurl.
    destruct (init_all_ok kw urls w Hall) as [cs [w' [Hcs Hf]]].
    exists cs, w'. split; [exact Hcs|]. split; [|split].
    + symmetry. exact (Forall2_length _ _ _ Hf).
    + intros i u c Hu Hc.
      destruct (Forall2_lookup_lr _ _ _ _ _ _ Hf Hu Hc) as [wi [wi' Hi]].
      split; [|eauto].
      pose proof (init_cases u kw wi) as Hcase.
      destruct (constructible kw u).
      * destruct Hcase as [c0 [Hc0 [_ Hu0]]]. rewrite Hi in Hc0.
        inversion Hc0. subst c0. exact Hu0.
      * rewrite Hi in Hcase. discriminate Hcase.
    + intros Hkw i j ci cj e Hij Hi Hj. split; [apply add_embed_own|].
      apply add_embed_other.
      destruct (init_all_fresh kw urls Hkw w cs w' Hcs) as [_ [_ Hnd]].
      intros Heq. apply Hij.
      apply (NoDup_lookup _ i j (DiscordWebhook.embeds ci) Hnd).
      * now rewrite list_lookup_fmap, Hi.
      * now rewrite list_lookup_fmap, Hj, Heq.
  - intros Hurl Hall. rewrite Hurl. now apply init_all_fail.
Qed.

Lemma C9_create_batch_witness :
  DiscordWebhook.create_batch Sample.two_urls
    (mk_kwargs [("url", VStr "https://discord.com/api/webhooks/1/t")] None)
    (Sample.world_of [])
  = (Raise TypeError, Sample.world_of [])
  /\
  (exists cs w',
      DiscordWebhook.create_batch Sample.two_urls Sample.hi (Sample.world_of [])
      = (Ok cs, w')
      /\ length cs = 2%nat
      /\ (forall i j ci cj e,
             i <> j -> cs !! i = Some ci -> cs !! j = Some cj ->
             DiscordWebhook.get_embeds (DiscordWebhook.mk_st ci (after_add_embed e ci w'))
             = DiscordWebhook.get_embeds (DiscordWebhook.mk_st ci w') ++ [e]
             /\ DiscordWebhook.get_embeds (DiscordWebhook.mk_st cj (after_add_embed e ci w'))
                = DiscordWebhook.get_embeds (DiscordWebhook.mk_st cj w')))
  /\
  (exists w',
      DiscordWebhook.create_batch [Some "url1"; Some "url2"] Sample.hi
        (Sample.world_of [])
      = (Raise ValueError, w')).
Proof.
  split; [|split].
  - apply (proj1 (C9_create_batch Sample.two_urls
                    (mk_kwargs
                       [("url", VStr "https://discord.com/api/webhooks/1/t")]
                       None)
                    (Sample.world_of []))).
    reflexivity.
  - destruct (proj1 (proj2 (C9_create_batch Sample.two_urls Sample.hi
                              (Sample.world_of [])))
                eq_refl eq_refl)
      as [cs [w' [Hcs [Hlen [_ Hind]]]]].
    exists cs, w'. split; [exact Hcs|]. split; [exact Hlen|].
    apply Hind. reflexivity.
  - apply (proj2 (proj2 (C9_create_batch [Some "url1"; Some "url2"] Sample.hi
                           (Sample.world_of [])))); reflexivity.
Defined.

(** C9 as stated does not hold: its own example,
    [create_batch(["url1", "url2"], content="hi")], returns no client.
    The constructor finds no identifier in ["url1"] and raises
    [ValueError]. *)
Lemma C9_batch_of_bare_urls_fails :
  fst (DiscordWebhook.create_batch [Some "url1"; Some "url2"] Sample.hi
         (Sample.world_of []))
  = Raise ValueError.
Proof. reflexivity. Qed.

(** With an [embeds] list in the configuration the clients share it: an
    embed appended through the first shows in the second. *)
Example batch_shares_configured_embeds :
  forall e : DiscordEmbed.t,
  exists c1 c2 w',
    DiscordWebhook.create_batch Sample.two_urls
      (mk_kwargs [("content", VStr "hi")] (Some 0%nat))
      (mk_world {[ 0%nat := [] ]} [] [])
    = (Ok [c1; c2], w')
    /\ DiscordWebhook.get_embeds (DiscordWebhook.mk_st c2 w') = []
    /\ DiscordWebhook.get_embeds (DiscordWebhook.mk_st c2 (after_add_embed e c1 w')) = [e].
Proof. intros e. eexists _, _, _. repeat split. Qed.

(** ** The fuel of [execute], [edit] and [delete] is enough *)

Lemma send_consumes req : consumes (DiscordWebhook.send req).
Proof.
  intros st r st'. unfold DiscordWebhook.send, transport, pending.
  destruct (server (DiscordWebhook.world st)) eqn:E; intros H; inversion H.
  simpl. lia.
Qed.

Lemma send_terminates req : terminates (DiscordWebhook.send req).
Proof.
  intros st. unfold DiscordWebhook.send, transport.
  destruct (server (DiscordWebhook.world st)); discriminate.
Qed.

Lemma files_set_world k v st r st' :
  DiscordWebhook.files_set k v st = (r, st') ->
  DiscordWebhook.world st' = DiscordWebhook.world st /\ r <> OutOfFuel.
Proof.
  unfold DiscordWebhook.files_set.
  destruct (DiscordWebhook.files (DiscordWebhook.self st)); intros H; inversion H;
    split; (reflexivity || discriminate).
Qed.

Lemma api_post_request_behaves :
  consumes DiscordWebhook.api_post_request /\ terminates DiscordWebhook.api_post_request
  /\ consumes AsyncDiscordWebhook.api_post_request
  /\ terminates AsyncDiscordWebhook.api_post_request.
Proof.
  assert (forall (enc : PyVal -> PyVal) (mkreq1 mkreq2 : DiscordWebhook.t -> dict -> Request) st,
             let m : M DiscordWebhook.St Response :=
               (s <- gets DiscordWebhook.self ;;
                if negb (truthy (DiscordWebhook.files s))
                then payload <- DiscordWebhook.json ;; DiscordWebhook.send (mkreq1 s payload)
                else
                  payload <- DiscordWebhook.json ;;
                  text <- lift (json_dumps (VDict payload)) ;;
                  DiscordWebhook.files_set "payload_json" (VList [VNone; enc text]) ;;;
                  s' <- gets DiscordWebhook.self ;;
                  DiscordWebhook.send (mkreq2 s' payload))%py in
             (forall r st', m st = (Ok r, st') -> (pending st' < pending st)%nat)
             /\ fst (m st) <> OutOfFuel) as Hgen.
  { intros enc mkreq1 mkreq2 st m. subst m.
    unfold bind, gets, lift. cbv beta iota.
    pose proof (json_terminates st) as Hjt.
    pose proof (json_state st) as Hjs.
    destruct (negb (truthy (DiscordWebhook.files (DiscordWebhook.self st))));
      cbv beta iota;
      destruct (DiscordWebhook.json st) as [[payload|e|] st0]; simpl in Hjs, Hjt;
      subst st0; try congruence; try (split; discriminate).
    - split; [intros r st' H; exact (send_consumes _ _ _ _ H)
             | apply send_terminates].
    - unfold json_dumps. destruct (serializable (VDict payload));
        [|split; discriminate].
      destruct (DiscordWebhook.files_set "payload_json"
                  (VList [VNone; enc (VJson (VDict payload))]) st)
        as [[u| |] st1] eqn:Hfs;
        destruct (files_set_world _ _ _ _ _ Hfs) as [Hw Hr];
        try congruence; [|split; discriminate].
      split.
      + intros r st' H. apply send_consumes in H.
        unfold pending in *. now rewrite <- Hw.
      + apply send_terminates. }
  unfold consumes, terminates.
  unfold DiscordWebhook.api_post_request, AsyncDiscordWebhook.api_post_request.
  repeat split.
  - intros st.
    exact (proj1 (Hgen (fun v => v)
                    (fun s p => mk_request POST (DiscordWebhook.url s) (JsonBody p)
                                  (DiscordWebhook._query_params s) (DiscordWebhook.proxies s)
                                  (DiscordWebhook.timeout s))
                    (fun s _ => mk_request POST (DiscordWebhook.url s)
                                  (FilesBody (DiscordWebhook.files s))
                                  (DiscordWebhook._query_params s) (DiscordWebhook.proxies s)
                                  (DiscordWebhook.timeout s)) st)).
  - intros st.
    exact (proj2 (Hgen (fun v => v)
                    (fun s p => mk_request POST (DiscordWebhook.url s) (JsonBody p)
                                  (DiscordWebhook._query_params s) (DiscordWebhook.proxies s)
                                  (DiscordWebhook.timeout s))
                    (fun s _ => mk_request POST (DiscordWebhook.url s)
                                  (FilesBody (DiscordWebhook.files s))
                                  (DiscordWebhook._query_params s) (DiscordWebhook.proxies s)
                                  (DiscordWebhook.timeout s)) st)).
  - intros st.
    exact (proj1 (Hgen AsyncDiscordWebhook.encode
                    (fun s p => mk_request POST (DiscordWebhook.url s) (JsonBody p)
                                  (DiscordWebhook._query_params s) VNone
                                  (DiscordWebhook.timeout s))
                    (fun s _ => mk_request POST (DiscordWebhook.url s)
                                  (FilesBody (DiscordWebhook.files s))
                                  (DiscordWebhook._query_params s) VNone
                                  (DiscordWebhook.timeout s)) st)).
  - intros st.
    exact (proj2 (Hgen AsyncDiscordWebhook.encode
                    (fun s p => mk_request POST (DiscordWebhook.url s) (JsonBody p)
                                  (DiscordWebhook._query_params s) VNone
                                  (DiscordWebhook.timeout s))
                    (fun s _ => mk_request POST (DiscordWebhook.url s)
                                  (FilesBody (DiscordWebhook.files s))
                                  (DiscordWebhook._query_params s) VNone
                                  (DiscordWebhook.timeout s)) st)).
Qed.

Lemma py_float_terminates v : py_float v <> OutOfFuel.
Proof.
  destruct v; simpl; try discriminate;
    unfold float_of_string;
    match goal with
    | |- match ?x with _ => _ end <> _ => destruct x; discriminate
    end.
Qed.

(** With more fuel than responses left, the retry loop ends by itself. *)
Lemma handle_rate_limit_enough request :
  consumes request -> terminates request ->
  forall fuel r st,
    (pending st < fuel)%nat ->
    fst (DiscordWebhook.handle_rate_limit fuel r request st) <> OutOfFuel.
Proof.
  intros Hc Ht. induction fuel as [|fuel IH]; intros r st Hlt; [lia|].
  simpl. destruct (status_code r =? 429)%Z; [|discriminate].
  run_monad.
  destruct (json_loads (Response.content r)) as [v|e|] eqn:Hl;
    [|discriminate|destruct (Response.content r); discriminate].
  destruct (lacks_via r); [discriminate|].
  destruct (subscript "retry_after" v) as [ra|e|] eqn:Hs;
    [|discriminate|].
  2:{ unfold subscript in Hs. destruct v; try discriminate.
      destruct (Dict.get "retry_after" d); discriminate. }
  destruct (py_float ra) as [x|e|] eqn:Hf; [|discriminate|].
  2:{ now apply py_float_terminates in Hf. }
  simpl.
  destruct (time_sleep_state (float_add x (15 # 100)) st)
    as (_ & _ & Hsrv & Hfuel).
  destruct (DiscordWebhook.time_sleep (float_add x (15 # 100)) st)
    as [[[]| |] s1]; simpl in *; try congruence.
  match goal with
  | |- context [request ?s] =>
      pose proof (Hc s) as Hcs; pose proof (Ht s) as Hts;
      destruct (request s) as [[r'| |] st'] eqn:E
  end; simpl in *; try congruence.
  destruct (success r'); [discriminate|].
  apply IH. specialize (Hcs r' st' eq_refl). unfold pending in *.
  rewrite Hsrv in Hcs. lia.
Qed.

(** [execute] as the source writes it, with no bound on the retries,
    never runs out of the fuel it is given here. *)
Lemma execute_terminates rm : terminates (DiscordWebhook.execute rm).
Proof.
  intros st. unfold DiscordWebhook.execute. rewrite execute_with_phases.
  destruct api_post_request_behaves as [Hc [Ht _]].
  assert (fst (request_phase (DiscordWebhook.enough_fuel st) st) <> OutOfFuel) as Hp.
  { unfold request_phase, bind.
    pose proof (Hc st) as Hcs. pose proof (Ht st) as Hts.
    destruct (DiscordWebhook.api_post_request st) as [[r| |] st0]; simpl in *;
      try congruence.
    unfold DiscordWebhook.settle, bind, gets, ret. cbv beta iota.
    destruct (success r); [discriminate|].
    destruct ((status_code r =? 429)%Z
              && truthy (DiscordWebhook.rate_limit_retry (DiscordWebhook.self st0)))%bool;
      [|destruct (log_failure_cases r st0) as [-> | ->]; discriminate].
    apply (handle_rate_limit_enough _ Hc Ht).
    specialize (Hcs r st0 eq_refl). unfold DiscordWebhook.enough_fuel, pending in *.
    lia. }
  destruct (request_phase (DiscordWebhook.enough_fuel st) st) as [[r| |] st1];
    simpl in *; try congruence.
  unfold reconcile. run_monad.
  destruct (Response.content r) as [raw|v|raw]; simpl;
    [discriminate| |discriminate].
  destruct v; simpl; try discriminate.
  destruct (truthy (py_get "id" d)), (truthy (py_get "attachments" d));
    discriminate.
Qed.

(** * Further properties of the package *)

(** ** The identifier read from the URL *)

Lemma string_app_cons x (a b : string) :
  (String x a ++ b)%string = String x (a ++ b)%string.
Proof. reflexivity. Qed.

Lemma string_app_nil_l (b : string) : ("" ++ b)%string = b.
Proof. reflexivity. Qed.

Lemma string_app_nil_r (a : string) : (a ++ "")%string = a.
Proof.
  induction a as [|x a IH]; [reflexivity|].
  now rewrite string_app_cons, IH.
Qed.

Lemma string_app_assoc (a b c : string) :
  ((a ++ b) ++ c)%string = (a ++ (b ++ c))%string.
Proof.
  induction a as [|x a IH]; [reflexivity|].
  now rewrite !string_app_cons, IH.
Qed.

Lemma split_aux_free sep s :
  free_of sep s = true ->
  forall cur, split_aux sep s cur = [(cur ++ s)%string].
Proof.
  induction s as [|c s IH]; simpl; intros Hfree cur.
  - now rewrite string_app_nil_r.
  - apply andb_true_iff in Hfree. destruct Hfree as [Hc Hs].
    apply negb_true_iff in Hc. rewrite Hc, (IH Hs).
    now rewrite string_app_assoc.
Qed.

Lemma split_aux_app sep p s :
  forall cur,
    split_aux sep (p ++ String sep s)%string cur
    = split_aux sep p cur ++ split_aux sep s "".
Proof.
  induction p as [|c p IH]; intros cur.
  - rewrite string_app_nil_l. simpl. now rewrite Ascii.eqb_refl.
  - rewrite string_app_cons. simpl.
    destruct (Ascii.eqb c sep); simpl; now rewrite IH.
Qed.

Lemma index_from_end_two {A} (l : list A) a b :
  index_from_end (l ++ [a; b]) 2 = Ok a.
Proof.
  unfold index_from_end. rewrite length_app. simpl.
  destruct (length l + 2 <? 2)%nat eqn:E.
  - apply Nat.ltb_lt in E. lia.
  - replace (length l + 2 - 2)%nat with (length l + 0)%nat by lia.
    now rewrite lookup_app_r by lia; replace (length l + 0 - length l)%nat with 0%nat by lia.
Qed.

(** X1. For every URL of the form [prefix/ID/TOKEN] in which neither
    [ID] nor [TOKEN] holds a ["/"], a client built without an [id]
    argument has [ID] as its identifier and keeps the URL.  [TOKEN] may
    be empty: with a trailing ["/"] the identifier is the piece before
    it. *)
Theorem X1_identifier_of_url :
  forall (prefix ident token : string) (kw : Kwargs) (w : World),
    py_get "id" (opts kw) = VNone ->
    free_of "/" ident = true ->
    free_of "/" token = true ->
    exists obj w',
      DiscordWebhook.init
        (Some (prefix ++ String "/" (ident ++ String "/" token))%string) kw w
      = (Ok obj, w')
      /\ DiscordWebhook.id obj = Some (VStr ident)
      /\ DiscordWebhook.url obj
         = Some (prefix ++ String "/" (ident ++ String "/" token))%string.
Proof.
  intros prefix ident token kw w Hid Hi Ht.
  assert (DiscordWebhook.parse_id
            (Some (prefix ++ String "/" (ident ++ String "/" token))%string)
          = Ok ident) as Hparse.
  { unfold DiscordWebhook.parse_id, split.
    rewrite split_aux_app, split_aux_app.
    rewrite (split_aux_free _ _ Hi), (split_aux_free _ _ Ht). simpl.
    now rewrite index_from_end_two. }
  unfold DiscordWebhook.init.
  destruct (match kw_embeds kw with Some l => (l, w) | None => alloc [] w end)
    as [l w1].
  rewrite Hid, Hparse. eexists _, _. repeat split.
Qed.

Lemma X1_identifier_of_url_witness :
  exists obj w',
    DiscordWebhook.init
      (Some ("https://discord.com/api/webhooks"
             ++ String "/" ("123456789" ++ String "/" "abcDEF"))%string)
      Sample.hi (Sample.world_of [])
    = (Ok obj, w')
    /\ DiscordWebhook.id obj = Some (VStr "123456789")
    /\ DiscordWebhook.url obj
       = Some ("https://discord.com/api/webhooks"
               ++ String "/" ("123456789" ++ String "/" "abcDEF"))%string.
Proof.
  apply (X1_identifier_of_url "https://discord.com/api/webhooks" "123456789"
           "abcDEF" Sample.hi (Sample.world_of [])); reflexivity.
Defined.

(** ** Embeds: serialisation *)

Lemma apply_op_timestamp e op :
  DiscordEmbed.timestamp (apply_op e op) = DiscordEmbed.timestamp e.
Proof.
  destruct op; simpl; try reflexivity.
  - unfold DiscordEmbed.set_color. destruct color; simpl; try reflexivity.
    + destruct ((0 <=? n) && (n <? 16777216))%Z; reflexivity.
    + destruct (int16 s); simpl; try reflexivity.
      destruct ((0 <=? a) && (a <? 16777216))%Z; reflexivity.
  - unfold DiscordEmbed.delete_embed_field.
    destruct (py_pop (DiscordEmbed.fields e) index) as [[x fs]| |];
      reflexivity.
Qed.

Lemma apply_ops_timestamp ops :
  forall e,
    DiscordEmbed.timestamp (fold_left apply_op ops e)
    = DiscordEmbed.timestamp e.
Proof.
  induction ops as [|op ops IH]; intros e; simpl; [reflexivity|].
  now rewrite IH, apply_op_timestamp.
Qed.

Lemma init_timestamp title description kw e :
  DiscordEmbed.init title description kw = Ok e ->
  DiscordEmbed.timestamp e = DiscordEmbed.kw_timestamp kw.
Proof.
  unfold DiscordEmbed.init.
  match goal with
  | |- context [DiscordEmbed.set_color ?c ?e0] =>
      pose proof (apply_op_timestamp e0 (OpColor c)) as Hc;
      unfold apply_op in Hc;
      destruct (DiscordEmbed.set_color c e0) as [[u| |] e1]
  end; try discriminate.
  simpl in Hc.
  destruct (DiscordEmbed.kw_timestamp kw); intros H; inversion H; subst;
    [reflexivity | exact Hc].
Qed.

Lemma as_dict_needs_timestamp e :
  DiscordEmbed.timestamp e = None ->
  DiscordEmbed.as_dict e = Raise AttributeError.
Proof. intros H. unfold DiscordEmbed.as_dict. now rewrite H. Qed.

Lemma as_dict_with_timestamp e ts :
  DiscordEmbed.timestamp e = Some ts ->
  exists d, DiscordEmbed.as_dict e = Ok d.
Proof. intros H. unfold DiscordEmbed.as_dict. rewrite H. eauto. Qed.

(** X2. An embed constructed without a [timestamp] argument cannot be
    serialised: [as_dict] raises [AttributeError], and it still does
    after any sequence of the other setters ([set_title] ... [set_author],
    [add_embed_field], [delete_embed_field], failed calls included).
    Once [set_timestamp] has been called, [as_dict] returns a mapping,
    and it still does after any further sequence of those setters. *)
Theorem X2_serialisation_needs_timestamp :
  forall (title description : option string) (kw : DiscordEmbed.kwargs)
         (e : DiscordEmbed.t) (ops ops' : list EmbedOp) (iso : string),
    DiscordEmbed.init title description kw = Ok e ->
    DiscordEmbed.kw_timestamp kw = None ->
    DiscordEmbed.as_dict (fold_left apply_op ops e) = Raise AttributeError
    /\ exists d,
        DiscordEmbed.as_dict
          (fold_left apply_op ops'
             (DiscordEmbed.set_timestamp iso (fold_left apply_op ops e)))
        = Ok d.
Proof.
  intros title description kw e ops ops' iso Hinit Hkw. split.
  - apply as_dict_needs_timestamp.
    rewrite apply_ops_timestamp, (init_timestamp _ _ _ _ Hinit). exact Hkw.
  - apply (as_dict_with_timestamp _ iso).
    now rewrite apply_ops_timestamp.
Qed.

Lemma X2_serialisation_needs_timestamp_witness :
  DiscordEmbed.as_dict
    (fold_left apply_op
       [OpColor (CStr "ff0000"); OpAddField "a" "b" true] EmbedSample.base)
  = Raise AttributeError
  /\ exists d,
      DiscordEmbed.as_dict
        (fold_left apply_op [OpFooter "bye" None None]
           (DiscordEmbed.set_timestamp "2024-01-01T00:00:00"
              (fold_left apply_op
                 [OpColor (CStr "ff0000"); OpAddField "a" "b" true]
                 EmbedSample.base)))
      = Ok d.
Proof.
  apply (X2_serialisation_needs_timestamp (Some "Status") (Some "All good")
           DiscordEmbed.no_kwargs EmbedSample.base); reflexivity.
Defined.

Lemma in_keys_set {A} k (v : A) d x :
  x ∈ Dict.keys (Dict.set k v d) -> x = k \/ x ∈ Dict.keys d.
Proof.
  induction d as [|[k' v'] d IH]; simpl.
  - intros H. apply list_elem_of_singleton in H. now left.
  - destruct (String.eqb k k') eqn:E; simpl; intros H.
    + apply String.eqb_eq in E. subst k'. right. exact H.
    + apply elem_of_cons in H. destruct H as [->|H].
      * right. apply elem_of_cons. now left.
      * destruct (IH H) as [->|Hin]; [now left|].
        right. apply elem_of_cons. now right.
Qed.

Lemma NoDup_keys_set {A} k (v : A) d :
  NoDup (Dict.keys d) -> NoDup (Dict.keys (Dict.set k v d)).
Proof.
  induction d as [|[k' v'] d IH]; simpl; intros Hnd.
  - apply NoDup_singleton.
  - apply NoDup_cons in Hnd. destruct Hnd as [Hk' Hnd].
    destruct (String.eqb k k') eqn:E; simpl.
    + apply String.eqb_eq in E. subst k'. apply NoDup_cons. now split.
    + apply NoDup_cons. split; [|now apply IH].
      intros Hin. destruct (in_keys_set _ _ _ _ Hin) as [->|Hin'].
      * rewrite String.eqb_refl in E. discriminate.
      * contradiction.
Qed.

Lemma Forall_set {A} (P : string * A -> Prop) k v d :
  Forall P d -> P (k, v) -> Forall P (Dict.set k v d).
Proof.
  intros Hd Hkv. induction d as [|[k' v'] d IH]; simpl.
  - now constructor.
  - apply Forall_cons in Hd. destruct Hd as [Hhd Htl].
    destruct (String.eqb k k'); constructor; auto.
Qed.

Ltac known_key := apply list_elem_of_In; simpl; tauto.

Lemma embed_data_ok_set k v data :
  embed_data_ok data -> k ∈ embed_keys -> truthy v = true ->
  embed_data_ok (Dict.set k v data).
Proof.
  intros [Hnd Hall] Hk Hv. split.
  - now apply NoDup_keys_set.
  - apply Forall_set; [exact Hall | now split].
Qed.

Lemma embed_data_ok_put_str k s data :
  embed_data_ok data -> k ∈ embed_keys ->
  embed_data_ok (DiscordEmbed.put_str k s data).
Proof.
  intros Hok Hk. unfold DiscordEmbed.put_str.
  destruct s as [x|]; [|exact Hok].
  destruct (negb (String.eqb x "")) eqn:E; [|exact Hok].
  now apply embed_data_ok_set.
Qed.

Lemma embed_data_ok_put_dict k d data :
  embed_data_ok data -> k ∈ embed_keys ->
  embed_data_ok (DiscordEmbed.put_dict k d data).
Proof.
  intros Hok Hk. unfold DiscordEmbed.put_dict.
  destruct d as [[|kv d]|]; try exact Hok.
  now apply embed_data_ok_set.
Qed.

(** X3. Whatever the embed, the mapping [as_dict] returns has no key
    twice (although [description] is written twice), holds only keys of
    the embed schema, and holds no falsy value: an empty string, an
    empty sub-mapping, colour 0 and an empty field list are all left
    out. *)
Theorem X3_serialised_embed_is_well_formed :
  forall (e : DiscordEmbed.t) (data : dict),
    DiscordEmbed.as_dict e = Ok data ->
    NoDup (Dict.keys data)
    /\ Forall (fun kv => fst kv ∈ embed_keys /\ truthy (snd kv) = true) data.
Proof.
  intros e data H. unfold DiscordEmbed.as_dict in H.
  destruct (DiscordEmbed.timestamp e) as [ts|]; [|discriminate H].
  inversion H as [Hdata]. clear H Hdata.
  match goal with |- NoDup (Dict.keys ?d) /\ _ => change (embed_data_ok d) end.
  assert (embed_data_ok []) as H0 by (split; constructor).
  destruct (DiscordEmbed.fields e) as [|f fs];
    [|apply embed_data_ok_set; [|known_key|reflexivity]].
  all: repeat (apply embed_data_ok_put_dict; [|known_key]).
  all: apply embed_data_ok_put_str; [|known_key].
  all: repeat (apply embed_data_ok_put_dict; [|known_key]).
  all: destruct (DiscordEmbed.color e) as [c|];
    [destruct (negb (c =? 0)%Z) eqn:Ec;
     [apply embed_data_ok_set; [|known_key|exact Ec]|]|].
  all: try match goal with
           | |- embed_data_ok (if ?b then _ else _) =>
               destruct b eqn:Ets;
               [apply embed_data_ok_set; [|known_key|exact Ets]|]
           end.
  all: repeat (apply embed_data_ok_put_str; [|known_key]).
  all: exact H0.
Qed.

Lemma X3_serialised_embed_is_well_formed_witness :
  exists data,
    DiscordEmbed.as_dict EmbedSample.stamped = Ok data
    /\ NoDup (Dict.keys data)
    /\ Forall (fun kv => fst kv ∈ embed_keys /\ truthy (snd kv) = true) data.
Proof.
  eexists. split; [reflexivity|].
  apply (X3_serialised_embed_is_well_formed EmbedSample.stamped).
  reflexivity.
Defined.

(** X4. A colour that [set_color] rejects is nevertheless stored: the
    call raises [ColorNotInRangeException] after the attribute has been
    assigned, so the embed then holds the out-of-range value and
    [as_dict] serialises it.  A string that [int(_, 16)] cannot read
    raises [ValueError] and leaves the embed as it was. *)
Theorem X4_rejected_colour_is_stored :
  forall (e : DiscordEmbed.t),
    (forall c : Z,
        (c < 0 \/ 16777215 < c)%Z ->
        DiscordEmbed.set_color (CInt c) e
        = (Raise ColorNotInRangeException, DiscordEmbed.with_color (Some c) e)
        /\ DiscordEmbed.color (snd (DiscordEmbed.set_color (CInt c) e)) = Some c
        /\ forall ts,
            DiscordEmbed.timestamp e = Some ts ->
            exists data,
              DiscordEmbed.as_dict (snd (DiscordEmbed.set_color (CInt c) e))
              = Ok data
              /\ Dict.get "color" data = Some (VInt c))
    /\
    (forall h : string,
        int16 h = Raise ValueError ->
        DiscordEmbed.set_color (CStr h) e = (Raise ValueError, e)).
Proof.
  intros e. split.
  - intros c Hc.
    assert (DiscordEmbed.set_color (CInt c) e
            = (Raise ColorNotInRangeException,
               DiscordEmbed.with_color (Some c) e)) as Hset.
    { unfold DiscordEmbed.set_color.
      destruct ((0 <=? c) && (c <? 16777216))%Z eqn:E; [|reflexivity].
      apply andb_true_iff in E. destruct E as [E1 E2].
      apply Z.leb_le in E1. apply Z.ltb_lt in E2. lia. }
    rewrite Hset. split; [reflexivity|]. split; [reflexivity|].
    intros ts Hts. simpl.
    destruct (as_dict_color (DiscordEmbed.with_color (Some c) e) ts Hts)
      as [data [Hd Hcol]].
    exists data. split; [exact Hd|]. rewrite Hcol. simpl.
    destruct (c =? 0)%Z eqn:E; [apply Z.eqb_eq in E; lia | reflexivity].
  - intros h Hh. unfold DiscordEmbed.set_color. now rewrite Hh.
Qed.

Lemma X4_rejected_colour_is_stored_witness :
  (DiscordEmbed.set_color (CInt 16777216) EmbedSample.stamped
   = (Raise ColorNotInRangeException,
      DiscordEmbed.with_color (Some 16777216%Z) EmbedSample.stamped)
   /\ DiscordEmbed.color
        (snd (DiscordEmbed.set_color (CInt 16777216) EmbedSample.stamped))
      = Some 16777216%Z
   /\ exists data,
       DiscordEmbed.as_dict
         (snd (DiscordEmbed.set_color (CInt 16777216) EmbedSample.stamped))
       = Ok data
       /\ Dict.get "color" data = Some (VInt 16777216))
  /\ DiscordEmbed.set_color (CStr "red") EmbedSample.stamped
     = (Raise ValueError, EmbedSample.stamped).
Proof.
  destruct (X4_rejected_colour_is_stored EmbedSample.stamped) as [Hint Hstr].
  split.
  - destruct (Hint 16777216%Z ltac:(lia)) as [H1 [H2 H3]].
    split; [exact H1|]. split; [exact H2|].
    apply (H3 "2024-01-01T00:00:00"). reflexivity.
  - apply Hstr. reflexivity.
Defined.

(** ** Embeds: sub-objects and fields *)

Lemma get_put_dict_eq k d data :
  Dict.get k (DiscordEmbed.put_dict k d data)
  = match sub_entry d with
    | Some v => Some v
    | None => Dict.get k data
    end.
Proof.
  unfold DiscordEmbed.put_dict, sub_entry.
  destruct d as [[|kv d]|]; try reflexivity.
  apply dict_get_set_eq.
Qed.

Ltac peel :=
  repeat first
    [ rewrite get_put_dict_ne by discriminate
    | rewrite get_put_str_ne by discriminate
    | rewrite dict_get_set_ne by discriminate ].

Ltac sub_lookup :=
  peel; rewrite get_put_dict_eq;
  match goal with
  | |- match sub_entry ?d with _ => _ end = _ =>
      destruct (sub_entry d); [reflexivity | peel; reflexivity]
  end.

(** Each sub-object is serialised under its key exactly when its mapping
    is not empty. *)
Lemma as_dict_sub e ts :
  DiscordEmbed.timestamp e = Some ts ->
  exists data,
    DiscordEmbed.as_dict e = Ok data
    /\ Dict.get "footer" data = sub_entry (DiscordEmbed.footer e)
    /\ Dict.get "image" data = sub_entry (DiscordEmbed.image e)
    /\ Dict.get "thumbnail" data = sub_entry (DiscordEmbed.thumbnail e)
    /\ Dict.get "video" data = sub_entry (DiscordEmbed.video e)
    /\ Dict.get "provider" data = sub_entry (DiscordEmbed.provider e)
    /\ Dict.get "author" data = sub_entry (DiscordEmbed.author e).
Proof.
  intros Hts. unfold DiscordEmbed.as_dict. rewrite Hts.
  eexists. split; [reflexivity|].
  destruct (DiscordEmbed.fields e) as [|f fs];
    (destruct (DiscordEmbed.color e) as [c|];
     [destruct (negb (c =? 0)%Z)|]);
    repeat split; sub_lookup.
Qed.

(** X5. Sub-objects built by the setters, and what [as_dict] makes of
    them on an embed whose timestamp is set.  After [set_image] the
    serialised embed always has an [image] entry: it holds the [url], a
    [height] and a [width] exactly when they were passed (0 included,
    they are tested with [is not None]) and a [proxy_url] only when it is
    a non-empty string.  [set_video] with a [height] is serialised, with
    that height; [set_video] and [set_provider] called with no argument,
    or with empty strings only, store an empty mapping, which [as_dict]
    leaves out. *)
Theorem X5_sub_objects :
  forall (e : DiscordEmbed.t) (ts : string),
    DiscordEmbed.timestamp e = Some ts ->
    (forall (url : string) (proxy_url : option string) (height width : option Z),
        exists data img,
          DiscordEmbed.as_dict
            (DiscordEmbed.set_image url proxy_url height width e) = Ok data
          /\ Dict.get "image" data = Some (VDict img)
          /\ Dict.get "url" img = Some (VStr url)
          /\ Dict.get "height" img = option_map VInt height
          /\ Dict.get "width" img = option_map VInt width
          /\ Dict.get "proxy_url" img
             = match proxy_url with
               | Some x => if String.eqb x "" then None else Some (VStr x)
               | None => None
               end)
    /\
    (forall (url : option string) (height : Z),
        exists data vid,
          DiscordEmbed.as_dict
            (DiscordEmbed.set_video url (Some height) None e) = Ok data
          /\ Dict.get "video" data = Some (VDict vid)
          /\ Dict.get "height" vid = Some (VInt height))
    /\
    (forall url name : option string,
        (url = None \/ url = Some "") ->
        (name = None \/ name = Some "") ->
        (exists data,
            DiscordEmbed.as_dict (DiscordEmbed.set_video url None None e)
            = Ok data
            /\ Dict.get "video" data = None)
        /\
        (exists data,
            DiscordEmbed.as_dict (DiscordEmbed.set_provider name url e)
            = Ok data
            /\ Dict.get "provider" data = None)).
Proof.
  intros e ts Hts. split; [|split].
  - intros url proxy_url height width.
    destruct (as_dict_sub (DiscordEmbed.set_image url proxy_url height width e)
                ts Hts) as [data [Hd [_ [Himg _]]]].
    exists data. eexists. split; [exact Hd|]. split; [exact Himg|].
    unfold DiscordEmbed.opt_entry, DiscordEmbed.int_entry.
    destruct proxy_url as [x|]; [destruct (String.eqb x "")|];
      destruct height, width; repeat split.
  - intros url height.
    destruct (as_dict_sub (DiscordEmbed.set_video url (Some height) None e)
                ts Hts) as [data [Hd [_ [_ [_ [Hvid _]]]]]].
    exists data.
    unfold DiscordEmbed.set_video, DiscordEmbed.opt_entry in *. simpl in Hvid.
    destruct url as [x|]; [destruct (negb (String.eqb x ""))|];
      simpl in Hvid; eexists; (split; [exact Hd|]);
      (split; [exact Hvid|]); reflexivity.
  - intros url name Hurl Hname. split.
    + destruct (as_dict_sub (DiscordEmbed.set_video url None None e) ts Hts)
        as [data [Hd [_ [_ [_ [Hvid _]]]]]].
      exists data. split; [exact Hd|]. rewrite Hvid.
      destruct Hurl as [-> | ->]; reflexivity.
    + destruct (as_dict_sub (DiscordEmbed.set_provider name url e) ts Hts)
        as [data [Hd [_ [_ [_ [_ [Hpro _]]]]]]].
      exists data. split; [exact Hd|]. rewrite Hpro.
      destruct Hurl as [-> | ->], Hname as [-> | ->]; reflexivity.
Qed.

Lemma X5_sub_objects_witness :
  (exists data img,
      DiscordEmbed.as_dict
        (DiscordEmbed.set_image "https://example.org/a.png" (Some "")
           (Some 0%Z) None EmbedSample.stamped) = Ok data
      /\ Dict.get "image" data = Some (VDict img)
      /\ Dict.get "url" img = Some (VStr "https://example.org/a.png")
      /\ Dict.get "height" img = Some (VInt 0)
      /\ Dict.get "width" img = None
      /\ Dict.get "proxy_url" img = None)
  /\
  (exists data,
      DiscordEmbed.as_dict
        (DiscordEmbed.set_video (Some "") None None EmbedSample.stamped)
      = Ok data
      /\ Dict.get "video" data = None).
Proof.
  destruct (X5_sub_objects EmbedSample.stamped "2024-01-01T00:00:00" eq_refl)
    as [Himg [_ Hempty]].
  split.
  - exact (Himg "https://example.org/a.png" (Some "") (Some 0%Z) None).
  - exact (proj1 (Hempty (Some "") None (or_intror eq_refl)
                    (or_introl eq_refl))).
Defined.

Lemma delete_last_of_app {A} (l : list A) x :
  delete (length l) (l ++ [x]) = l.
Proof.
  induction l as [|y l IH]; [reflexivity|].
  change (y :: delete (length l) (l ++ [x]) = y :: l). now rewrite IH.
Qed.

Lemma py_pop_last {A} (l : list A) x : py_pop (l ++ [x]) (-1) = Ok (x, l).
Proof.
  unfold py_pop. rewrite length_app. simpl.
  replace (-1 + Z.of_nat (length l + 1))%Z with (Z.of_nat (length l)) by lia.
  destruct ((0 <=? Z.of_nat (length l))
            && (Z.of_nat (length l) <? Z.of_nat (length l + 1)))%Z eqn:E.
  - rewrite Nat2Z.id.
    rewrite lookup_app_r by lia. rewrite Nat.sub_diag. simpl.
    now rewrite delete_last_of_app.
  - apply andb_false_iff in E. destruct E as [E|E];
      [apply Z.leb_gt in E | apply Z.ltb_ge in E]; lia.
Qed.

Lemma py_pop_end {A} (l : list A) x :
  py_pop (l ++ [x]) (Z.of_nat (length l)) = Ok (x, l).
Proof.
  unfold py_pop. rewrite length_app. simpl.
  destruct (Z.of_nat (length l) <? 0)%Z eqn:E0;
    [apply Z.ltb_lt in E0; lia|].
  destruct ((0 <=? Z.of_nat (length l))
            && (Z.of_nat (length l) <? Z.of_nat (length l + 1)))%Z eqn:E.
  - rewrite Nat2Z.id.
    rewrite lookup_app_r by lia. rewrite Nat.sub_diag. simpl.
    now rewrite delete_last_of_app.
  - apply andb_false_iff in E. destruct E as [E|E];
      [apply Z.leb_gt in E | apply Z.ltb_ge in E]; lia.
Qed.

Lemma py_pop_out_of_range {A} (l : list A) i :
  (i < - Z.of_nat (length l) \/ Z.of_nat (length l) <= i)%Z ->
  py_pop l i = Raise IndexError.
Proof.
  intros H. unfold py_pop.
  destruct (i <? 0)%Z eqn:E0;
    [apply Z.ltb_lt in E0 | apply Z.ltb_ge in E0].
  - destruct ((0 <=? i + Z.of_nat (length l))
              && (i + Z.of_nat (length l) <? Z.of_nat (length l)))%Z eqn:E;
      [|reflexivity].
    apply andb_true_iff in E. destruct E as [E1 E2].
    apply Z.leb_le in E1. lia.
  - destruct ((0 <=? i) && (i <? Z.of_nat (length l)))%Z eqn:E;
      [|reflexivity].
    apply andb_true_iff in E. destruct E as [E1 E2].
    apply Z.ltb_lt in E2. lia.
Qed.

Lemma py_pop_in_range {A} (l : list A) i :
  (- Z.of_nat (length l) <= i < Z.of_nat (length l))%Z ->
  exists x l', py_pop l i = Ok (x, l') /\ S (length l') = length l.
Proof.
  intros H. unfold py_pop.
  set (j := if (i <? 0)%Z then (i + Z.of_nat (length l))%Z else i).
  assert (0 <= j < Z.of_nat (length l))%Z as Hj.
  { subst j. destruct (i <? 0)%Z eqn:E0;
      [apply Z.ltb_lt in E0 | apply Z.ltb_ge in E0]; lia. }
  destruct ((0 <=? j) && (j <? Z.of_nat (length l)))%Z eqn:E.
  - destruct (l !! Z.to_nat j) as [x|] eqn:Hx.
    + exists x, (delete (Z.to_nat j) l). split; [reflexivity|].
      rewrite length_delete by eauto.
      apply lookup_lt_Some in Hx. lia.
    + apply lookup_ge_None in Hx. lia.
  - apply andb_false_iff in E. destruct E as [E|E];
      [apply Z.leb_gt in E | apply Z.ltb_ge in E]; lia.
Qed.

Lemma with_fields_same e :
  DiscordEmbed.with_fields (DiscordEmbed.fields e) e = e.
Proof. destruct e. reflexivity. Qed.

(** X6. Fields of an embed.  Deleting the field that was just added, by
    index [-1] or by its position, gives the embed back as it was;
    [delete_embed_field] with an index outside
    [-len(fields), len(fields) - 1] (any index, when there is no field)
    raises [IndexError] and changes nothing; with an index inside, it
    removes exactly one field. *)
Theorem X6_embed_fields :
  forall (e : DiscordEmbed.t),
    (forall name value inline,
        DiscordEmbed.delete_embed_field (-1)
          (DiscordEmbed.add_embed_field name value inline e) = (Ok tt, e)
        /\ DiscordEmbed.delete_embed_field
             (Z.of_nat (length (DiscordEmbed.fields e)))
             (DiscordEmbed.add_embed_field name value inline e) = (Ok tt, e))
    /\
    (forall index : Z,
        (index < - Z.of_nat (length (DiscordEmbed.fields e))
         \/ Z.of_nat (length (DiscordEmbed.fields e)) <= index)%Z ->
        DiscordEmbed.delete_embed_field index e = (Raise IndexError, e))
    /\
    (forall index : Z,
        (- Z.of_nat (length (DiscordEmbed.fields e)) <= index
         < Z.of_nat (length (DiscordEmbed.fields e)))%Z ->
        fst (DiscordEmbed.delete_embed_field index e) = Ok tt
        /\ S (length (DiscordEmbed.get_embed_fields
                        (snd (DiscordEmbed.delete_embed_field index e))))
           = length (DiscordEmbed.get_embed_fields e)).
Proof.
  intros e. split; [|split].
  - intros name value inline.
    unfold DiscordEmbed.delete_embed_field, DiscordEmbed.add_embed_field.
    simpl. rewrite py_pop_last, py_pop_end.
    destruct e. split; reflexivity.
  - intros index H. unfold DiscordEmbed.delete_embed_field.
    now rewrite (py_pop_out_of_range _ _ H).
  - intros index H. unfold DiscordEmbed.delete_embed_field.
    destruct (py_pop_in_range _ _ H) as [x [l' [Hpop Hlen]]].
    rewrite Hpop. split; [reflexivity | exact Hlen].
Qed.

Lemma X6_embed_fields_witness :
  DiscordEmbed.delete_embed_field 0 EmbedSample.stamped
  = (Raise IndexError, EmbedSample.stamped)
  /\ fst (DiscordEmbed.delete_embed_field 0
            (DiscordEmbed.add_embed_field "a" "b" true EmbedSample.stamped))
     = Ok tt.
Proof.
  split.
  - apply (proj1 (proj2 (X6_embed_fields EmbedSample.stamped))).
    right. simpl. lia.
  - apply (proj2 (proj2 (X6_embed_fields
                           (DiscordEmbed.add_embed_field "a" "b" true
                              EmbedSample.stamped))) 0%Z).
    simpl. lia.
Defined.

(** ** The embed list of a client *)

Lemma reconcile_world r st :
  DiscordWebhook.world (snd (reconcile r st)) = DiscordWebhook.world st.
Proof.
  unfold reconcile. run_monad.
  destruct (Response.content r) as [raw|v|raw]; simpl;
    [reflexivity| |reflexivity].
  destruct v; simpl; try reflexivity.
  destruct (truthy (py_get "id" d)), (truthy (py_get "attachments" d));
    reflexivity.
Qed.

Lemma cleaned_heap rm st l :
  l ∈ dom (heap (DiscordWebhook.world st)) ->
  heap (DiscordWebhook.world (cleaned rm st)) !! l
  = heap (DiscordWebhook.world st) !! l.
Proof.
  intros Hl. destruct rm; [|reflexivity].
  unfold cleaned, DiscordWebhook.remove_embeds, modify, alloc. simpl.
  apply lookup_insert_ne. intros Heq. subst l.
  exact (is_fresh (dom (heap (DiscordWebhook.world st))) Hl).
Qed.

(** X7. Embeds of a client.  [remove_embed(-1)] after [add_embed(e)]
    returns and leaves the embed list as it was before the two calls;
    [remove_embed] with an index outside [-len, len - 1] raises
    [IndexError] and changes nothing; with an index inside it removes
    exactly one embed.  Both keep the client on the same list object. *)
Theorem X7_add_and_remove_embed :
  forall (st : DiscordWebhook.St),
    (forall e : DiscordEmbed.t,
        fst (DiscordWebhook.remove_embed (-1)
               (snd (DiscordWebhook.add_embed e st))) = Ok tt
        /\ DiscordWebhook.get_embeds
             (snd (DiscordWebhook.remove_embed (-1)
                     (snd (DiscordWebhook.add_embed e st))))
           = DiscordWebhook.get_embeds st
        /\ DiscordWebhook.self
             (snd (DiscordWebhook.remove_embed (-1)
                     (snd (DiscordWebhook.add_embed e st))))
           = DiscordWebhook.self st)
    /\
    (forall index : Z,
        (index < - Z.of_nat (length (DiscordWebhook.get_embeds st))
         \/ Z.of_nat (length (DiscordWebhook.get_embeds st)) <= index)%Z ->
        DiscordWebhook.remove_embed index st = (Raise IndexError, st))
    /\
    (forall index : Z,
        (- Z.of_nat (length (DiscordWebhook.get_embeds st)) <= index
         < Z.of_nat (length (DiscordWebhook.get_embeds st)))%Z ->
        fst (DiscordWebhook.remove_embed index st) = Ok tt
        /\ S (length (DiscordWebhook.get_embeds
                        (snd (DiscordWebhook.remove_embed index st))))
           = length (DiscordWebhook.get_embeds st)).
Proof.
  intros st. split; [|split].
  - intros e.
    unfold DiscordWebhook.remove_embed, DiscordWebhook.add_embed, modify,
      DiscordWebhook.get_embeds, deref. simpl.
    rewrite lookup_insert_eq. simpl. rewrite py_pop_last. simpl.
    rewrite lookup_insert_eq. repeat split.
  - intros index H. unfold DiscordWebhook.remove_embed.
    unfold DiscordWebhook.get_embeds in H.
    now rewrite (py_pop_out_of_range _ _ H).
  - intros index H. unfold DiscordWebhook.remove_embed.
    unfold DiscordWebhook.get_embeds in *.
    destruct (py_pop_in_range _ _ H) as [x [l' [Hpop Hlen]]].
    rewrite Hpop. simpl. split; [reflexivity|].
    unfold deref at 1. simpl. rewrite lookup_insert_eq. exact Hlen.
Qed.

Lemma X7_add_and_remove_embed_witness :
  DiscordWebhook.remove_embed 0 Sample.hi_200
  = (Raise IndexError, Sample.hi_200)
  /\ fst (DiscordWebhook.remove_embed 0
            (snd (DiscordWebhook.add_embed EmbedSample.stamped Sample.hi_200)))
     = Ok tt.
Proof.
  split.
  - apply (proj1 (proj2 (X7_add_and_remove_embed Sample.hi_200))).
    right. vm_compute. discriminate.
  - apply (proj2 (proj2 (X7_add_and_remove_embed
                           (snd (DiscordWebhook.add_embed EmbedSample.stamped
                                   Sample.hi_200)))) 0%Z).
    split; vm_compute; [discriminate | reflexivity].
Defined.

(** X8. Embed lists shared between clients.  When two clients refer to
    the same list (as the clients of one batch do when [embeds] is in
    the configuration), an embed added through one is seen through the
    other.  [remove_embeds] never empties a list: it gives the client a
    new empty one, so another client's embeds are as they were, shared
    or not.  In the same way [execute], whatever its outcome and
    whatever [remove_embeds] is, changes no list that existed before the
    call. *)
Theorem X8_shared_embed_lists :
  (forall (c1 c2 : DiscordWebhook.t) (w : World) (e : DiscordEmbed.t),
      DiscordWebhook.embeds c1 = DiscordWebhook.embeds c2 ->
      DiscordWebhook.get_embeds
        (DiscordWebhook.mk_st c2 (after_add_embed e c1 w))
      = DiscordWebhook.get_embeds (DiscordWebhook.mk_st c2 w) ++ [e])
  /\
  (forall (c1 c2 : DiscordWebhook.t) (w : World),
      DiscordWebhook.embeds c2 ∈ dom (heap w) ->
      DiscordWebhook.get_embeds
        (snd (DiscordWebhook.remove_embeds (DiscordWebhook.mk_st c1 w))) = []
      /\ DiscordWebhook.get_embeds
           (DiscordWebhook.mk_st c2
              (DiscordWebhook.world
                 (snd (DiscordWebhook.remove_embeds
                         (DiscordWebhook.mk_st c1 w)))))
         = DiscordWebhook.get_embeds (DiscordWebhook.mk_st c2 w))
  /\
  (forall (fuel : nat) (rm : bool) (st : DiscordWebhook.St) (l : loc),
      l ∈ dom (heap (DiscordWebhook.world st)) ->
      heap (DiscordWebhook.world (snd (DiscordWebhook.execute_with fuel rm st)))
        !! l
      = heap (DiscordWebhook.world st) !! l).
Proof.
  split; [|split].
  - intros c1 c2 w e Heq.
    unfold after_add_embed, DiscordWebhook.get_embeds,
      DiscordWebhook.add_embed, modify, deref. simpl.
    rewrite Heq. now rewrite lookup_insert_eq.
  - intros c1 c2 w Hin.
    unfold DiscordWebhook.remove_embeds, modify, alloc,
      DiscordWebhook.get_embeds, deref. simpl. split.
    + now rewrite lookup_insert_eq.
    + rewrite lookup_insert_ne; [reflexivity|].
      intros Heq. rewrite <- Heq in Hin. exact (is_fresh (dom (heap w)) Hin).
  - intros fuel rm st l Hl. rewrite execute_with_phases.
    pose proof (keeps_request_phase fuel st) as Hframe.
    apply (f_equal snd) in Hframe. simpl in Hframe.
    destruct (request_phase fuel st) as [[r| |] st1]; simpl in *;
      try (now rewrite Hframe).
    rewrite reconcile_world, cleaned_heap; now rewrite Hframe.
Qed.

Lemma X8_shared_embed_lists_witness :
  (DiscordWebhook.get_embeds
     (snd (DiscordWebhook.remove_embeds Sample.hi_200)) = []
   /\ DiscordWebhook.get_embeds
        (DiscordWebhook.mk_st (DiscordWebhook.self Sample.hi_200)
           (DiscordWebhook.world
              (snd (DiscordWebhook.remove_embeds Sample.hi_200))))
      = DiscordWebhook.get_embeds Sample.hi_200)
  /\
  heap (DiscordWebhook.world
          (snd (DiscordWebhook.execute_with 1 true Sample.hi_200)))
    !! 0%nat
  = heap (DiscordWebhook.world Sample.hi_200) !! 0%nat.
Proof.
  destruct X8_shared_embed_lists as [_ [Hrm Hex]]. split.
  - apply (Hrm (DiscordWebhook.self Sample.hi_200)
             (DiscordWebhook.self Sample.hi_200)
             (DiscordWebhook.world Sample.hi_200)).
    apply elem_of_dom. eexists. reflexivity.
  - apply (Hex 1%nat true Sample.hi_200 0%nat).
    apply elem_of_dom. eexists. reflexivity.
Defined.

(** ** Files and attachments of a client *)

Lemma dict_remove_absent {A} k (d : list (string * A)) :
  Dict.get k d = None -> Dict.remove k d = d.
Proof.
  induction d as [|[k' v'] d IH]; simpl; [reflexivity|].
  destruct (String.eqb k k'); [discriminate|].
  intros H. now rewrite IH.
Qed.

Lemma dict_remove_set_fresh {A} k (v : A) d :
  Dict.get k d = None -> Dict.remove k (Dict.set k v d) = d.
Proof.
  induction d as [|[k' v'] d IH]; simpl.
  - now rewrite String.eqb_refl.
  - destruct (String.eqb k k') eqn:E; [discriminate|].
    intros H. simpl. rewrite E. now rewrite IH.
Qed.

Lemma dict_get_remove_eq {A} k (d : list (string * A)) :
  Dict.get k (Dict.remove k d) = None.
Proof.
  induction d as [|[k' v'] d IH]; simpl; [reflexivity|].
  destruct (String.eqb k k') eqn:E; [exact IH|].
  simpl. now rewrite E.
Qed.

Lemma dict_get_remove_ne {A} k k' (d : list (string * A)) :
  k <> k' -> Dict.get k' (Dict.remove k d) = Dict.get k' d.
Proof.
  intros Hne. induction d as [|[k0 v0] d IH]; simpl; [reflexivity|].
  destruct (String.eqb k k0) eqn:E; simpl.
  - apply String.eqb_eq in E. subst k0.
    destruct (String.eqb k' k) eqn:E'; [|exact IH].
    apply String.eqb_eq in E'. congruence.
  - now rewrite IH.
Qed.

Lemma with_files_same st d :
  DiscordWebhook.files (DiscordWebhook.self st) = VDict d ->
  DiscordWebhook.on_self (DiscordWebhook.with_files (VDict d)) st = st.
Proof.
  destruct st as [s w]. destruct s. simpl. intros ->. reflexivity.
Qed.

(** X9. File slots.  On a client whose [files] is a mapping and whose
    [attachments] is empty: [remove_file(name)] after
    [add_file(content, name)] gives the client back exactly as it was,
    provided no slot of that name existed before; [remove_file] of a name
    that has no slot returns without changing anything; and in every
    case [remove_file] leaves no slot for that name and does not touch
    the other slots. *)
Theorem X9_add_and_remove_file :
  forall (st : DiscordWebhook.St) (d : dict) (filename : string),
    DiscordWebhook.files (DiscordWebhook.self st) = VDict d ->
    truthy (DiscordWebhook.attachments (DiscordWebhook.self st)) = false ->
    (Dict.get ("_" ++ filename)%string d = None ->
     (forall file : PyVal,
         DiscordWebhook.remove_file filename
           (snd (DiscordWebhook.add_file file filename st)) = (Ok tt, st))
     /\ DiscordWebhook.remove_file filename st = (Ok tt, st))
    /\
    (exists d',
        DiscordWebhook.files
          (DiscordWebhook.self (snd (DiscordWebhook.remove_file filename st)))
        = VDict d'
        /\ Dict.get ("_" ++ filename)%string d' = None
        /\ forall k, k <> ("_" ++ filename)%string ->
                     Dict.get k d' = Dict.get k d).
Proof.
  intros st d filename Hd Hatt. split.
  - intros Hfree. split.
    + intros file.
      unfold DiscordWebhook.remove_file, DiscordWebhook.add_file,
        DiscordWebhook.files_set, DiscordWebhook.files_pop, bind, gets, ret.
      rewrite Hd. simpl. rewrite Hatt.
      rewrite (dict_remove_set_fresh _ _ _ Hfree).
      f_equal. destruct st as [s w]. destruct s. simpl in *. now subst.
    + unfold DiscordWebhook.remove_file, DiscordWebhook.files_pop, bind,
        gets, ret.
      rewrite Hd. simpl. rewrite Hatt.
      rewrite (dict_remove_absent _ _ Hfree).
      f_equal. now apply with_files_same.
  - exists (Dict.remove ("_" ++ filename)%string d).
    unfold DiscordWebhook.remove_file, DiscordWebhook.files_pop, bind,
      gets, ret.
    rewrite Hd. simpl. rewrite Hatt. simpl.
    split; [reflexivity|]. split.
    + apply dict_get_remove_eq.
    + intros k Hk. apply dict_get_remove_ne. congruence.
Qed.

Lemma X9_add_and_remove_file_witness :
  DiscordWebhook.remove_file "a.txt"
    (snd (DiscordWebhook.add_file (VBytes "hello") "a.txt" Sample.hi_200))
  = (Ok tt, Sample.hi_200)
  /\ DiscordWebhook.remove_file "a.txt" Sample.hi_200 = (Ok tt, Sample.hi_200).
Proof.
  destruct (X9_add_and_remove_file Sample.hi_200 [] "a.txt" eq_refl eq_refl)
    as [Hround _].
  destruct (Hround eq_refl) as [H1 H2].
  split; [apply H1 | exact H2].
Defined.

Lemma attachment_index_first filename pre it post :
  Forall (fun x => exists d, x = VDict d
                             /\ DiscordWebhook.filename_is filename d = false)
    pre ->
  DiscordWebhook.filename_is filename it = true ->
  forall n,
    DiscordWebhook.attachment_index filename (pre ++ VDict it :: post) n
    = Ok (Some (n + length pre)%nat).
Proof.
  intros Hpre Hit. induction Hpre as [|x pre [d [-> Hd]] _ IH]; intros n; simpl.
  - rewrite Hit. f_equal. f_equal. lia.
  - rewrite Hd, IH. f_equal. f_equal. lia.
Qed.

Lemma attachment_index_none filename items :
  Forall (fun x => exists d, x = VDict d
                             /\ DiscordWebhook.filename_is filename d = false)
    items ->
  forall n, DiscordWebhook.attachment_index filename items n = Ok None.
Proof.
  intros H. induction H as [|x items [d [-> Hd]] _ IH]; intros n; simpl.
  - reflexivity.
  - rewrite Hd. apply IH.
Qed.

Lemma delete_middle {A} (pre : list A) x post :
  delete (length pre) (pre ++ x :: post) = pre ++ post.
Proof.
  induction pre as [|y pre IH]; [reflexivity|].
  change (y :: delete (length pre) (pre ++ x :: post) = y :: pre ++ post).
  now rewrite IH.
Qed.

(** X10. Attachments and [remove_file].  On a client whose [files] is a
    mapping: when the attachment list has an entry whose [filename]
    equals the name, the first such entry is removed and every other
    entry, later ones of the same name included, is kept in order (the
    entries after it are not even looked at); when every entry is a
    mapping with another [filename], the list is left as it is. *)
Theorem X10_remove_file_drops_first_attachment :
  forall (st : DiscordWebhook.St) (d : dict) (filename : string),
    DiscordWebhook.files (DiscordWebhook.self st) = VDict d ->
    (forall (pre post : list PyVal) (it : dict),
        DiscordWebhook.attachments (DiscordWebhook.self st)
        = VList (pre ++ VDict it :: post) ->
        Forall (fun x => exists d0,
                    x = VDict d0
                    /\ DiscordWebhook.filename_is filename d0 = false) pre ->
        DiscordWebhook.filename_is filename it = true ->
        fst (DiscordWebhook.remove_file filename st) = Ok tt
        /\ DiscordWebhook.attachments
             (DiscordWebhook.self (snd (DiscordWebhook.remove_file filename st)))
           = VList (pre ++ post))
    /\
    (forall items : list PyVal,
        DiscordWebhook.attachments (DiscordWebhook.self st) = VList items ->
        Forall (fun x => exists d0,
                    x = VDict d0
                    /\ DiscordWebhook.filename_is filename d0 = false) items ->
        fst (DiscordWebhook.remove_file filename st) = Ok tt
        /\ DiscordWebhook.attachments
             (DiscordWebhook.self (snd (DiscordWebhook.remove_file filename st)))
           = VList items).
Proof.
  intros st d filename Hd. split.
  - intros pre post it Hatt Hpre Hit.
    unfold DiscordWebhook.remove_file, DiscordWebhook.files_pop, bind, gets,
      ret, lift, modify.
    rewrite Hd. simpl. rewrite Hatt.
    assert (truthy (VList (pre ++ VDict it :: post)) = true) as ->
        by (destruct pre; reflexivity).
    rewrite (attachment_index_first _ _ _ _ Hpre Hit). simpl.
    rewrite delete_middle. split; reflexivity.
  - intros items Hatt Hall.
    unfold DiscordWebhook.remove_file, DiscordWebhook.files_pop, bind, gets,
      ret, lift, modify.
    rewrite Hd. simpl. rewrite Hatt.
    destruct (truthy (VList items)); simpl; [|split; [reflexivity|exact Hatt]].
    rewrite (attachment_index_none _ _ Hall). simpl.
    split; [reflexivity | exact Hatt].
Qed.

Lemma X10_remove_file_drops_first_attachment_witness :
  (fst (DiscordWebhook.remove_file "a.txt"
          (snd (DiscordWebhook.execute false Sample.hi_200))) = Ok tt
   /\ DiscordWebhook.attachments
        (DiscordWebhook.self
           (snd (DiscordWebhook.remove_file "a.txt"
                   (snd (DiscordWebhook.execute false Sample.hi_200)))))
      = VList ([] ++ []))
  /\
  (fst (DiscordWebhook.remove_file "b.txt"
          (snd (DiscordWebhook.execute false Sample.hi_200))) = Ok tt
   /\ DiscordWebhook.attachments
        (DiscordWebhook.self
           (snd (DiscordWebhook.remove_file "b.txt"
                   (snd (DiscordWebhook.execute false Sample.hi_200)))))
      = VList [VDict [("id", VInt 0); ("filename", VStr "a.txt")]]).
Proof.
  split.
  - apply (proj1 (X10_remove_file_drops_first_attachment
                    (snd (DiscordWebhook.execute false Sample.hi_200))
                    [] "a.txt" eq_refl)
             [] [] [("id", VInt 0); ("filename", VStr "a.txt")]).
    + reflexivity.
    + constructor.
    + reflexivity.
  - apply (proj2 (X10_remove_file_drops_first_attachment
                    (snd (DiscordWebhook.execute false Sample.hi_200))
                    [] "b.txt" eq_refl)
             [VDict [("id", VInt 0); ("filename", VStr "a.txt")]]).
    + reflexivity.
    + constructor; [|constructor]. eexists. split; reflexivity.
Defined.

(** ** The payload *)

Lemma embeds_as_dicts_ok es :
  Forall (fun e => DiscordEmbed.timestamp e <> None) es ->
  exists ds,
    DiscordWebhook.embeds_as_dicts es = Ok ds /\ length ds = length es.
Proof.
  induction 1 as [|e es He _ [ds [IH Hlen]]]; simpl.
  - exists []. split; reflexivity.
  - destruct (DiscordEmbed.timestamp e) as [ts|] eqn:Hts; [|congruence].
    destruct (as_dict_with_timestamp e ts Hts) as [d Hd].
    rewrite Hd, IH. simpl. exists (VDict d :: ds). split; [reflexivity|].
    simpl. now rewrite Hlen.
Qed.

Lemma embeds_as_dicts_fail es :
  Exists (fun e => DiscordEmbed.timestamp e = None) es ->
  DiscordWebhook.embeds_as_dicts es = Raise AttributeError.
Proof.
  induction es as [|e es IH]; intros H; [inversion H|]. simpl.
  destruct (DiscordEmbed.timestamp e) as [ts|] eqn:Hts.
  - destruct (as_dict_with_timestamp e ts Hts) as [d Hd]. rewrite Hd. simpl.
    apply Exists_cons in H. destruct H as [H|H]; [congruence|].
    now rewrite (IH H).
  - now rewrite (as_dict_needs_timestamp e Hts).
Qed.

(** X11. When a client can build its payload.  [json] (and with it every
    send and edit) returns a mapping when the attribute [id] exists and
    every embed of the client has had its timestamp set; it raises
    [AttributeError], leaving the client as it was, when [id] was never
    assigned or when some embed has no timestamp. *)
Theorem X11_payload_needs_id_and_timestamps :
  forall (st : DiscordWebhook.St),
    (DiscordWebhook.id (DiscordWebhook.self st) <> None ->
     Forall (fun e => DiscordEmbed.timestamp e <> None)
       (DiscordWebhook.get_embeds st) ->
     exists payload, DiscordWebhook.json st = (Ok payload, st))
    /\
    (DiscordWebhook.id (DiscordWebhook.self st) = None
     \/ Exists (fun e => DiscordEmbed.timestamp e = None)
          (DiscordWebhook.get_embeds st) ->
     DiscordWebhook.json st = (Raise AttributeError, st)).
Proof.
  intros st. unfold DiscordWebhook.json, DiscordWebhook.as_dict,
    DiscordWebhook.get_embeds.
  split.
  - intros Hid Hall.
    destruct (DiscordWebhook.id (DiscordWebhook.self st)); [|congruence].
    destruct (deref (DiscordWebhook.world st)
                (DiscordWebhook.embeds (DiscordWebhook.self st)))
      as [|e es]; [eauto|].
    destruct (embeds_as_dicts_ok _ Hall) as [ds [Hds _]].
    rewrite Hds. eauto.
  - intros [Hid|Hex].
    + now rewrite Hid.
    + destruct (DiscordWebhook.id (DiscordWebhook.self st)); [|reflexivity].
      destruct (deref (DiscordWebhook.world st)
                  (DiscordWebhook.embeds (DiscordWebhook.self st)))
        as [|e es]; [inversion Hex|].
      now rewrite (embeds_as_dicts_fail _ Hex).
Qed.

Lemma X11_payload_needs_id_and_timestamps_witness :
  (exists payload,
      DiscordWebhook.json Sample.hi_200 = (Ok payload, Sample.hi_200))
  /\ DiscordWebhook.json
       (snd (DiscordWebhook.add_embed EmbedSample.base Sample.hi_200))
     = (Raise AttributeError,
        snd (DiscordWebhook.add_embed EmbedSample.base Sample.hi_200)).
Proof.
  split.
  - apply (proj1 (X11_payload_needs_id_and_timestamps Sample.hi_200)).
    + discriminate.
    + constructor.
  - apply (proj2 (X11_payload_needs_id_and_timestamps
                    (snd (DiscordWebhook.add_embed EmbedSample.base
                            Sample.hi_200)))).
    right. apply Exists_cons_hd. reflexivity.
Defined.

Lemma get_put_ne k k' v data :
  k <> k' -> Dict.get k' (DiscordWebhook.put k v data) = Dict.get k' data.
Proof.
  intros Hne. unfold DiscordWebhook.put.
  destruct (truthy v); [now apply dict_get_set_ne | reflexivity].
Qed.

Lemma payload_inv_put (Q : string * PyVal -> Prop) k v data :
  NoDup (Dict.keys data) /\ Forall Q data ->
  (truthy v = true -> Q (k, v)) ->
  NoDup (Dict.keys (DiscordWebhook.put k v data))
  /\ Forall Q (DiscordWebhook.put k v data).
Proof.
  intros [Hnd Hall] HQ. unfold DiscordWebhook.put.
  destruct (truthy v) eqn:E; [|now split].
  split; [now apply NoDup_keys_set | apply Forall_set; auto].
Qed.

Lemma embeds_as_dicts_nonempty e es ds :
  DiscordWebhook.embeds_as_dicts (e :: es) = Ok ds -> truthy (VList ds) = true.
Proof.
  simpl. destruct (DiscordEmbed.as_dict e); simpl; try discriminate.
  destruct (DiscordWebhook.embeds_as_dicts es); simpl; try discriminate.
  intros H. inversion H. reflexivity.
Qed.

(** X12. The payload a client sends.  Whenever [json] returns a mapping,
    the mapping names the webhook: it has the client's [url] (token
    included), its [id] and its [rate_limit_retry] flag, whatever their
    values; it has no key twice; and every other entry has a truthy
    value, so that unset options, an empty [content], an empty embed
    list and an empty [files] mapping are not sent. *)
Theorem X12_payload_shape :
  forall (st st' : DiscordWebhook.St) (payload : dict),
    DiscordWebhook.json st = (Ok payload, st') ->
    Dict.get "url" payload
    = Some (DiscordWebhook.url_value (DiscordWebhook.url (DiscordWebhook.self st)))
    /\ Dict.get "id" payload = DiscordWebhook.id (DiscordWebhook.self st)
    /\ Dict.get "rate_limit_retry" payload
       = Some (DiscordWebhook.rate_limit_retry (DiscordWebhook.self st))
    /\ NoDup (Dict.keys payload)
    /\ Forall (fun kv => fst kv ∈ ["url"; "id"; "rate_limit_retry"]
                         \/ truthy (snd kv) = true) payload.
Proof.
  intros st st' payload H.
  unfold DiscordWebhook.json, DiscordWebhook.as_dict in H.
  destruct (DiscordWebhook.id (DiscordWebhook.self st)) as [i|];
    [|discriminate H].
  set (Q := fun kv : string * PyVal =>
              fst kv ∈ ["url"; "id"; "rate_limit_retry"]
              \/ truthy (snd kv) = true).
  assert (NoDup (Dict.keys
                   [("url", DiscordWebhook.url_value
                              (DiscordWebhook.url (DiscordWebhook.self st)));
                    ("id", i);
                    ("rate_limit_retry",
                     DiscordWebhook.rate_limit_retry (DiscordWebhook.self st))])
          /\ Forall Q
               [("url", DiscordWebhook.url_value
                          (DiscordWebhook.url (DiscordWebhook.self st)));
                ("id", i);
                ("rate_limit_retry",
                 DiscordWebhook.rate_limit_retry (DiscordWebhook.self st))])
    as Hbase.
  { split.
    - simpl. repeat constructor; intros Hin;
        apply list_elem_of_In in Hin; simpl in Hin;
        repeat destruct Hin as [Hin|Hin]; try discriminate; auto.
    - repeat constructor; left; known_key. }
  assert (forall k v, truthy v = true -> Q (k, v)) as HQ
      by (intros k v Hv; right; exact Hv).
  destruct (deref (DiscordWebhook.world st)
              (DiscordWebhook.embeds (DiscordWebhook.self st))) as [|e es].
  - injection H as <- <-.
    split; [|split; [|split]].
    1-3: repeat (rewrite get_put_ne by discriminate); reflexivity.
    repeat (apply payload_inv_put; [|apply HQ]). exact Hbase.
  - destruct (DiscordWebhook.embeds_as_dicts (e :: es)) as [ds| |] eqn:Hds;
      try discriminate H.
    injection H as <- <-.
    split; [|split; [|split]].
    1-3: repeat (rewrite get_put_ne by discriminate);
      rewrite dict_get_set_ne by discriminate;
      repeat (rewrite get_put_ne by discriminate); reflexivity.
    repeat (apply payload_inv_put; [|apply HQ]).
    match goal with
    | |- context [Dict.set "embeds" _ ?inner] =>
        assert (NoDup (Dict.keys inner) /\ Forall Q inner) as [Hnd Hall]
          by (repeat (apply payload_inv_put; [|apply HQ]); exact Hbase)
    end.
    split.
    + now apply NoDup_keys_set.
    + apply Forall_set; [exact Hall|].
      apply HQ. exact (embeds_as_dicts_nonempty _ _ _ Hds).
Qed.

Lemma X12_payload_shape_witness :
  Dict.get "url" (Sample.payload_of Sample.hi_200)
  = Some (VStr "https://discord.com/api/webhooks/123456789/abcDEF")
  /\ Dict.get "id" (Sample.payload_of Sample.hi_200) = Some (VStr "123456789")
  /\ Dict.get "rate_limit_retry" (Sample.payload_of Sample.hi_200)
     = Some (VBool false)
  /\ NoDup (Dict.keys (Sample.payload_of Sample.hi_200))
  /\ Forall (fun kv => fst kv ∈ ["url"; "id"; "rate_limit_retry"]
                       \/ truthy (snd kv) = true)
       (Sample.payload_of Sample.hi_200).
Proof.
  apply (X12_payload_shape Sample.hi_200 Sample.hi_200
           (Sample.payload_of Sample.hi_200)).
  reflexivity.
Defined.

(** ** The retry loop over a run of rate-limited answers *)

Lemma retry_delay_status r q :
  retry_delay r = Some q -> status_code r = 429%Z /\ success r = false.
Proof.
  unfold retry_delay, success.
  destruct (status_code r =? 429)%Z eqn:E; simpl; [|discriminate].
  apply Z.eqb_eq in E. rewrite E. intros _. split; reflexivity.
Qed.


Lemma send_pops req st r rest :
  server (DiscordWebhook.world st) = r :: rest ->
  DiscordWebhook.send req st
  = (Ok r,
     DiscordWebhook.mk_st (DiscordWebhook.self st)
       (mk_world (heap (DiscordWebhook.world st)) rest
          (trace (DiscordWebhook.world st) ++ [EvRequest req]))).
Proof.
  intros H. unfold DiscordWebhook.send, transport. now rewrite H.
Qed.



(** ** Without [rate_limit_retry] *)

Lemma send_trace req st :
  trace (DiscordWebhook.world (snd (DiscordWebhook.send req st)))
  = trace (DiscordWebhook.world st) ++ [EvRequest req].
Proof.
  unfold DiscordWebhook.send, transport.
  destruct (server (DiscordWebhook.world st)); reflexivity.
Qed.

Lemma settle_off fuel r request st :
  truthy (DiscordWebhook.rate_limit_retry (DiscordWebhook.self st)) = false ->
  snd (DiscordWebhook.settle fuel r request st) = st.
Proof.
  intros H. unfold DiscordWebhook.settle, bind, gets, ret. cbv beta iota.
  rewrite H, andb_false_r. destruct (success r); [reflexivity|].
  destruct (log_failure_cases r st) as [-> | ->]; reflexivity.
Qed.

Lemma frame_retry st st' :
  frame st' = frame st ->
  DiscordWebhook.rate_limit_retry (DiscordWebhook.self st')
  = DiscordWebhook.rate_limit_retry (DiscordWebhook.self st).
Proof.
  intros H.
  exact (f_equal (fun p => DiscordWebhook.rate_limit_retry (fst p)) H).
Qed.

Lemma api_post_request_trace st :
  at_most_one_request (trace (DiscordWebhook.world st))
    (trace (DiscordWebhook.world (snd (DiscordWebhook.api_post_request st)))).
Proof.
  unfold DiscordWebhook.api_post_request, bind, gets, lift. cbv beta iota.
  pose proof (json_state st) as Hjs.
  destruct (negb (truthy (DiscordWebhook.files (DiscordWebhook.self st))));
    cbv beta iota;
    destruct (DiscordWebhook.json st) as [[payload| |] st0]; simpl in Hjs;
    subst st0; try (left; reflexivity).
  - right. eexists. apply send_trace.
  - destruct (json_dumps (VDict payload)) as [text| |];
      try (left; reflexivity).
    destruct (DiscordWebhook.files_set "payload_json" (VList [VNone; text]) st)
      as [[u| |] st1] eqn:Hfs;
      destruct (files_set_world _ _ _ _ _ Hfs) as [Hw _]; simpl;
      try (left; now rewrite Hw).
    right. eexists. rewrite send_trace, Hw. reflexivity.
Qed.

Lemma request_phase_off fuel st :
  truthy (DiscordWebhook.rate_limit_retry (DiscordWebhook.self st)) = false ->
  snd (request_phase fuel st) = snd (DiscordWebhook.api_post_request st).
Proof.
  intros H. unfold request_phase, bind.
  pose proof (keeps_api_post_request st) as Hframe.
  destruct (DiscordWebhook.api_post_request st) as [[r| |] st0];
    try reflexivity.
  simpl in Hframe. apply settle_off. simpl.
  now rewrite (frame_retry _ _ Hframe).
Qed.

Lemma cleaned_trace rm st :
  trace (DiscordWebhook.world (cleaned rm st))
  = trace (DiscordWebhook.world st).
Proof. destruct rm; reflexivity. Qed.

Lemma edit_request_world st :
  DiscordWebhook.world (snd (DiscordWebhook.edit_request st))
  = DiscordWebhook.world st
  /\ DiscordWebhook.rate_limit_retry
       (DiscordWebhook.self (snd (DiscordWebhook.edit_request st)))
     = DiscordWebhook.rate_limit_retry (DiscordWebhook.self st).
Proof.
  unfold DiscordWebhook.edit_request, bind, gets, lift, ret. cbv beta iota.
  destruct (DiscordWebhook.message_url st) as [[target| |] st0] eqn:Hurl;
    pose proof (message_url_state _ _ _ Hurl); subst st0;
    try (split; reflexivity).
  pose proof (json_state st) as Hjs.
  destruct (negb (truthy (DiscordWebhook.files (DiscordWebhook.self st))));
    cbv beta iota;
    destruct (DiscordWebhook.json st) as [[payload| |] st0]; simpl in Hjs;
    subst st0; try (split; reflexivity).
  destruct (json_dumps (VDict payload)) as [text| |];
    try (split; reflexivity).
  unfold DiscordWebhook.files_set.
  destruct (DiscordWebhook.files (DiscordWebhook.self st)); split; reflexivity.
Qed.

(** X14. With [rate_limit_retry] falsy (the default), [execute], [edit]
    and [delete] never wait and never resubmit: whatever the remote end
    answers, a 429 included, the call sends at most one request and adds
    nothing else to the trace, and [delete] returns the first answer as
    it is. *)
Theorem X14_no_retry_unless_enabled :
  forall (fuel : nat) (st : DiscordWebhook.St),
    truthy (DiscordWebhook.rate_limit_retry (DiscordWebhook.self st)) = false ->
    (forall rm,
        at_most_one_request (trace (DiscordWebhook.world st))
          (trace (DiscordWebhook.world
                    (snd (DiscordWebhook.execute_with fuel rm st)))))
    /\ at_most_one_request (trace (DiscordWebhook.world st))
         (trace (DiscordWebhook.world (snd (DiscordWebhook.edit_with fuel st))))
    /\ at_most_one_request (trace (DiscordWebhook.world st))
         (trace (DiscordWebhook.world (snd (DiscordWebhook.delete_with fuel st))))
    /\ (forall target r rest,
           DiscordWebhook.message_url st = (Ok target, st) ->
           server (DiscordWebhook.world st) = r :: rest ->
           fst (DiscordWebhook.delete_with fuel st) = Ok r).
Proof.
  intros fuel st Hoff. split; [|split; [|split]].
  - intros rm. rewrite execute_with_phases.
    pose proof (api_post_request_trace st) as Ht.
    rewrite <- (request_phase_off fuel _ Hoff) in Ht.
    destruct (request_phase fuel st) as [[r| |] st1];
      simpl in *; try exact Ht.
    now rewrite reconcile_world, cleaned_trace.
  - unfold DiscordWebhook.edit_with, bind.
    destruct (edit_request_world st) as [Hw Hr].
    destruct (DiscordWebhook.edit_request st) as [[req| |] st0];
      simpl in *; try (left; now rewrite Hw).
    pose proof (send_trace req st0) as Hs.
    pose proof (send_self req st0) as Hself.
    destruct (DiscordWebhook.send req st0) as [[r| |] st1]; simpl in *;
      try (right; exists req; now rewrite Hs, Hw).
    rewrite settle_off by (now rewrite Hself, Hr).
    right. exists req. now rewrite Hs, Hw.
  - unfold DiscordWebhook.delete_with, bind, gets. cbv beta iota.
    destruct (DiscordWebhook.message_url st) as [[target| |] st0] eqn:Hurl;
      pose proof (message_url_state _ _ _ Hurl); subst st0;
      try (left; reflexivity).
    match goal with
    | |- context [DiscordWebhook.send ?req st] =>
        pose proof (send_trace req st) as Hs;
        pose proof (send_self req st) as Hself;
        destruct (DiscordWebhook.send req st) as [[r| |] st1]; simpl in *;
        try (right; exists req; exact Hs);
        rewrite Hself, Hoff, andb_false_r;
        right; exists req; destruct (success r); exact Hs
    end.
  - intros target r rest Hurl Hsrv.
    unfold DiscordWebhook.delete_with, bind, gets. cbv beta iota.
    rewrite Hurl. cbv beta iota.
    rewrite (send_pops _ _ _ _ Hsrv). cbv beta iota. simpl.
    rewrite Hoff, andb_false_r. now destruct (success r).
Qed.

Lemma X14_no_retry_unless_enabled_witness :
  at_most_one_request
    (trace (DiscordWebhook.world (Sample.client Sample.hi [Sample.limited_429])))
    (trace (DiscordWebhook.world
              (snd (DiscordWebhook.execute_with 1 false
                      (Sample.client Sample.hi [Sample.limited_429])))))
  /\ fst (DiscordWebhook.delete_with 1
            (Sample.client Sample.hi [Sample.limited_429]))
     = Ok Sample.limited_429.
Proof.
  destruct (X14_no_retry_unless_enabled 1
              (Sample.client Sample.hi [Sample.limited_429]) eq_refl)
    as [Hex [_ [_ Hdel]]].
  split.
  - exact (Hex false).
  - apply (Hdel
             "https://discord.com/api/webhooks/123456789/abcDEF/messages/123456789"
             Sample.limited_429 []); reflexivity.
Defined.

(** ** [edit] and [delete]: what they require and what they leave *)

Lemma message_url_raises st e :
  DiscordWebhook.message_url st = (Raise e, st) ->
  forall fuel,
    DiscordWebhook.edit_with fuel st = (Raise e, st)
    /\ DiscordWebhook.delete_with fuel st = (Raise e, st)
    /\ AsyncDiscordWebhook.edit_with fuel st = (Raise e, st)
    /\ AsyncDiscordWebhook.delete st = (Raise e, st).
Proof.
  intros H fuel.
  unfold DiscordWebhook.edit_with, DiscordWebhook.delete_with,
    AsyncDiscordWebhook.edit_with, AsyncDiscordWebhook.delete,
    DiscordWebhook.edit_request, AsyncDiscordWebhook.edit_request, bind.
  rewrite H. repeat split.
Qed.

(** X15. What [edit] and [delete] require, for both clients.  On a
    client whose attribute [id] was never assigned they raise
    [AttributeError]; when [id] is not a string, or when it is one and
    the URL is [None], they raise [AssertionError].  In each case the
    call ends before anything is sent and leaves client and world as
    they were. *)
Theorem X15_edit_and_delete_preconditions :
  forall (fuel : nat) (st : DiscordWebhook.St),
    (DiscordWebhook.id (DiscordWebhook.self st) = None ->
     DiscordWebhook.edit_with fuel st = (Raise AttributeError, st)
     /\ DiscordWebhook.delete_with fuel st = (Raise AttributeError, st)
     /\ AsyncDiscordWebhook.edit_with fuel st = (Raise AttributeError, st)
     /\ AsyncDiscordWebhook.delete st = (Raise AttributeError, st))
    /\
    (forall v,
        DiscordWebhook.id (DiscordWebhook.self st) = Some v ->
        (forall s, v <> VStr s)
        \/ DiscordWebhook.url (DiscordWebhook.self st) = None ->
        DiscordWebhook.edit_with fuel st = (Raise AssertionError, st)
        /\ DiscordWebhook.delete_with fuel st = (Raise AssertionError, st)
        /\ AsyncDiscordWebhook.edit_with fuel st = (Raise AssertionError, st)
        /\ AsyncDiscordWebhook.delete st = (Raise AssertionError, st)).
Proof.
  intros fuel st. split.
  - intros Hid. apply message_url_raises.
    unfold DiscordWebhook.message_url. now rewrite Hid.
  - intros v Hid Hbad. apply message_url_raises.
    unfold DiscordWebhook.message_url. rewrite Hid.
    destruct Hbad as [Hv|Hu].
    + destruct v; try reflexivity. now destruct (Hv s).
    + rewrite Hu. destruct v; reflexivity.
Qed.

Lemma X15_edit_and_delete_preconditions_witness :
  DiscordWebhook.edit_with 1
    (DiscordWebhook.mk_st
       (DiscordWebhook.with_id None (DiscordWebhook.self Sample.hi_200))
       (DiscordWebhook.world Sample.hi_200))
  = (Raise AttributeError,
     DiscordWebhook.mk_st
       (DiscordWebhook.with_id None (DiscordWebhook.self Sample.hi_200))
       (DiscordWebhook.world Sample.hi_200))
  /\ DiscordWebhook.delete_with 1
       (DiscordWebhook.mk_st
          (DiscordWebhook.with_id (Some (VInt 1001))
             (DiscordWebhook.self Sample.hi_200))
          (DiscordWebhook.world Sample.hi_200))
     = (Raise AssertionError,
        DiscordWebhook.mk_st
          (DiscordWebhook.with_id (Some (VInt 1001))
             (DiscordWebhook.self Sample.hi_200))
          (DiscordWebhook.world Sample.hi_200)).
Proof.
  split.
  - apply (proj1 (X15_edit_and_delete_preconditions 1
                    (DiscordWebhook.mk_st
                       (DiscordWebhook.with_id None
                          (DiscordWebhook.self Sample.hi_200))
                       (DiscordWebhook.world Sample.hi_200)))).
    reflexivity.
  - apply (proj2 (X15_edit_and_delete_preconditions 1
                    (DiscordWebhook.mk_st
                       (DiscordWebhook.with_id (Some (VInt 1001))
                          (DiscordWebhook.self Sample.hi_200))
                       (DiscordWebhook.world Sample.hi_200)))
             (VInt 1001)).
    + reflexivity.
    + left. discriminate.
Defined.

Lemma keeps_edit_request : keeps_frame DiscordWebhook.edit_request.
Proof. unfold DiscordWebhook.edit_request. keeps. Qed.

(** X16. What [delete] and [edit] leave alone.  [delete] never changes
    the client, whatever the answers and however many retries; the
    awaiting [delete] neither.  [edit] changes at most the [files]
    mapping: every other attribute, [id] and [attachments] included, and
    every embed list are after the call as before, so [edit] does not
    absorb the [id] or the [attachments] of the response. *)
Theorem X16_delete_and_edit_frame :
  forall (fuel : nat) (st : DiscordWebhook.St),
    DiscordWebhook.self (snd (DiscordWebhook.delete_with fuel st))
    = DiscordWebhook.self st
    /\ DiscordWebhook.self (snd (AsyncDiscordWebhook.delete st))
       = DiscordWebhook.self st
    /\ frame (snd (DiscordWebhook.edit_with fuel st)) = frame st
    /\ DiscordWebhook.id
         (DiscordWebhook.self (snd (DiscordWebhook.edit_with fuel st)))
       = DiscordWebhook.id (DiscordWebhook.self st)
    /\ DiscordWebhook.attachments
         (DiscordWebhook.self (snd (DiscordWebhook.edit_with fuel st)))
       = DiscordWebhook.attachments (DiscordWebhook.self st).
Proof.
  intros fuel st.
  assert (frame (snd (DiscordWebhook.edit_with fuel st)) = frame st) as Hedit.
  { assert (keeps_frame (DiscordWebhook.edit_with fuel)) as Hk.
    { unfold DiscordWebhook.edit_with. apply keeps_bind.
      - apply keeps_edit_request.
      - intros req. apply keeps_bind; [apply keeps_send|].
        intros r. apply keeps_settle, keeps_send. }
    apply Hk. }
  split; [|split; [|split; [|split]]].
  - unfold DiscordWebhook.delete_with, bind, gets. cbv beta iota.
    destruct (DiscordWebhook.message_url st) as [[target| |] st0] eqn:Hurl;
      pose proof (message_url_state _ _ _ Hurl); subst st0;
      try reflexivity.
    match goal with
    | |- context [DiscordWebhook.send ?req st] =>
        pose proof (send_self req st) as Hself;
        destruct (DiscordWebhook.send req st) as [[r| |] st1]; simpl in *;
        try exact Hself;
        destruct (success r); [exact Hself|];
        destruct ((status_code r =? 429)%Z
                  && truthy (DiscordWebhook.rate_limit_retry
                               (DiscordWebhook.self st1)))%bool;
        [rewrite handle_rate_limit_send_self|]; exact Hself
    end.
  - unfold AsyncDiscordWebhook.delete, bind, gets, ret. cbv beta iota.
    destruct (DiscordWebhook.message_url st) as [[target| |] st0] eqn:Hurl;
      pose proof (message_url_state _ _ _ Hurl); subst st0;
      try reflexivity.
    match goal with
    | |- context [DiscordWebhook.send ?req st] =>
        pose proof (send_self req st) as Hself;
        destruct (DiscordWebhook.send req st) as [[r| |] st1]; simpl in *;
        try exact Hself;
        destruct (success r); [exact Hself|];
        destruct (log_failure_cases r st1) as [-> | ->]; exact Hself
    end.
  - exact Hedit.
  - exact (f_equal (fun p => DiscordWebhook.id (fst p)) Hedit).
  - exact (frame_attachments _ _ Hedit).
Qed.

(** ** Sending, then editing *)

Lemma reconcile_mapping r d st :
  Response.content r = BJson (VDict d) ->
  fst (reconcile r st) = Ok r
  /\ DiscordWebhook.url (DiscordWebhook.self (snd (reconcile r st)))
     = DiscordWebhook.url (DiscordWebhook.self st)
  /\ DiscordWebhook.id (DiscordWebhook.self (snd (reconcile r st)))
     = (if truthy (py_get "id" d) then Some (py_get "id" d)
        else DiscordWebhook.id (DiscordWebhook.self st)).
Proof.
  intros Hc. unfold reconcile. run_monad. rewrite Hc. simpl.
  destruct (truthy (py_get "id" d)), (truthy (py_get "attachments" d));
    repeat split.
Qed.

Lemma cleaned_url rm st :
  DiscordWebhook.url (DiscordWebhook.self (cleaned rm st))
  = DiscordWebhook.url (DiscordWebhook.self st).
Proof. destruct rm; reflexivity. Qed.

(** X17. Sending, then editing.  When [execute] returns a response whose
    body is a JSON mapping with a non-empty string [id], the client's
    identifier is that string afterwards, and the message URL that a
    following [edit] or [delete] addresses is
    [{url}/messages/{that id}], with the URL the client had before the
    call; when the body has no truthy [id], the identifier is the one
    the client had. *)
Theorem X17_execute_then_edit :
  forall (fuel : nat) (rm : bool) (st st' : DiscordWebhook.St)
         (r : Response) (d : dict) (u : string),
    DiscordWebhook.execute_with fuel rm st = (Ok r, st') ->
    Response.content r = BJson (VDict d) ->
    DiscordWebhook.url (DiscordWebhook.self st) = Some u ->
    (forall i : string,
        py_get "id" d = VStr i -> i <> "" ->
        DiscordWebhook.id (DiscordWebhook.self st') = Some (VStr i)
        /\ DiscordWebhook.message_url st'
           = (Ok (u ++ "/messages/" ++ i)%string, st'))
    /\
    (truthy (py_get "id" d) = false ->
     DiscordWebhook.id (DiscordWebhook.self st')
     = DiscordWebhook.id (DiscordWebhook.self st)).
Proof.
  intros fuel rm st st' r d u Hex Hc Hu.
  rewrite execute_with_phases in Hex.
  pose proof (keeps_request_phase fuel st) as Hframe.
  destruct (request_phase fuel st) as [[r1| |] st1]; try discriminate Hex.
  simpl in Hframe.
  assert (r1 = r) as ->.
  { unfold reconcile in Hex. revert Hex. run_monad.
    destruct (Response.content r1) as [raw|v|raw]; simpl;
      [discriminate| |discriminate].
    destruct v; simpl; try discriminate.
    destruct (truthy (py_get "id" d0)), (truthy (py_get "attachments" d0));
      simpl; intros H; now inversion H. }
  destruct (reconcile_mapping r d (cleaned rm st1) Hc) as [_ [Hurl Hid]].
  rewrite cleaned_url in Hurl. rewrite cleaned_id in Hid.
  rewrite Hex in Hurl, Hid. simpl in Hurl, Hid.
  pose proof (f_equal (fun p => DiscordWebhook.url (fst p)) Hframe) as Hu1.
  pose proof (f_equal (fun p => DiscordWebhook.id (fst p)) Hframe) as Hi1.
  simpl in Hu1, Hi1. rewrite Hu1, Hu in Hurl. rewrite Hi1 in Hid.
  split.
  - intros i Hi Hne. rewrite Hi in Hid.
    assert (truthy (VStr i) = true) as Ht.
    { simpl. destruct (String.eqb i "") eqn:E; [|reflexivity].
      apply String.eqb_eq in E. contradiction. }
    rewrite Ht in Hid. split; [exact Hid|].
    unfold DiscordWebhook.message_url. now rewrite Hid, Hurl.
  - intros Hf. now rewrite Hf in Hid.
Qed.

Lemma X17_execute_then_edit_witness :
  (DiscordWebhook.id
     (DiscordWebhook.self (snd (DiscordWebhook.execute_with 1 false Sample.hi_200)))
   = Some (VStr "1001")
   /\ DiscordWebhook.message_url
        (snd (DiscordWebhook.execute_with 1 false Sample.hi_200))
      = (Ok ("https://discord.com/api/webhooks/123456789/abcDEF"
             ++ "/messages/" ++ "1001")%string,
         snd (DiscordWebhook.execute_with 1 false Sample.hi_200))).
Proof.
  apply (proj1 (X17_execute_then_edit 1 false Sample.hi_200
                  (snd (DiscordWebhook.execute_with 1 false Sample.hi_200))
                  Sample.ok_200
                  [("id", VStr "1001");
                   ("attachments",
                    VList [VDict [("id", VInt 0); ("filename", VStr "a.txt")]])]
                  "https://discord.com/api/webhooks/123456789/abcDEF"
                  eq_refl eq_refl eq_refl)
           "1001").
  - reflexivity.
  - discriminate.
Defined.

(** ** Where the two clients agree *)



(** Where the two loops part: on an accepted 429 that asks for a
    negative wait [time.sleep] raises, and [asyncio.sleep] returns at
    once, so that the awaiting client resubmits. *)
Example negative_wait :
  DiscordWebhook.edit (Sample.client Sample.hi_retry
                         [Sample.negative_429; Sample.plain_200])
  = (Raise ValueError,
     snd (DiscordWebhook.send
            (mk_request PATCH
               (Some "https://discord.com/api/webhooks/123456789/abcDEF/messages/123456789")
               (JsonBody (Sample.payload_of (Sample.client Sample.hi_retry [])))
               [("wait", VBool true)] VNone VNone)
            (Sample.client Sample.hi_retry
               [Sample.negative_429; Sample.plain_200])))
  /\ fst (AsyncDiscordWebhook.edit
            (Sample.client Sample.hi_retry
               [Sample.negative_429; Sample.plain_200]))
     = Ok Sample.plain_200.
Proof. split; reflexivity. Qed.



(** ** The awaiting client cannot resubmit a multipart request *)

Lemma json_ok_frame st st2 payload :
  frame st2 = frame st ->
  DiscordWebhook.json st = (Ok payload, st) ->
  exists payload2, DiscordWebhook.json st2 = (Ok payload2, st2).
Proof.
  intros Hframe Hj.
  pose proof (f_equal (fun p => DiscordWebhook.id (fst p)) Hframe) as Hid.
  pose proof (frame_get_embeds _ _ Hframe) as Hem.
  simpl in Hid. unfold DiscordWebhook.get_embeds in Hem.
  unfold DiscordWebhook.json, DiscordWebhook.as_dict in *.
  rewrite Hid, Hem.
  destruct (DiscordWebhook.id (DiscordWebhook.self st)); [|discriminate Hj].
  destruct (deref (DiscordWebhook.world st)
              (DiscordWebhook.embeds (DiscordWebhook.self st))) as [|e es];
    [eauto|].
  destruct (DiscordWebhook.embeds_as_dicts (e :: es)); try discriminate Hj.
  eauto.
Qed.

Lemma async_api_post_request_inserts st d payload :
  DiscordWebhook.files (DiscordWebhook.self st) = VDict d ->
  d <> [] ->
  DiscordWebhook.json st = (Ok payload, st) ->
  serializable (VDict payload) = true ->
  AsyncDiscordWebhook.api_post_request st
  = DiscordWebhook.send
      (mk_request POST (DiscordWebhook.url (DiscordWebhook.self st))
         (FilesBody
            (VDict (Dict.set "payload_json"
                      (VList [VNone; VJsonBytes (VDict payload)]) d)))
         (DiscordWebhook._query_params (DiscordWebhook.self st))
         VNone
         (DiscordWebhook.timeout (DiscordWebhook.self st)))
      (DiscordWebhook.on_self
         (DiscordWebhook.with_files
            (VDict (Dict.set "payload_json"
                      (VList [VNone; VJsonBytes (VDict payload)]) d))) st).
Proof.
  intros Hd Hne Hj Hs. unfold AsyncDiscordWebhook.api_post_request.
  unfold bind, gets, lift. cbv beta iota.
  rewrite Hd, (truthy_dict d Hne). change (negb true) with false.
  cbv beta iota. rewrite Hj. cbv beta iota.
  unfold json_dumps. rewrite Hs. cbv beta iota.
  unfold DiscordWebhook.files_set. rewrite Hd. reflexivity.
Qed.

Lemma dict_set_not_nil {A} k (v : A) d : Dict.set k v d <> [].
Proof.
  destruct d as [|[k' v'] d]; simpl; [|destruct (String.eqb k k')];
    discriminate.
Qed.

Lemma async_api_post_request_after_bytes st d payload v :
  DiscordWebhook.files (DiscordWebhook.self st)
  = VDict (Dict.set "payload_json" (VList [VNone; VJsonBytes v]) d) ->
  DiscordWebhook.json st = (Ok payload, st) ->
  AsyncDiscordWebhook.api_post_request st = (Raise TypeError, st).
Proof.
  intros Hf Hj.
  assert (truthy (DiscordWebhook.files (DiscordWebhook.self st)) = true) as Ht.
  { rewrite Hf. apply truthy_dict, dict_set_not_nil. }
  assert (serializable (DiscordWebhook.files (DiscordWebhook.self st)) = false)
    as Hs.
  { rewrite Hf. simpl.
    apply (unserializable_entry "payload_json" (VList [VNone; VJsonBytes v]));
      [apply dict_get_set_eq | reflexivity]. }
  unfold AsyncDiscordWebhook.api_post_request, bind, gets, lift.
  cbv beta iota. rewrite Ht. change (negb true) with false. cbv beta iota.
  rewrite Hj. cbv beta iota.
  now rewrite (dumps_of_json_fails _ _ _ Hj Ht Hs).
Qed.

(** One pass of the awaiting loop on an accepted 429 response, whatever
    the sign of the wait. *)
Lemma async_handle_rate_limit_step fuel r q request st :
  retry_delay r = Some q ->
  AsyncDiscordWebhook.handle_rate_limit (S fuel) r request st
  = bind request
      (fun r' => if success r' then ret r'
                 else AsyncDiscordWebhook.handle_rate_limit fuel r' request)
      (DiscordWebhook.on_world (sleep q) st).
Proof.
  intros H. pose proof (retry_delay_status _ _ H) as [H429 _].
  unfold retry_delay in H. rewrite H429 in H. simpl in H.
  simpl. rewrite H429. simpl. unfold bind at 1, lift.
  destruct (lacks_via r); [discriminate H|].
  destruct (json_loads (Response.content r)) as [errors| |];
    try discriminate H.
  unfold raise. unfold bind at 1.
  destruct (subscript "retry_after" errors) as [ra| |]; try discriminate H.
  unfold bind at 1.
  destruct (py_float ra) as [[seconds| |]| |]; try discriminate H.
  injection H as <-. reflexivity.
Qed.

(** X19. The awaiting client and a rate-limited multipart request.  On a
    client that holds files whose payload serialises, with
    [rate_limit_retry] on, when the first answer is a 429 the loop
    accepts: the awaiting [execute] sends the request, waits, and then
    raises [TypeError] while preparing the resubmission, because the
    [payload_json] slot it stored as [bytes] is now part of the payload
    that [json.dumps] must serialise.  Nothing is resubmitted, the
    remaining answers are not consumed, and the files mapping is left
    with its slots and the [payload_json] entry. *)
Theorem X19_async_retry_with_files :
  forall (fuel : nat) (rm : bool) (st : DiscordWebhook.St)
         (d payload : dict) (r : Response) (rest : list Response) (q : Q),
    DiscordWebhook.files (DiscordWebhook.self st) = VDict d ->
    d <> [] ->
    DiscordWebhook.json st = (Ok payload, st) ->
    serializable (VDict payload) = true ->
    truthy (DiscordWebhook.rate_limit_retry (DiscordWebhook.self st)) = true ->
    server (DiscordWebhook.world st) = r :: rest ->
    retry_delay r = Some q ->
    exists req st',
      AsyncDiscordWebhook.execute_with (S fuel) rm st = (Raise TypeError, st')
      /\ trace (DiscordWebhook.world st')
         = trace (DiscordWebhook.world st) ++ [EvRequest req; EvSleep q]
      /\ server (DiscordWebhook.world st') = rest
      /\ DiscordWebhook.files (DiscordWebhook.self st')
         = VDict (Dict.set "payload_json"
                    (VList [VNone; VJsonBytes (VDict payload)]) d).
Proof.
  intros fuel rm st d payload r rest q Hd Hne Hj Hs Hretry Hsrv Hq.
  destruct (retry_delay_status _ _ Hq) as [H429 Hns].
  set (F := VDict (Dict.set "payload_json"
                     (VList [VNone; VJsonBytes (VDict payload)]) d)).
  set (req := mk_request POST (DiscordWebhook.url (DiscordWebhook.self st))
                (FilesBody F)
                (DiscordWebhook._query_params (DiscordWebhook.self st))
                VNone (DiscordWebhook.timeout (DiscordWebhook.self st))).
  set (st1 := DiscordWebhook.mk_st
                (DiscordWebhook.with_files F (DiscordWebhook.self st))
                (mk_world (heap (DiscordWebhook.world st)) rest
                   (trace (DiscordWebhook.world st) ++ [EvRequest req]))).
  set (st2 := DiscordWebhook.on_world (sleep q) st1).
  assert (AsyncDiscordWebhook.api_post_request st = (Ok r, st1)) as Hapi.
  { rewrite (async_api_post_request_inserts st d payload Hd Hne Hj Hs).
    rewrite (send_pops _ _ r rest) by exact Hsrv. reflexivity. }
  assert (AsyncDiscordWebhook.api_post_request st2 = (Raise TypeError, st2))
    as Hagain.
  { destruct (json_ok_frame st st2 payload eq_refl Hj) as [p2 Hj2].
    exact (async_api_post_request_after_bytes st2 d p2 (VDict payload)
             eq_refl Hj2). }
  assert (truthy (DiscordWebhook.rate_limit_retry (DiscordWebhook.self st1))
          = true) as Hretry1 by exact Hretry.
  assert (AsyncDiscordWebhook.settle (S fuel) r
            AsyncDiscordWebhook.api_post_request st1
          = (Raise TypeError, st2)) as Hsettle.
  { clearbody st1. unfold AsyncDiscordWebhook.settle, bind, gets, ret.
    cbv beta iota. rewrite Hns, H429, Hretry1.
    change ((429 =? 429)%Z && true) with true. cbv iota.
    rewrite (async_handle_rate_limit_step _ _ _ _ _ Hq). unfold bind.
    fold st2. now rewrite Hagain. }
  exists req, st2. split.
  - rewrite async_execute_with_phases. unfold async_request_phase, bind.
    now rewrite Hapi, Hsettle.
  - split; [|split]; try reflexivity.
    simpl. now rewrite <- app_assoc.
Qed.

Lemma X19_async_retry_with_files_witness :
  exists req st',
    AsyncDiscordWebhook.execute_with 1 false
      (Sample.client Sample.hi_text_file_retry
         [Sample.limited_429; Sample.plain_200])
    = (Raise TypeError, st')
    /\ trace (DiscordWebhook.world st')
       = trace (DiscordWebhook.world
                  (Sample.client Sample.hi_text_file_retry
                     [Sample.limited_429; Sample.plain_200]))
         ++ [EvRequest req; EvSleep ((1 # 2) + (15 # 100))]
    /\ server (DiscordWebhook.world st') = [Sample.plain_200]
    /\ DiscordWebhook.files (DiscordWebhook.self st')
       = VDict (Dict.set "payload_json"
                  (VList [VNone;
                          VJsonBytes
                            (VDict (Sample.payload_of
                                      (Sample.client Sample.hi_text_file_retry
                                         [Sample.limited_429;
                                          Sample.plain_200])))])
                  Sample.a_txt_text).
Proof.
  apply (X19_async_retry_with_files 0 false
           (Sample.client Sample.hi_text_file_retry
              [Sample.limited_429; Sample.plain_200])
           Sample.a_txt_text
           (Sample.payload_of
              (Sample.client Sample.hi_text_file_retry
                 [Sample.limited_429; Sample.plain_200]))
           Sample.limited_429 [Sample.plain_200]); try reflexivity.
  discriminate.
Defined.

(** On the same client and answers the blocking [execute] resubmits and
    returns the second answer. *)
Example blocking_retry_with_files :
  fst (DiscordWebhook.execute false
         (Sample.client Sample.hi_text_file_retry
            [Sample.limited_429; Sample.plain_200]))
  = Ok Sample.plain_200.
Proof. reflexivity. Qed.

(** ** Construction of an embed *)

Lemma set_color_ok_range c e e' :
  DiscordEmbed.set_color c e = (Ok tt, e') ->
  match DiscordEmbed.color e' with
  | Some n => (0 <= n <= 16777215)%Z
  | None => True
  end.
Proof.
  unfold DiscordEmbed.set_color.
  assert (forall n,
             (if ((0 <=? n) && (n <? 16777216))%Z
              then (Ok tt, DiscordEmbed.with_color (Some n) e)
              else (Raise ColorNotInRangeException,
                    DiscordEmbed.with_color (Some n) e)) = (Ok tt, e') ->
             match DiscordEmbed.color e' with
             | Some n => (0 <= n <= 16777215)%Z
             | None => True
             end) as Hcheck.
  { intros n. destruct ((0 <=? n) && (n <? 16777216))%Z eqn:E;
      [|discriminate].
    intros H. inversion H. simpl.
    apply andb_true_iff in E. destruct E as [E1 E2].
    apply Z.leb_le in E1. apply Z.ltb_lt in E2. lia. }
  destruct c as [|n|s].
  - intros H. inversion H. exact I.
  - apply Hcheck.
  - destruct (int16 s) as [n|x|]; try discriminate. apply Hcheck.
Qed.

(** X20. Construction of an embed validates the colour.  An embed that
    [DiscordEmbed(...)] returns has no colour or a colour in
    [0, 16777215], and has the title, description and fields it was
    given; with an integer colour outside that range the constructor
    raises [ColorNotInRangeException], and with a string that
    [int(_, 16)] cannot read it raises [ValueError]. *)
Theorem X20_embed_construction :
  forall (title description : option string) (kw : DiscordEmbed.kwargs),
    (forall e,
        DiscordEmbed.init title description kw = Ok e ->
        match DiscordEmbed.color e with
        | Some n => (0 <= n <= 16777215)%Z
        | None => True
        end
        /\ DiscordEmbed.title e = title
        /\ DiscordEmbed.description e = description
        /\ DiscordEmbed.get_embed_fields e
           = match DiscordEmbed.kw_fields kw with
             | Some fs => fs
             | None => []
             end)
    /\
    (forall n,
        DiscordEmbed.kw_color kw = CInt n ->
        (n < 0 \/ 16777215 < n)%Z ->
        DiscordEmbed.init title description kw
        = Raise ColorNotInRangeException)
    /\
    (forall s,
        DiscordEmbed.kw_color kw = CStr s ->
        int16 s = Raise ValueError ->
        DiscordEmbed.init title description kw = Raise ValueError).
Proof.
  intros title description kw. split; [|split].
  - intros e. unfold DiscordEmbed.init.
    match goal with
    | |- context [DiscordEmbed.set_color ?c ?e0] =>
        pose proof (set_color_ok_range c e0) as Hrange;
        assert (forall r e1, DiscordEmbed.set_color c e0 = (r, e1) ->
                             DiscordEmbed.title e1 = title
                             /\ DiscordEmbed.description e1 = description
                             /\ DiscordEmbed.fields e1 = DiscordEmbed.fields e0)
          as Hkeep;
        [|destruct (DiscordEmbed.set_color c e0) as [[[]| |] e1] eqn:Hset]
    end.
    + intros r e1. unfold DiscordEmbed.set_color.
      destruct (DiscordEmbed.kw_color kw) as [|n|s].
      * intros H. inversion H. repeat split.
      * destruct ((0 <=? n) && (n <? 16777216))%Z; intros H; inversion H;
          repeat split.
      * destruct (int16 s) as [n| |];
          [destruct ((0 <=? n) && (n <? 16777216))%Z|..];
          intros H; inversion H; repeat split.
    + specialize (Hrange e1 eq_refl).
      destruct (Hkeep _ _ eq_refl) as [Ht [Hd Hf]].
      destruct (DiscordEmbed.kw_timestamp kw); intros H; inversion H; subst;
        simpl; unfold DiscordEmbed.get_embed_fields; simpl;
        rewrite ?Hf; auto.
    + discriminate.
    + discriminate.
  - intros n Hc Hout. unfold DiscordEmbed.init, DiscordEmbed.set_color.
    rewrite Hc.
    destruct ((0 <=? n) && (n <? 16777216))%Z eqn:E; [|reflexivity].
    apply andb_true_iff in E. destruct E as [E1 E2].
    apply Z.leb_le in E1. apply Z.ltb_lt in E2. lia.
  - intros s Hc Hbad. unfold DiscordEmbed.init, DiscordEmbed.set_color.
    now rewrite Hc, Hbad.
Qed.

Lemma X20_embed_construction_witness :
  (match DiscordEmbed.color EmbedSample.base with
   | Some n => (0 <= n <= 16777215)%Z
   | None => True
   end
   /\ DiscordEmbed.title EmbedSample.base = Some "Status"
   /\ DiscordEmbed.description EmbedSample.base = Some "All good"
   /\ DiscordEmbed.get_embed_fields EmbedSample.base = [])
  /\ DiscordEmbed.init None None
       (DiscordEmbed.mk_kwargs None None None None None None None None
          (CInt 16777216) None)
     = Raise ColorNotInRangeException
  /\ DiscordEmbed.init None None
       (DiscordEmbed.mk_kwargs None None None None None None None None
          (CStr "red") None)
     = Raise ValueError.
Proof.
  split; [|split].
  - apply (proj1 (X20_embed_construction (Some "Status") (Some "All good")
                    DiscordEmbed.no_kwargs) EmbedSample.base).
    reflexivity.
  - apply (proj1 (proj2 (X20_embed_construction None None
                           (DiscordEmbed.mk_kwargs None None None None None
                              None None None (CInt 16777216) None)))
             16777216%Z); [reflexivity | lia].
  - apply (proj2 (proj2 (X20_embed_construction None None
                           (DiscordEmbed.mk_kwargs None None None None None
                              None None None (CStr "red") None)))
             "red"); reflexivity.
Defined.

(** ** The requests on the wire *)

Lemma query_params_get s :
  Dict.get "wait" (DiscordWebhook._query_params s)
  = (if truthy (DiscordWebhook.wait s) then Some (DiscordWebhook.wait s)
     else None)
  /\ Dict.get "thread_id" (DiscordWebhook._query_params s)
     = (if truthy (DiscordWebhook.thread_id s)
        then Some (DiscordWebhook.thread_id s) else None).
Proof.
  unfold DiscordWebhook._query_params, DiscordWebhook.put.
  destruct (truthy (DiscordWebhook.thread_id s)),
    (truthy (DiscordWebhook.wait s)); split; reflexivity.
Qed.

(** X21. The request of a send.  Whenever [api_post_request] returns a
    response, it has sent exactly one request: a [POST] to the client's
    URL, whose query parameters hold [wait] exactly when the client's
    [wait] is truthy and [thread_id] exactly when the client's
    [thread_id] is truthy.  Without files the body is the client's JSON
    payload; with files it is the client's files mapping, in which the
    serialisation of that same payload has been put under
    [payload_json], and the client holds this mapping afterwards. *)
Theorem X21_request_of_a_send :
  forall (st st' : DiscordWebhook.St) (r : Response),
    DiscordWebhook.api_post_request st = (Ok r, st') ->
    exists req,
      trace (DiscordWebhook.world st')
      = trace (DiscordWebhook.world st) ++ [EvRequest req]
      /\ method req = POST
      /\ req_url req = DiscordWebhook.url (DiscordWebhook.self st)
      /\ Dict.get "wait" (params req)
         = (if truthy (DiscordWebhook.wait (DiscordWebhook.self st))
            then Some (DiscordWebhook.wait (DiscordWebhook.self st))
            else None)
      /\ Dict.get "thread_id" (params req)
         = (if truthy (DiscordWebhook.thread_id (DiscordWebhook.self st))
            then Some (DiscordWebhook.thread_id (DiscordWebhook.self st))
            else None)
      /\ (truthy (DiscordWebhook.files (DiscordWebhook.self st)) = false ->
          exists payload,
            DiscordWebhook.json st = (Ok payload, st)
            /\ body req = JsonBody payload)
      /\ (truthy (DiscordWebhook.files (DiscordWebhook.self st)) = true ->
          exists d payload,
            DiscordWebhook.files (DiscordWebhook.self st) = VDict d
            /\ DiscordWebhook.json st = (Ok payload, st)
            /\ body req = FilesBody (with_payload_json payload d)
            /\ DiscordWebhook.files (DiscordWebhook.self st')
               = with_payload_json payload d).
Proof.
  intros st st' r H.
  destruct (query_params_get (DiscordWebhook.self st)) as [Hw Ht].
  unfold DiscordWebhook.api_post_request, bind, gets, lift in H.
  cbv beta iota in H.
  destruct (truthy (DiscordWebhook.files (DiscordWebhook.self st))) eqn:Hf;
    cbn [negb] in H; cbv beta iota in H;
    destruct (DiscordWebhook.json st) as [[payload| |] st0] eqn:Hj;
    try discriminate H;
    pose proof (json_ok _ _ _ Hj); subst st0.
  - destruct (json_dumps (VDict payload)) as [text| |] eqn:Hdumps;
      try discriminate H.
    unfold json_dumps in Hdumps.
    destruct (serializable (VDict payload)); try discriminate Hdumps.
    injection Hdumps as <-.
    unfold DiscordWebhook.files_set in H.
    destruct (DiscordWebhook.files (DiscordWebhook.self st))
      as [| | | | | | |d| |] eqn:Hfiles; try discriminate H.
    cbv beta iota in H.
    match type of H with
    | DiscordWebhook.send ?req ?s = _ =>
        pose proof (send_trace req s) as Htr;
        pose proof (send_self req s) as Hself;
        rewrite H in Htr, Hself; simpl in Htr, Hself;
        exists req
    end.
    split; [exact Htr|]. repeat split; try assumption; try discriminate.
    intros _. exists d, payload.
    repeat split; try reflexivity.
    now rewrite Hself.
  - match type of H with
    | DiscordWebhook.send ?req ?s = _ =>
        pose proof (send_trace req s) as Htr;
        rewrite H in Htr; simpl in Htr;
        exists req
    end.
    split; [exact Htr|]. repeat split; try assumption; try discriminate.
    intros _. exists payload. split; reflexivity.
Qed.

Lemma X21_request_of_a_send_witness :
  exists req d payload,
    trace (DiscordWebhook.world
             (snd (DiscordWebhook.api_post_request
                     (Sample.client Sample.hi_text_file [Sample.plain_200]))))
    = trace (DiscordWebhook.world
               (Sample.client Sample.hi_text_file [Sample.plain_200]))
      ++ [EvRequest req]
    /\ method req = POST
    /\ Dict.get "wait" (params req) = Some (VBool true)
    /\ DiscordWebhook.json
         (Sample.client Sample.hi_text_file [Sample.plain_200])
       = (Ok payload, Sample.client Sample.hi_text_file [Sample.plain_200])
    /\ body req = FilesBody (with_payload_json payload d).
Proof.
  destruct (X21_request_of_a_send
              (Sample.client Sample.hi_text_file [Sample.plain_200])
              (snd (DiscordWebhook.api_post_request
                      (Sample.client Sample.hi_text_file [Sample.plain_200])))
              Sample.plain_200 eq_refl)
    as [req [H1 [H2 [_ [H4 [_ [_ H7]]]]]]].
  destruct (H7 eq_refl) as [d [payload [_ [Hj [Hb _]]]]].
  exists req, d, payload. repeat split; assumption.
Defined.

(** X22. The requests of [edit] and [delete].  On a client whose [id]
    is the string [i] and whose URL is [u], the request [edit] prepares
    is a [PATCH] to [u/messages/i]: with no files its body is the JSON
    payload, with files it is the files mapping; and whenever [delete]
    sends, what it sends first is a [DELETE] to [u/messages/i] with no
    body and no query parameter. *)
Theorem X22_requests_of_edit_and_delete :
  forall (st : DiscordWebhook.St) (i u : string),
    DiscordWebhook.id (DiscordWebhook.self st) = Some (VStr i) ->
    DiscordWebhook.url (DiscordWebhook.self st) = Some u ->
    (forall req st',
        DiscordWebhook.edit_request st = (Ok req, st') ->
        method req = PATCH
        /\ req_url req = Some (u ++ "/messages/" ++ i)%string
        /\ (truthy (DiscordWebhook.files (DiscordWebhook.self st)) = false ->
            exists payload,
              DiscordWebhook.json st = (Ok payload, st)
              /\ body req = JsonBody payload)
        /\ (truthy (DiscordWebhook.files (DiscordWebhook.self st)) = true ->
            body req
            = FilesBody (DiscordWebhook.files (DiscordWebhook.self st'))))
    /\
    (forall fuel,
        exists evs,
          trace (DiscordWebhook.world (snd (DiscordWebhook.delete_with fuel st)))
          = trace (DiscordWebhook.world st)
            ++ EvRequest
                 (mk_request DELETE (Some (u ++ "/messages/" ++ i)%string)
                    NoBody []
                    (DiscordWebhook.proxies (DiscordWebhook.self st))
                    (DiscordWebhook.timeout (DiscordWebhook.self st)))
               :: evs).
Proof.
  intros st i u Hid Hu.
  assert (DiscordWebhook.message_url st
          = (Ok (u ++ "/messages/" ++ i)%string, st)) as Hurl
      by (unfold DiscordWebhook.message_url; now rewrite Hid, Hu).
  split.
  - intros req st' H.
    unfold DiscordWebhook.edit_request, bind, gets, lift, ret in H.
    cbv beta iota in H. rewrite Hurl in H. cbv beta iota in H.
    pose proof (json_state st) as Hjs.
    destruct (truthy (DiscordWebhook.files (DiscordWebhook.self st))) eqn:Hf;
      cbn [negb] in H; cbv beta iota in H;
      destruct (DiscordWebhook.json st) as [[payload| |] st0]; simpl in Hjs;
      subst st0; try discriminate H.
    + destruct (json_dumps (VDict payload)) as [text| |];
        try discriminate H.
      unfold DiscordWebhook.files_set in H.
      destruct (DiscordWebhook.files (DiscordWebhook.self st));
        try discriminate H.
      simpl in H. injection H as <- <-.
      repeat split; try discriminate.
    + injection H as <- <-.
      repeat split; try discriminate.
      intros _. exists payload. split; reflexivity.
  - intros fuel.
    assert (forall n r (req : Request) s,
               exists evs,
                 trace (DiscordWebhook.world
                          (snd (DiscordWebhook.handle_rate_limit n r
                                  (DiscordWebhook.send req) s)))
                 = trace (DiscordWebhook.world s) ++ evs) as Hgrow.
    { induction n as [|n IH]; intros r req s; simpl.
      - destruct (status_code r =? 429)%Z; exists []; simpl;
          now rewrite app_nil_r.
      - destruct (status_code r =? 429)%Z;
          [|exists []; simpl; now rewrite app_nil_r].
        run_monad.
        destruct (json_loads (Response.content r)) as [v| |];
          try (exists []; simpl; now rewrite app_nil_r).
        destruct (lacks_via r);
          [exists []; simpl; now rewrite app_nil_r|].
        destruct (subscript "retry_after" v) as [ra| |];
          try (exists []; simpl; now rewrite app_nil_r).
        destruct (py_float ra) as [x| |];
          try (exists []; simpl; now rewrite app_nil_r).
        simpl.
        destruct (time_sleep_trace (float_add x (15 # 100)) s) as [ev0 Hs0].
        destruct (DiscordWebhook.time_sleep (float_add x (15 # 100)) s)
          as [[[]| |] s0]; simpl in *; try (exists ev0; exact Hs0).
        match goal with
        | |- context [DiscordWebhook.send req ?s1] =>
            pose proof (send_trace req s1) as Hs1;
            destruct (DiscordWebhook.send req s1) as [[r'| |] s2]
        end; simpl in *;
          try (eexists; rewrite Hs1, Hs0, <- app_assoc; reflexivity).
        destruct (success r'); simpl;
          [eexists; rewrite Hs1, Hs0, <- app_assoc; reflexivity|].
        destruct (IH r' req s2) as [evs Hev].
        eexists. rewrite Hev, Hs1, Hs0, <- !app_assoc. reflexivity. }
    unfold DiscordWebhook.delete_with, bind, gets. cbv beta iota.
    rewrite Hurl. cbv beta iota.
    match goal with
    | |- context [DiscordWebhook.send ?req st] =>
        pose proof (send_trace req st) as Hs;
        destruct (DiscordWebhook.send req st) as [[r| |] st1]
    end; simpl in *; try (exists []; exact Hs).
    unfold ret.
    destruct (success r); [exists []; exact Hs|].
    destruct ((status_code r =? 429)%Z
              && truthy (DiscordWebhook.rate_limit_retry
                           (DiscordWebhook.self st1)))%bool;
      [|exists []; exact Hs].
    match goal with
    | |- context [DiscordWebhook.handle_rate_limit fuel r
                    (DiscordWebhook.send ?req) st1] =>
        destruct (Hgrow fuel r req st1) as [evs Hev]
    end.
    exists evs. rewrite Hev, Hs, <- app_assoc. reflexivity.
Qed.

Lemma X22_requests_of_edit_and_delete_witness :
  exists evs,
    trace (DiscordWebhook.world
             (snd (DiscordWebhook.delete_with 2 Sample.hi_retry_limited)))
    = trace (DiscordWebhook.world Sample.hi_retry_limited)
      ++ EvRequest
           (mk_request DELETE
              (Some ("https://discord.com/api/webhooks/123456789/abcDEF"
                     ++ "/messages/" ++ "123456789")%string)
              NoBody []
              (DiscordWebhook.proxies
                 (DiscordWebhook.self Sample.hi_retry_limited))
              (DiscordWebhook.timeout
                 (DiscordWebhook.self Sample.hi_retry_limited)))
         :: evs.
Proof.
  apply (proj2 (X22_requests_of_edit_and_delete Sample.hi_retry_limited
                  "123456789"
                  "https://discord.com/api/webhooks/123456789/abcDEF"
                  eq_refl eq_refl) 2%nat).
Defined.

(** ** Setters of the client and what is sent *)

Lemma get_put k k' v data :
  Dict.get k' (DiscordWebhook.put k v data)
  = if (String.eqb k' k && truthy v)%bool then Some v else Dict.get k' data.
Proof.
  unfold DiscordWebhook.put.
  destruct (truthy v); [|now rewrite andb_false_r].
  rewrite andb_true_r.
  destruct (String.eqb_spec k' k) as [->|Hne].
  - apply dict_get_set_eq.
  - apply dict_get_set_ne. congruence.
Qed.

Lemma get_set k k' (v : PyVal) data :
  Dict.get k' (Dict.set k v data)
  = if String.eqb k' k then Some v else Dict.get k' data.
Proof.
  destruct (String.eqb_spec k' k) as [->|Hne].
  - apply dict_get_set_eq.
  - apply dict_get_set_ne. congruence.
Qed.

(** X23. Setters of the client and what is sent.  On a client whose
    payload can be built: after [set_content(c)] the payload has [c]
    under [content] exactly when [c] is truthy, and every other entry is
    as before; after [remove_files] the payload has no [files] entry,
    after [remove_files(clear_attachments=True)] no [attachments] entry
    either, and every other entry is as before; after [set_proxies(p)]
    the request of a send carries the proxies [p]. *)
Theorem X23_setters_and_what_is_sent :
  forall (st : DiscordWebhook.St) (payload : dict),
    DiscordWebhook.json st = (Ok payload, st) ->
    (forall c : PyVal,
        exists payload',
          DiscordWebhook.json (snd (DiscordWebhook.set_content c st))
          = (Ok payload', snd (DiscordWebhook.set_content c st))
          /\ Dict.get "content" payload' = (if truthy c then Some c else None)
          /\ forall k, k <> "content" ->
                       Dict.get k payload' = Dict.get k payload)
    /\
    (forall clear : bool,
        exists payload',
          DiscordWebhook.json (snd (DiscordWebhook.remove_files clear st))
          = (Ok payload', snd (DiscordWebhook.remove_files clear st))
          /\ Dict.get "files" payload' = None
          /\ (clear = true -> Dict.get "attachments" payload' = None)
          /\ forall k, k <> "files" -> (clear = false \/ k <> "attachments") ->
                       Dict.get k payload' = Dict.get k payload)
    /\
    (forall (p : PyVal) (r : Response) (st' : DiscordWebhook.St),
        DiscordWebhook.api_post_request (snd (DiscordWebhook.set_proxies p st))
        = (Ok r, st') ->
        exists req,
          trace (DiscordWebhook.world st')
          = trace (DiscordWebhook.world st) ++ [EvRequest req]
          /\ req_proxies req = p).
Proof.
  intros st payload Hj. split; [|split].
  - intros c. unfold DiscordWebhook.json, DiscordWebhook.as_dict in *.
    change (deref (DiscordWebhook.world (snd (DiscordWebhook.set_content c st)))
              (DiscordWebhook.embeds
                 (DiscordWebhook.self (snd (DiscordWebhook.set_content c st)))))
      with (deref (DiscordWebhook.world st)
              (DiscordWebhook.embeds (DiscordWebhook.self st))).
    change (DiscordWebhook.id
              (DiscordWebhook.self (snd (DiscordWebhook.set_content c st))))
      with (DiscordWebhook.id (DiscordWebhook.self st)).
    destruct (DiscordWebhook.id (DiscordWebhook.self st)); [|discriminate Hj].
    destruct (deref (DiscordWebhook.world st)
                (DiscordWebhook.embeds (DiscordWebhook.self st))) as [|e es].
    + injection Hj as <-. eexists. split; [reflexivity|]. split.
      * rewrite !get_put. simpl. now destruct (truthy c).
      * intros k Hk. rewrite !get_put.
        apply String.eqb_neq in Hk. simpl. rewrite Hk. reflexivity.
    + cbv beta iota in Hj |- *.
      destruct (DiscordWebhook.embeds_as_dicts (e :: es)); try discriminate Hj.
      injection Hj as <-. eexists. split; [reflexivity|]. split.
      * repeat first [rewrite get_put | rewrite get_set]. simpl. now destruct (truthy c).
      * intros k Hk. repeat first [rewrite get_put | rewrite get_set].
        apply String.eqb_neq in Hk. simpl. rewrite Hk. reflexivity.
  - intros clear. unfold DiscordWebhook.json, DiscordWebhook.as_dict in *.
    destruct clear;
      match goal with
      | |- context [DiscordWebhook.remove_files ?b st] =>
          change (deref (DiscordWebhook.world
                           (snd (DiscordWebhook.remove_files b st)))
                    (DiscordWebhook.embeds
                       (DiscordWebhook.self
                          (snd (DiscordWebhook.remove_files b st)))))
            with (deref (DiscordWebhook.world st)
                    (DiscordWebhook.embeds (DiscordWebhook.self st)));
          change (DiscordWebhook.id
                    (DiscordWebhook.self
                       (snd (DiscordWebhook.remove_files b st))))
            with (DiscordWebhook.id (DiscordWebhook.self st))
      end;
      (destruct (DiscordWebhook.id (DiscordWebhook.self st));
       [|discriminate Hj]);
      (destruct (deref (DiscordWebhook.world st)
                   (DiscordWebhook.embeds (DiscordWebhook.self st)))
         as [|e es]);
      cbv beta iota in Hj |- *;
      try (destruct (DiscordWebhook.embeds_as_dicts (e :: es));
           try discriminate Hj);
      injection Hj as <-; eexists; (split; [reflexivity|]);
      (split; [repeat first [rewrite get_put | rewrite get_set]; reflexivity|]);
      (split; [intros Hc; try discriminate Hc;
               repeat first [rewrite get_put | rewrite get_set]; reflexivity|]);
      intros k Hk Hk'; repeat first [rewrite get_put | rewrite get_set];
      apply String.eqb_neq in Hk; simpl; rewrite ?Hk; simpl.
    all: destruct Hk' as [Hc|Hk']; try discriminate Hc; try reflexivity;
      apply String.eqb_neq in Hk'; rewrite ?Hk'; reflexivity.
  - intros p r st' H.
    set (st2 := snd (DiscordWebhook.set_proxies p st)) in *.
    assert (DiscordWebhook.proxies (DiscordWebhook.self st2) = p) as Hp
        by reflexivity.
    assert (trace (DiscordWebhook.world st2) = trace (DiscordWebhook.world st))
      as Htr2 by reflexivity.
    clearbody st2.
    unfold DiscordWebhook.api_post_request, bind, gets, lift in H.
    cbv beta iota in H.
    pose proof (json_state st2) as Hjs.
    destruct (truthy (DiscordWebhook.files (DiscordWebhook.self st2)));
      cbn [negb] in H; cbv beta iota in H;
      destruct (DiscordWebhook.json st2) as [[payload2| |] st0]; simpl in Hjs;
      subst st0; try discriminate H.
    + destruct (json_dumps (VDict payload2)) as [text| |];
        try discriminate H.
      unfold DiscordWebhook.files_set in H.
      destruct (DiscordWebhook.files (DiscordWebhook.self st2));
        try discriminate H.
      match type of H with
      | DiscordWebhook.send ?req ?s = _ =>
          pose proof (send_trace req s) as Htr;
          rewrite H in Htr; simpl in Htr;
          exists req
      end.
      split; [now rewrite Htr, Htr2 | exact Hp].
    + match type of H with
      | DiscordWebhook.send ?req ?s = _ =>
          pose proof (send_trace req s) as Htr;
          rewrite H in Htr; simpl in Htr;
          exists req
      end.
      split; [now rewrite Htr, Htr2 | exact Hp].
Qed.

Lemma X23_setters_and_what_is_sent_witness :
  exists payload',
    DiscordWebhook.json
      (snd (DiscordWebhook.set_content (VStr "bye") Sample.hi_200))
    = (Ok payload',
       snd (DiscordWebhook.set_content (VStr "bye") Sample.hi_200))
    /\ Dict.get "content" payload' = Some (VStr "bye").
Proof.
  destruct (proj1 (X23_setters_and_what_is_sent Sample.hi_200 _ eq_refl)
              (VStr "bye")) as [payload' [H1 [H2 _]]].
  exists payload'. split; assumption.
Defined.

(** ** Failing responses and negative waits *)

Lemma api_post_request_keeps_files st r st1 :
  DiscordWebhook.api_post_request st = (Ok r, st1) ->
  truthy (DiscordWebhook.files (DiscordWebhook.self st)) = true ->
  truthy (DiscordWebhook.files (DiscordWebhook.self st1)) = true.
Proof.
  intros H Hf.
  unfold DiscordWebhook.api_post_request, bind, gets, lift in H.
  cbv beta iota in H. rewrite Hf in H.
  cbn [negb] in H. cbv beta iota in H.
  destruct (DiscordWebhook.json st) as [[payload| |] st0] eqn:Hj;
    try discriminate H.
  pose proof (json_ok _ _ _ Hj); subst st0.
  destruct (json_dumps (VDict payload)) as [text| |]; try discriminate H.
  unfold DiscordWebhook.files_set in H.
  destruct (DiscordWebhook.files (DiscordWebhook.self st))
    as [| | | | | | |d| |]; try discriminate H.
  cbv beta iota in H.
  match type of H with
  | DiscordWebhook.send ?req ?s = _ =>
      pose proof (send_self req s) as Hself; rewrite H in Hself
  end.
  simpl in Hself. rewrite Hself. simpl.
  apply truthy_dict, dict_set_not_nil.
Qed.


(** X24. The log line of a failing response.  When the answer to the
    request of [execute] is a failure that is not retried (its status is
    neither 200 nor 204, and it is not a 429 with [rate_limit_retry] on)
    and its body is not valid UTF-8, [execute] raises
    [UnicodeDecodeError] while it builds the message of its
    [logger.error] call: nothing is cleaned up, the client is as
    [api_post_request] left it, and its files mapping and embeds are
    still there.  With a body in UTF-8 the failure is handed over to the
    clean-up.  [edit] raises in the same way after its one request. *)
Theorem X24_failure_log_line :
  forall (fuel : nat) (st st1 : DiscordWebhook.St) (r : Response),
    success r = false ->
    ((status_code r =? 429)%Z
     && truthy (DiscordWebhook.rate_limit_retry (DiscordWebhook.self st)))%bool
    = false ->
    (DiscordWebhook.api_post_request st = (Ok r, st1) ->
     (readable r = false ->
      forall rm,
        DiscordWebhook.execute_with fuel rm st = (Raise UnicodeDecodeError, st1)
        /\ DiscordWebhook.get_embeds st1 = DiscordWebhook.get_embeds st
        /\ (truthy (DiscordWebhook.files (DiscordWebhook.self st)) = true ->
            truthy (DiscordWebhook.files (DiscordWebhook.self st1)) = true))
     /\
     (readable r = true -> request_phase fuel st = (Ok r, st1)))
    /\
    (forall req st0,
        DiscordWebhook.edit_request st = (Ok req, st0) ->
        DiscordWebhook.send req st0 = (Ok r, st1) ->
        readable r = false ->
        DiscordWebhook.edit_with fuel st = (Raise UnicodeDecodeError, st1)).
Proof.
  intros fuel st st1 r Hfail Hoff.
  assert (forall request s,
             DiscordWebhook.rate_limit_retry (DiscordWebhook.self s)
             = DiscordWebhook.rate_limit_retry (DiscordWebhook.self st) ->
             (readable r = false ->
              DiscordWebhook.settle fuel r request s
              = (Raise UnicodeDecodeError, s))
             /\ (readable r = true ->
                 DiscordWebhook.settle fuel r request s = (Ok r, s))) as Hsettle.
  { intros request s Hs. unfold DiscordWebhook.settle, bind, gets, ret.
    cbv beta iota. rewrite Hfail, Hs, Hoff.
    unfold DiscordWebhook.log_failure, bind, lift, ret, readable, decode.
    destruct (Response.content r); split; intros Hr;
      try discriminate Hr; reflexivity. }
  split.
  - intros Hapi.
    pose proof (keeps_api_post_request st) as Hframe.
    rewrite Hapi in Hframe. simpl in Hframe.
    destruct (Hsettle DiscordWebhook.api_post_request st1
                (frame_retry _ _ Hframe)) as [Hbad Hgood].
    split.
    + intros Hr rm. split; [|split].
      * rewrite execute_with_phases. unfold request_phase, bind.
        now rewrite Hapi, (Hbad Hr).
      * exact (frame_get_embeds _ _ Hframe).
      * exact (api_post_request_keeps_files _ _ _ Hapi).
    + intros Hr. unfold request_phase, bind. now rewrite Hapi, (Hgood Hr).
  - intros req st0 Hreq Hsend Hr.
    destruct (edit_request_world st) as [_ Hretry].
    rewrite Hreq in Hretry. simpl in Hretry.
    pose proof (send_self req st0) as Hself. rewrite Hsend in Hself.
    simpl in Hself.
    unfold DiscordWebhook.edit_with, bind. rewrite Hreq, Hsend.
    apply Hsettle; [|exact Hr]. now rewrite Hself.
Qed.

Lemma X24_failure_log_line_witness :
  DiscordWebhook.execute_with 1 true
    (Sample.client Sample.hi_text_file [Sample.garbled_500])
  = (Raise UnicodeDecodeError,
     snd (DiscordWebhook.api_post_request
            (Sample.client Sample.hi_text_file [Sample.garbled_500])))
  /\ truthy (DiscordWebhook.files
               (DiscordWebhook.self
                  (snd (DiscordWebhook.api_post_request
                          (Sample.client Sample.hi_text_file
                             [Sample.garbled_500])))))
     = true.
Proof.
  destruct (proj1 (proj1 (X24_failure_log_line 1
                     (Sample.client Sample.hi_text_file [Sample.garbled_500])
                     (snd (DiscordWebhook.api_post_request
                             (Sample.client Sample.hi_text_file
                                [Sample.garbled_500])))
                     Sample.garbled_500 eq_refl eq_refl) eq_refl)
              eq_refl true) as [H1 [_ H3]].
  split; [exact H1 | exact (H3 eq_refl)].
Defined.




